(** * Contextual retrieval and conversation orchestration

    A shallow embedding of the Go services of the chatbot
    (internal/utils, internal/store, internal/core, internal/api) and
    the properties of its retrieval ranker, ingestion pipeline, chat
    turns and handlers.

    Conventions of the embedding.
    - A Go function returning [(T, error)] is a Rocq function returning
      [T * option error]; [None] is Go's [nil] error.
    - [float32] is IEEE-754 binary32, given by the parametric
      specification of the Standard Library ([SpecFloat], precision 24,
      emax 128) with round-to-nearest-even, no fused operations.
    - A Go [string] is a sequence of bytes: [String.string]; an [int]
      that counts the elements of a slice is a [nat], one that the
      program decrements past zero is a [Z].
    - Calls to [log] leave no trace in the embedding.
    - The database, the LLM gateway, the clock, the UUID source and the
      file system are external: their answers are read from a [World] of
      oracles, and every interaction is recorded in the [State]. *)

From Stdlib Require Import ZArith NArith PeanoNat List Bool Lia String Ascii.
From Stdlib Require Import Permutation Sorted.
From Stdlib Require Import Floats.SpecFloat.
Import ListNotations.

Set Implicit Arguments.

(* ================================================================= *)
(** ** Errors *)

(** Go's [error] values as the program builds them: a fixed text
    ([fmt.Errorf] without verbs, [errors.New]), a text wrapping a cause
    ([fmt.Errorf("...: %w", err)]) or an error raised by a collaborator
    (SQL driver, gateway, operating system). *)
Inductive error : Type :=
| Errorf (msg : string)
| Wrapf (msg : string) (cause : error)
| External (code : nat).

Definition ret (A : Type) : Type := (A * option error)%type.

(* ================================================================= *)
(** ** float32 *)

Module F32.

Definition float32 : Type := spec_float.
Definition float64 : Type := spec_float.

Definition prec32 : Z := 24.
Definition emax32 : Z := 128.
Definition prec64 : Z := 53.
Definition emax64 : Z := 1024.

(** A Go float32 is a [spec_float] that is valid at binary32. *)
Definition valid (x : float32) : bool := valid_binary prec32 emax32 x.

Definition zero : float32 := S754_zero false.

Definition add (x y : float32) : float32 := SFadd prec32 emax32 x y.
Definition mul (x y : float32) : float32 := SFmul prec32 emax32 x y.
Definition div (x y : float32) : float32 := SFdiv prec32 emax32 x y.

(** Go's comparison operators on floats; all are false on NaN. *)
Definition eqb (x y : float32) : bool := SFeqb x y.
Definition ltb (x y : float32) : bool := SFltb x y.
Definition gtb (x y : float32) : bool := SFltb y x.
Definition geb (x y : float32) : bool := SFleb y x.

(** Conversion to a format: the value is kept when it is representable
    and rounded to nearest-even otherwise. *)
Definition round_to (prec emax : Z) (x : spec_float) : spec_float :=
  match x with
  | S754_finite s m e => binary_round prec emax s m e
  | _ => x
  end.

(** [float64(x)] and [float32(y)]. *)
Definition to_float64 (x : float32) : float64 := round_to prec64 emax64 x.
Definition of_float64 (y : float64) : float32 := round_to prec32 emax32 y.

(** [math.Sqrt] on float64. *)
Definition math_Sqrt (y : float64) : float64 := SFsqrt prec64 emax64 y.

(** A float32 from an integer and from a decimal constant [n/d]
    (Go rounds an untyped constant to the nearest float32). *)
Definition of_Z (n : Z) : float32 := binary_normalize prec32 emax32 n 0 false.
Definition of_ratio (n d : Z) : float32 := div (of_Z n) (of_Z d).

End F32.

Export F32(float32).

(* ================================================================= *)
(** ** internal/utils: vector arithmetic *)

Module utils.

Definition ErrDimensionMismatch : error :=
  Errorf "vectors must have the same dimension".
Definition ErrEmptyVector : error := Errorf "vectors cannot be empty".

(** The loop of [dotProduct]: [product += vec1[i] * vec2[i]] for
    [i] ranging over [vec1]; it runs on vectors of equal length. *)
Fixpoint dotProduct_loop (vec1 vec2 : list float32) (product : float32)
  : float32 :=
  match vec1, vec2 with
  | x :: vec1', y :: vec2' =>
      dotProduct_loop vec1' vec2' (F32.add product (F32.mul x y))
  | _, _ => product
  end.

Definition dotProduct (vec1 vec2 : list float32) : ret float32 :=
  if negb (List.length vec1 =? List.length vec2)%nat
  then (F32.zero, Some ErrDimensionMismatch)
  else (dotProduct_loop vec1 vec2 F32.zero, None).

(** The loop of [magnitude]: [sumOfSquares += val * val]. *)
Definition sumOfSquares (vec : list float32) : float32 :=
  fold_left (fun acc val => F32.add acc (F32.mul val val)) vec F32.zero.

Definition magnitude (vec : list float32) : float32 :=
  F32.of_float64 (F32.math_Sqrt (F32.to_float64 (sumOfSquares vec))).

Definition CosineSimilarity (vec1 vec2 : list float32) : ret float32 :=
  if ((List.length vec1 =? 0)%nat || (List.length vec2 =? 0)%nat)%bool
  then (F32.zero, Some ErrEmptyVector)
  else
    match dotProduct vec1 vec2 with
    | (_, Some err) => (F32.zero, Some err)
    | (dotProduct, None) =>
        let mag1 := magnitude vec1 in
        let mag2 := magnitude vec2 in
        if (F32.eqb mag1 F32.zero || F32.eqb mag2 F32.zero)%bool
        then (F32.zero, None)
        else (F32.div dotProduct (F32.mul mag1 mag2), None)
    end.

End utils.

(* ================================================================= *)
(** ** The Go library functions on strings that the program calls *)

Definition byte_val (c : ascii) : N := N_of_ascii c.

(** Package unicode/utf8: decoding of the first and of the last rune. *)
Module utf8.

Definition RuneError : N := 65533.
Definition RuneSelf : N := 128.
Definition UTFMax : Z := 4.

(** Table [first]: for a leading byte at or above [RuneSelf], the
    length of the sequence and the range accepted for the second
    byte; [None] for a byte that cannot start a sequence. *)
Definition first (b : N) : option (nat * N * N) :=
  if (b <? 194)%N then None
  else if (b <=? 223)%N then Some (2%nat, 128%N, 191%N)
  else if (b =? 224)%N then Some (3%nat, 160%N, 191%N)
  else if (b <=? 236)%N then Some (3%nat, 128%N, 191%N)
  else if (b =? 237)%N then Some (3%nat, 128%N, 159%N)
  else if (b <=? 239)%N then Some (3%nat, 128%N, 191%N)
  else if (b =? 240)%N then Some (4%nat, 144%N, 191%N)
  else if (b <=? 243)%N then Some (4%nat, 128%N, 191%N)
  else if (b =? 244)%N then Some (4%nat, 128%N, 143%N)
  else None.

Definition continuation (b : N) : bool := ((128 <=? b) && (b <=? 191))%N.

Definition DecodeRuneInString (s : string) : N * nat :=
  match s with
  | EmptyString => (RuneError, 0%nat)
  | String c0 r0 =>
      let s0 := byte_val c0 in
      if (s0 <? RuneSelf)%N then (s0, 1%nat)
      else
        match first s0 with
        | None => (RuneError, 1%nat)
        | Some (sz, lo, hi) =>
            if (String.length s <? sz)%nat then (RuneError, 1%nat)
            else
              match r0 with
              | EmptyString => (RuneError, 1%nat)
              | String c1 r1 =>
                  let s1 := byte_val c1 in
                  if ((s1 <? lo) || (hi <? s1))%N then (RuneError, 1%nat)
                  else if (sz <=? 2)%nat
                  then (N.lor (N.shiftl (N.land s0 31) 6) (N.land s1 63),
                        2%nat)
                  else
                    match r1 with
                    | EmptyString => (RuneError, 1%nat)
                    | String c2 r2 =>
                        let s2 := byte_val c2 in
                        if negb (continuation s2) then (RuneError, 1%nat)
                        else if (sz <=? 3)%nat
                        then (N.lor (N.shiftl (N.land s0 15) 12)
                                (N.lor (N.shiftl (N.land s1 63) 6)
                                   (N.land s2 63)), 3%nat)
                        else
                          match r2 with
                          | EmptyString => (RuneError, 1%nat)
                          | String c3 _ =>
                              let s3 := byte_val c3 in
                              if negb (continuation s3)
                              then (RuneError, 1%nat)
                              else (N.lor (N.shiftl (N.land s0 7) 18)
                                      (N.lor (N.shiftl (N.land s1 63) 12)
                                         (N.lor (N.shiftl (N.land s2 63) 6)
                                            (N.land s3 63))), 4%nat)
                          end
                    end
              end
        end
  end.

Definition RuneStart (b : N) : bool := negb (N.land b 192 =? 128)%N.

Definition byte_at (s : string) (i : Z) : N :=
  match String.get (Z.to_nat i) s with
  | Some c => byte_val c
  | None => 0%N
  end.

(** The backward scan of [DecodeLastRuneInString]:
    [for start--; start >= lim; start-- { if RuneStart(s[start]) break }];
    it tests at most [UTFMax] positions. *)
Fixpoint scan_back (s : string) (start lim : Z) (tests : nat) : Z :=
  match tests with
  | O => start
  | S tests' =>
      if (start <? lim)%Z then start
      else if RuneStart (byte_at s start) then start
      else scan_back s (start - 1) lim tests'
  end.

Definition DecodeLastRuneInString (s : string) : N * nat :=
  let end_ := Z.of_nat (String.length s) in
  if (end_ =? 0)%Z then (RuneError, 0%nat)
  else
    let r := byte_at s (end_ - 1) in
    if (r <? RuneSelf)%N then (r, 1%nat)
    else
      let lim := Z.max 0 (end_ - UTFMax) in
      let start := scan_back s (end_ - 2) lim 4 in
      let start := if (start <? 0)%Z then 0%Z else start in
      let '(r, size) :=
        DecodeRuneInString
          (substring (Z.to_nat start) (Z.to_nat (end_ - start)) s) in
      if negb (start + Z.of_nat size =? end_)%Z then (RuneError, 1%nat)
      else (r, size).

End utf8.

Module unicode.

(** [unicode.IsSpace]: the Latin-1 spaces, then the White_Space table. *)
Definition IsSpace (r : N) : bool :=
  if (r <=? 255)%N
  then ((9 <=? r) && (r <=? 13) || (r =? 32) || (r =? 133) || (r =? 160))%N
  else ((r =? 5760) || ((8192 <=? r) && (r <=? 8202)) || (r =? 8232)
        || (r =? 8233) || (r =? 8239) || (r =? 8287) || (r =? 12288))%N.

End unicode.

Module strings.

Definition drop (n : nat) (s : string) : string :=
  substring n (String.length s - n) s.

(** [asciiSpace]: tab, line feed, vertical tab, form feed, carriage
    return and space. *)
Definition asciiSpace (c : N) : bool :=
  ((9 <=? c) && (c <=? 13) || (c =? 32))%N.

(** [for i, r := range s]: [i] is the offset of the rune that starts
    at the head of [s] once [skip] bytes of the previous rune are
    passed; the result is the offset of the first rune whose test
    equals [truth]. *)
Fixpoint indexFunc_from (s : string) (skip i : nat) (f : N -> bool)
  (truth : bool) : option nat :=
  match s with
  | EmptyString => None
  | String _ s' =>
      match skip with
      | S k => indexFunc_from s' k (S i) f truth
      | O =>
          let '(r, size) := utf8.DecodeRuneInString s in
          if Bool.eqb (f r) truth then Some i
          else indexFunc_from s' (size - 1) (S i) f truth
      end
  end.

Definition indexFunc (s : string) (f : N -> bool) (truth : bool)
  : option nat := indexFunc_from s 0 0 f truth.

(** [for i := len(s); i > 0; { r, size := DecodeLastRuneInString(s[0:i]);
    i -= size; if f(r) == truth { return i } }]; every turn lowers [i],
    so [len(s)] turns are enough. *)
Fixpoint lastIndexFunc_from (turns : nat) (s : string) (i : nat)
  (f : N -> bool) (truth : bool) : option nat :=
  match turns with
  | O => None
  | S turns' =>
      if (i =? 0)%nat then None
      else
        let '(r, size) := utf8.DecodeLastRuneInString (substring 0 i s) in
        let i := (i - size)%nat in
        if Bool.eqb (f r) truth then Some i
        else lastIndexFunc_from turns' s i f truth
  end.

Definition lastIndexFunc (s : string) (f : N -> bool) (truth : bool)
  : option nat :=
  lastIndexFunc_from (String.length s) s (String.length s) f truth.

Definition TrimLeftFunc (s : string) (f : N -> bool) : string :=
  match indexFunc s f false with
  | None => EmptyString
  | Some i => drop i s
  end.

Definition TrimRightFunc (s : string) (f : N -> bool) : string :=
  match lastIndexFunc s f false with
  | Some i =>
      if (utf8.RuneSelf <=? utf8.byte_at s (Z.of_nat i))%N
      then substring 0 (i + snd (utf8.DecodeRuneInString (drop i s))) s
      else substring 0 (i + 1) s
  | None => EmptyString
  end.

Definition TrimFunc (s : string) (f : N -> bool) : string :=
  TrimRightFunc (TrimLeftFunc s f) f.

(** Second loop of [TrimSpace], on [s[start:]] with its bytes taken
    from the end: [rev_tail] is [s[start:stop]] reversed. *)
Fixpoint TrimSpace_stop (rev_tail : list ascii) : string :=
  match rev_tail with
  | [] => EmptyString
  | c :: rest =>
      if (utf8.RuneSelf <=? byte_val c)%N
      then TrimRightFunc (string_of_list_ascii (rev rev_tail))
             unicode.IsSpace
      else if asciiSpace (byte_val c) then TrimSpace_stop rest
      else string_of_list_ascii (rev rev_tail)
  end.

(** [strings.TrimSpace]: the first loop advances [start] over ASCII
    spaces and hands over to [TrimFunc] at the first byte at or above
    [RuneSelf]. *)
Fixpoint TrimSpace (s : string) : string :=
  match s with
  | EmptyString => EmptyString
  | String c s' =>
      if (utf8.RuneSelf <=? byte_val c)%N then TrimFunc s unicode.IsSpace
      else if asciiSpace (byte_val c) then TrimSpace s'
      else TrimSpace_stop (rev (list_ascii_of_string s))
  end.

(** [strings.Split(s, sep)] for a separator of one byte. *)
Fixpoint Split (s : string) (sep : ascii) : list string :=
  match s with
  | EmptyString => [EmptyString]
  | String c s' =>
      if Ascii.eqb c sep then EmptyString :: Split s' sep
      else
        match Split s' sep with
        | h :: t => String c h :: t
        | [] => [String c EmptyString]
        end
  end.

Definition HasPrefix (s pre : string) : bool := String.prefix pre s.

Definition HasSuffix (s suf : string) : bool :=
  ((String.length suf <=? String.length s)%nat
   && String.eqb (drop (String.length s - String.length suf) s) suf)%bool.

Fixpoint Contains (s substr : string) : bool :=
  if String.prefix substr s then true
  else
    match s with
    | EmptyString => false
    | String _ s' => Contains s' substr
    end.

(** [strings.ToLower] on the bytes ['A'..'Z']. The program only asks
    whether the result contains ["text"] or ["content"]; Go's
    rune-wise mapping sends runes outside ASCII to runes outside
    ASCII or to ['i'] and ['k'], so it agrees with this byte-wise
    mapping on every such question. *)
Definition lower_byte (c : ascii) : ascii :=
  let n := byte_val c in
  if ((65 <=? n) && (n <=? 90))%N then ascii_of_N (n + 32) else c.

Fixpoint ToLower (s : string) : string :=
  match s with
  | EmptyString => EmptyString
  | String c s' => String (lower_byte c) (ToLower s')
  end.

(** *** [strings.Trim] *)

(** [for len(s) > 0 && cut(s[0]) { s = s[1:] }], on the bytes of [s]. *)
Fixpoint cut_head (cut : ascii -> bool) (l : list ascii) : list ascii :=
  match l with
  | [] => []
  | c :: l' => if cut c then cut_head cut l' else l
  end.

Definition trimLeftByte (s : string) (c : ascii) : string :=
  string_of_list_ascii (cut_head (Ascii.eqb c) (list_ascii_of_string s)).

(** [for len(s) > 0 && s[len(s)-1] == c { s = s[:len(s)-1] }]: the
    bytes are taken from the end. *)
Definition trimRightByte (s : string) (c : ascii) : string :=
  string_of_list_ascii
    (rev (cut_head (Ascii.eqb c) (rev (list_ascii_of_string s)))).

(** [asciiSet]: a set of ASCII bytes, by its membership test
    [contains]. [makeASCIISet] fails on a byte at or above
    [RuneSelf]. *)
Definition asciiSet : Type := ascii -> bool.

Definition makeASCIISet (chars : string) : option asciiSet :=
  if forallb (fun c => (byte_val c <? utf8.RuneSelf)%N)
       (list_ascii_of_string chars)
  then Some (fun c => existsb (Ascii.eqb c) (list_ascii_of_string chars))
  else None.

Definition trimLeftASCII (s : string) (as_ : asciiSet) : string :=
  string_of_list_ascii (cut_head as_ (list_ascii_of_string s)).

Definition trimRightASCII (s : string) (as_ : asciiSet) : string :=
  string_of_list_ascii (rev (cut_head as_ (rev (list_ascii_of_string s)))).

(** [string(r)] for a valid rune at or above [RuneSelf]. *)
Definition encode (r : N) : string :=
  let tail (k : N) : ascii :=
    ascii_of_N (N.lor 128 (N.land (N.shiftr r k) 63)) in
  if (r <=? 2047)%N
  then String (ascii_of_N (N.lor 192 (N.shiftr r 6)))
         (String (tail 0%N) EmptyString)
  else if (r <=? 65535)%N
  then String (ascii_of_N (N.lor 224 (N.shiftr r 12)))
         (String (tail 6%N) (String (tail 0%N) EmptyString))
  else String (ascii_of_N (N.lor 240 (N.shiftr r 18)))
         (String (tail 12%N)
            (String (tail 6%N) (String (tail 0%N) EmptyString))).

(** [utf8.ValidRune]: in range and not a surrogate half. *)
Definition ValidRune (r : N) : bool :=
  ((r <? 55296) || ((57343 <? r) && (r <=? 1114111)))%N.

(** [ContainsRune(s, r)], that is [IndexRune(s, r) >= 0]. *)
Definition ContainsRune (s : string) (r : N) : bool :=
  if (r <? utf8.RuneSelf)%N
  then existsb (fun c => (byte_val c =? r)%N) (list_ascii_of_string s)
  else if (r =? utf8.RuneError)%N
  then match indexFunc s (fun x => (x =? utf8.RuneError)%N) true with
       | Some _ => true
       | None => false
       end
  else if negb (ValidRune r) then false
  else Contains s (encode r).

(** [for len(s) > 0 { r, n := rune(s[0]), 1; if r >= RuneSelf { r, n =
    DecodeRuneInString(s) }; if !ContainsRune(cutset, r) { break };
    s = s[n:] }]; every turn shortens [s]. *)
Fixpoint trimLeftUnicode_loop (turns : nat) (s cutset : string) : string :=
  match turns with
  | O => s
  | S turns' =>
      if (String.length s =? 0)%nat then s
      else
        let '(r, n) :=
          if (utf8.RuneSelf <=? utf8.byte_at s 0)%N
          then utf8.DecodeRuneInString s
          else (utf8.byte_at s 0, 1%nat) in
        if negb (ContainsRune cutset r) then s
        else trimLeftUnicode_loop turns' (drop n s) cutset
  end.

Definition trimLeftUnicode (s cutset : string) : string :=
  trimLeftUnicode_loop (String.length s) s cutset.

Fixpoint trimRightUnicode_loop (turns : nat) (s cutset : string) : string :=
  match turns with
  | O => s
  | S turns' =>
      if (String.length s =? 0)%nat then s
      else
        let last := utf8.byte_at s (Z.of_nat (String.length s) - 1) in
        let '(r, n) :=
          if (utf8.RuneSelf <=? last)%N
          then utf8.DecodeLastRuneInString s
          else (last, 1%nat) in
        if negb (ContainsRune cutset r) then s
        else trimRightUnicode_loop turns'
               (substring 0 (String.length s - n) s) cutset
  end.

Definition trimRightUnicode (s cutset : string) : string :=
  trimRightUnicode_loop (String.length s) s cutset.

Definition Trim (s cutset : string) : string :=
  match s, cutset with
  | EmptyString, _ | _, EmptyString => s
  | _, String c rest =>
      if ((String.length cutset =? 1)%nat
          && (byte_val c <? utf8.RuneSelf)%N)%bool
      then trimLeftByte (trimRightByte s c) c
      else
        match makeASCIISet cutset with
        | Some as_ => trimLeftASCII (trimRightASCII s as_) as_
        | None => trimLeftUnicode (trimRightUnicode s cutset) cutset
        end
  end.

End strings.

Local Open Scope string_scope.

(* ================================================================= *)
(** ** Package sort *)

Module sort.

(** What Go asks of a [less] function, on the elements being sorted:
    it never holds of an element and itself, and it "must describe a
    transitive ordering: if both Less(i, j) and Less(j, k) are true,
    then Less(i, k) must be true as well; if both Less(i, j) and
    Less(j, k) are false, then Less(i, k) must be false as well". *)
Record transitive_ordering (A : Type) (less : A -> A -> bool)
  (l : list A) : Prop := {
  less_irrefl : forall x, In x l -> less x x = false;
  less_trans : forall x y z, In x l -> In y l -> In z l ->
    less x y = true -> less y z = true -> less x z = true;
  less_incomparable : forall x y z, In x l -> In y l -> In z l ->
    less x y = false -> less y z = false -> less x z = false
}.

(** No element must sort before an element that precedes it. *)
Definition sorted (A : Type) (less : A -> A -> bool) (l : list A) : Prop :=
  StronglySorted (fun a b => less b a = false) l.

(** [sort.Slice]. The program is embedded over the function that the
    Go toolchain provides under this name. *)
Class Sorter : Type := {
  Slice : forall A : Type, (A -> A -> bool) -> list A -> list A
}.

(** What the documentation of [sort.Slice] promises: the slice is
    rearranged, and in order; it adds that "the sort is not guaranteed
    to be stable". *)
Class Contract (sorter : Sorter) : Prop := {
  Slice_Permutation : forall (A : Type) (less : A -> A -> bool) l,
    Permutation l (Slice less l);
  Slice_sorted : forall (A : Type) (less : A -> A -> bool) l,
    transitive_ordering less l -> sorted less (Slice less l)
}.

(** [insertionSort_func]: the element at [i] moves down while it is
    less than its left neighbour,
    [for j := i; j > a && less(j, j-1); j-- { swap(j, j-1) }].
    [done] is the part already in order, last element first. *)
Fixpoint sink (A : Type) (less : A -> A -> bool) (x : A) (done : list A)
  : list A :=
  match done with
  | [] => [x]
  | y :: done' => if less x y then y :: sink less x done' else x :: done
  end.

Definition insertionSort (A : Type) (less : A -> A -> bool) (l : list A)
  : list A :=
  rev (fold_left (fun done x => sink less x done) l []).

(** *** The algorithm of the toolchain

    From Go 1.19 on (the repository asks for 1.23 and builds with
    1.24), [sort.Slice] is [pdqsort_func], a pattern-defeating
    quicksort over the indices of the slice. An index is an [int]: a
    [Z]. Every loop is bounded by a number of turns that it cannot
    exceed. *)
Section Pdqsort.

Variable A : Type.
Variable less : A -> A -> bool.

Definition elem (data : list A) (i : Z) : option A :=
  if (i <? 0)%Z then None else nth_error data (Z.to_nat i).

Fixpoint set_nth (data : list A) (n : nat) (x : A) : list A :=
  match data, n with
  | [], _ => []
  | _ :: rest, O => x :: rest
  | y :: rest, S n' => y :: set_nth rest n' x
  end.

(** [data.Less(i, j)] and [data.Swap(i, j)] of [lessSwap]. *)
Definition Less (data : list A) (i j : Z) : bool :=
  match elem data i, elem data j with
  | Some x, Some y => less x y
  | _, _ => false
  end.

Definition Swap (data : list A) (i j : Z) : list A :=
  match elem data i, elem data j with
  | Some x, Some y => set_nth (set_nth data (Z.to_nat i) y) (Z.to_nat j) x
  | _, _ => data
  end.

(** [insertionSort_func(data, a, b)] sorts [data[a:b]] in place. *)
Definition insertionSort_func (data : list A) (a b : Z) : list A :=
  (firstn (Z.to_nat a) data
     ++ insertionSort less
          (firstn (Z.to_nat (b - a)) (skipn (Z.to_nat a) data))
     ++ skipn (Z.to_nat b) data)%list.

(** [siftDown_func(data, lo, hi, first)], from [root := lo]. *)
Fixpoint siftDown_func (turns : nat) (data : list A) (root hi first : Z)
  : list A :=
  match turns with
  | O => data
  | S turns' =>
      let child := (2 * root + 1)%Z in
      if (hi <=? child)%Z then data
      else
        let child :=
          if ((child + 1 <? hi)%Z
              && Less data (first + child) (first + child + 1))%bool
          then (child + 1)%Z else child in
        if negb (Less data (first + root) (first + child)) then data
        else siftDown_func turns'
               (Swap data (first + root) (first + child)) child hi first
  end.

(** [for i := (hi - 1) / 2; i >= 0; i-- { siftDown_func(data, i, hi, first) }]. *)
Fixpoint heap_build (turns : nat) (data : list A) (i hi first : Z)
  : list A :=
  match turns with
  | O => data
  | S turns' =>
      if (0 <=? i)%Z
      then heap_build turns'
             (siftDown_func (Z.to_nat hi) data i hi first) (i - 1) hi first
      else data
  end.

(** [for i := hi - 1; i >= 0; i-- { data.Swap(first, first+i);
    siftDown_func(data, lo, i, first) }]. *)
Fixpoint heap_pop (turns : nat) (data : list A) (i first : Z) : list A :=
  match turns with
  | O => data
  | S turns' =>
      if (0 <=? i)%Z
      then heap_pop turns'
             (siftDown_func (Z.to_nat i) (Swap data first (first + i))
                0 i first) (i - 1) first
      else data
  end.

Definition heapSort_func (data : list A) (a b : Z) : list A :=
  let first := a in
  let hi := (b - a)%Z in
  let data := heap_build (Z.to_nat hi) data ((hi - 1) ÷ 2) hi first in
  heap_pop (Z.to_nat hi) data (hi - 1) first.

Inductive sortedHint : Type := unknownHint | increasingHint | decreasingHint.

(** [order2_func] and [median_func]; [swaps] is passed by pointer. *)
Definition order2_func (data : list A) (a b swaps : Z) : Z * Z * Z :=
  if Less data b a then (b, a, (swaps + 1)%Z) else (a, b, swaps).

Definition median_func (data : list A) (a b c swaps : Z) : Z * Z :=
  let '(a, b, swaps) := order2_func data a b swaps in
  let '(b, c, swaps) := order2_func data b c swaps in
  let '(a, b, swaps) := order2_func data a b swaps in
  (b, swaps).

Definition medianAdjacent_func (data : list A) (a swaps : Z) : Z * Z :=
  median_func data (a - 1) a (a + 1) swaps.

Definition choosePivot_func (data : list A) (a b : Z) : Z * sortedHint :=
  let l := (b - a)%Z in
  let i := (a + l ÷ 4 * 1)%Z in
  let j := (a + l ÷ 4 * 2)%Z in
  let k := (a + l ÷ 4 * 3)%Z in
  let '(j, swaps) :=
    if (8 <=? l)%Z
    then
      if (50 <=? l)%Z
      then
        let '(i, swaps) := medianAdjacent_func data i 0 in
        let '(j, swaps) := medianAdjacent_func data j swaps in
        let '(k, swaps) := medianAdjacent_func data k swaps in
        median_func data i j k swaps
      else median_func data i j k 0
    else (j, 0%Z) in
  if (swaps =? 0)%Z then (j, increasingHint)
  else if (swaps =? 12)%Z then (j, decreasingHint)
  else (j, unknownHint).

(** [reverseRange_func]: [for i < j { data.Swap(i, j); i++; j-- }]. *)
Fixpoint reverse_from (turns : nat) (data : list A) (i j : Z) : list A :=
  match turns with
  | O => data
  | S turns' =>
      if (i <? j)%Z then reverse_from turns' (Swap data i j) (i + 1) (j - 1)
      else data
  end.

Definition reverseRange_func (data : list A) (a b : Z) : list A :=
  reverse_from (Z.to_nat (b - a)) data a (b - 1).

(** The loops of [partialInsertionSort_func]:
    [for i < b && !data.Less(i, i-1) { i++ }];
    [for j := i - 1; j >= 1; j-- { if !data.Less(j, j-1) { break };
    data.Swap(j, j-1) }];
    [for j := i + 1; j < b; j++ { if !data.Less(j, j-1) { break };
    data.Swap(j, j-1) }]. *)
Fixpoint in_order_up_to (turns : nat) (data : list A) (b i : Z) : Z :=
  match turns with
  | O => i
  | S turns' =>
      if ((i <? b)%Z && negb (Less data i (i - 1)))%bool
      then in_order_up_to turns' data b (i + 1) else i
  end.

Fixpoint shift_left (turns : nat) (data : list A) (j : Z) : list A :=
  match turns with
  | O => data
  | S turns' =>
      if (1 <=? j)%Z
      then if negb (Less data j (j - 1)) then data
           else shift_left turns' (Swap data j (j - 1)) (j - 1)
      else data
  end.

Fixpoint shift_right (turns : nat) (data : list A) (b j : Z) : list A :=
  match turns with
  | O => data
  | S turns' =>
      if (j <? b)%Z
      then if negb (Less data j (j - 1)) then data
           else shift_right turns' (Swap data j (j - 1)) b (j + 1)
      else data
  end.

(** [for j := 0; j < maxSteps; j++], with [maxSteps = 5] and
    [shortestShifting = 50]. *)
Fixpoint partial_steps (steps : nat) (data : list A) (a b i : Z)
  : list A * bool :=
  match steps with
  | O => (data, false)
  | S steps' =>
      let i := in_order_up_to (Z.to_nat (b - i)) data b i in
      if (i =? b)%Z then (data, true)
      else if (b - a <? 50)%Z then (data, false)
      else
        let data := Swap data i (i - 1) in
        let data :=
          if (2 <=? i - a)%Z then shift_left (Z.to_nat i) data (i - 1)
          else data in
        let data :=
          if (2 <=? b - i)%Z
          then shift_right (Z.to_nat (b - i)) data b (i + 1)
          else data in
        partial_steps steps' data a b i
  end.

Definition partialInsertionSort_func (data : list A) (a b : Z)
  : list A * bool := partial_steps 5 data a b (a + 1).

(** [xorshift.Next] on [uint64], [bits.Len] and [nextPowerOfTwo]. *)
Definition uint64 (x : Z) : Z := (x mod 2 ^ 64)%Z.

Definition xorshift_Next (r : Z) : Z :=
  let r := Z.lxor r (uint64 (Z.shiftl r 13)) in
  let r := Z.lxor r (Z.shiftr r 7) in
  Z.lxor r (uint64 (Z.shiftl r 17)).

Definition bits_Len (x : Z) : Z :=
  if (x <=? 0)%Z then 0%Z else (Z.log2 x + 1)%Z.

Definition nextPowerOfTwo (length : Z) : Z := Z.shiftl 1 (bits_Len length).

(** [for i := 0; i < 3; i++] of [breakPatterns_func]. *)
Fixpoint break_swaps (turns : nat) (data : list A)
  (a length idx i random modulus : Z) : list A :=
  match turns with
  | O => data
  | S turns' =>
      let random := xorshift_Next random in
      let other := Z.land random (modulus - 1) in
      let other := if (length <=? other)%Z then (other - length)%Z
                   else other in
      break_swaps turns' (Swap data (idx - 1 + i) (a + other))
        a length idx (i + 1) random modulus
  end.

Definition breakPatterns_func (data : list A) (a b : Z) : list A :=
  let length := (b - a)%Z in
  if (8 <=? length)%Z
  then break_swaps 3 data a length (a + length ÷ 4 * 2 - 1) 0 length
         (nextPowerOfTwo length)
  else data.

(** The scans of [partition_func]:
    [for i <= j && data.Less(i, a) { i++ }] and
    [for i <= j && !data.Less(j, a) { j-- }]. *)
Fixpoint scan_up (turns : nat) (data : list A) (a i j : Z) : Z :=
  match turns with
  | O => i
  | S turns' =>
      if ((i <=? j)%Z && Less data i a)%bool
      then scan_up turns' data a (i + 1) j else i
  end.

Fixpoint scan_down (turns : nat) (data : list A) (a i j : Z) : Z :=
  match turns with
  | O => j
  | S turns' =>
      if ((i <=? j)%Z && negb (Less data j a))%bool
      then scan_down turns' data a i (j - 1) else j
  end.

(** The [for { ... }] of [partition_func]; it ends on [i > j]. *)
Fixpoint partition_loop (turns : nat) (data : list A) (a b i j : Z)
  : list A * Z :=
  match turns with
  | O => (data, j)
  | S turns' =>
      let i := scan_up (Z.to_nat (b - a)) data a i j in
      let j := scan_down (Z.to_nat (b - a)) data a i j in
      if (j <? i)%Z then (data, j)
      else partition_loop turns' (Swap data i j) a b (i + 1) (j - 1)
  end.

Definition partition_func (data : list A) (a b pivot : Z)
  : list A * Z * bool :=
  let data := Swap data a pivot in
  let i := (a + 1)%Z in
  let j := (b - 1)%Z in
  let i := scan_up (Z.to_nat (b - a)) data a i j in
  let j := scan_down (Z.to_nat (b - a)) data a i j in
  if (j <? i)%Z then (Swap data j a, j, true)
  else
    let data := Swap data i j in
    let '(data, j) :=
      partition_loop (Z.to_nat (b - a)) data a b (i + 1) (j - 1) in
    (Swap data j a, j, false).

(** The scans of [partitionEqual_func]:
    [for i <= j && !data.Less(a, i) { i++ }] and
    [for i <= j && data.Less(a, j) { j-- }]. *)
Fixpoint equal_up (turns : nat) (data : list A) (a i j : Z) : Z :=
  match turns with
  | O => i
  | S turns' =>
      if ((i <=? j)%Z && negb (Less data a i))%bool
      then equal_up turns' data a (i + 1) j else i
  end.

Fixpoint equal_down (turns : nat) (data : list A) (a i j : Z) : Z :=
  match turns with
  | O => j
  | S turns' =>
      if ((i <=? j)%Z && Less data a j)%bool
      then equal_down turns' data a i (j - 1) else j
  end.

Fixpoint equal_loop (turns : nat) (data : list A) (a b i j : Z)
  : list A * Z :=
  match turns with
  | O => (data, i)
  | S turns' =>
      let i := equal_up (Z.to_nat (b - a)) data a i j in
      let j := equal_down (Z.to_nat (b - a)) data a i j in
      if (j <? i)%Z then (data, i)
      else equal_loop turns' (Swap data i j) a b (i + 1) (j - 1)
  end.

Definition partitionEqual_func (data : list A) (a b pivot : Z)
  : list A * Z :=
  let data := Swap data a pivot in
  equal_loop (Z.to_nat (b - a)) data a b (a + 1) (b - 1).

(** [pdqsort_func(data, a, b, limit)]. A turn of its [for] loop either
    returns, or narrows [a, b) and goes on, with a call of itself on
    the part cut off; a call starts with [wasBalanced] and
    [wasPartitioned] true. [maxInsertion] is 12. *)
Fixpoint pdqsort_func (turns : nat) (data : list A) (a b limit : Z)
  (wasBalanced wasPartitioned : bool) : list A :=
  match turns with
  | O => data
  | S turns' =>
      let length := (b - a)%Z in
      if (length <=? 12)%Z then insertionSort_func data a b
      else if (limit =? 0)%Z then heapSort_func data a b
      else
        let data := if negb wasBalanced then breakPatterns_func data a b
                    else data in
        let limit := if negb wasBalanced then (limit - 1)%Z else limit in
        let '(pivot, hint) := choosePivot_func data a b in
        let data :=
          match hint with
          | decreasingHint => reverseRange_func data a b
          | _ => data
          end in
        let pivot :=
          match hint with
          | decreasingHint => ((b - 1) - (pivot - a))%Z
          | _ => pivot
          end in
        let hint :=
          match hint with
          | decreasingHint => increasingHint
          | _ => hint
          end in
        let '(data, done) :=
          match hint with
          | increasingHint =>
              if (wasBalanced && wasPartitioned)%bool
              then partialInsertionSort_func data a b
              else (data, false)
          | _ => (data, false)
          end in
        if done then data
        else if ((0 <? a)%Z && negb (Less data (a - 1) pivot))%bool
        then
          let '(data, mid) := partitionEqual_func data a b pivot in
          pdqsort_func turns' data mid b limit wasBalanced wasPartitioned
        else
          let '(data, mid, alreadyPartitioned) :=
            partition_func data a b pivot in
          let leftLen := (mid - a)%Z in
          let rightLen := (b - mid)%Z in
          let balanceThreshold := (length ÷ 8)%Z in
          if (leftLen <? rightLen)%Z
          then
            let wasBalanced := (balanceThreshold <=? leftLen)%Z in
            let data := pdqsort_func turns' data a mid limit true true in
            pdqsort_func turns' data (mid + 1) b limit wasBalanced
              alreadyPartitioned
          else
            let wasBalanced := (balanceThreshold <=? rightLen)%Z in
            let data := pdqsort_func turns' data (mid + 1) b limit true true
            in
            pdqsort_func turns' data a mid limit wasBalanced
              alreadyPartitioned
  end.

(** [sort.Slice(x, less)]: [pdqsort_func(lessSwap{less, swap}, 0, length,
    bits.Len(uint(length)))]. Each turn of [pdqsort_func] that goes on
    has taken an element out of its range. *)
Definition pdqsort (data : list A) : list A :=
  let length := Z.of_nat (List.length data) in
  pdqsort_func (S (List.length data)) data 0 length (bits_Len length)
    true true.

End Pdqsort.

(** [sort.Slice] of the toolchain. *)
Definition toolchain : Sorter := {| Slice := pdqsort |}.

End sort.

(* ================================================================= *)
(** ** Package genai: what the program reads of the gateway's types *)

Module genai.

(** A [Part] is a [Text] or one of the other kinds (blob, function
    call, file data, ...), which the program only tells from text. *)
Inductive Part : Type :=
| Text (s : string)
| NonText (kind : nat).

Record Content : Type := { Role : string; Parts : list Part }.

(** [Candidate.Content] is a pointer: [None] is nil. *)
Record Candidate : Type := { CandidateContent : option Content }.

Record GenerateContentResponse : Type := { Candidates : list Candidate }.

Record ContentEmbedding : Type := { Values : list float32 }.

(** [EmbedContentResponse.Embedding] is a pointer. *)
Record EmbedContentResponse : Type := {
  Embedding : option ContentEmbedding
}.

End genai.

(* ================================================================= *)
(** ** internal/store: models *)

Module User.
Record t : Type := {
  ID : Z; ExternalUserID : string; PasswordHash : string; CreatedAt : Z
}.
End User.

Module Chat.
(** [Title] is a [*string]: [None] is nil (SQL NULL). *)
Record t : Type := {
  ID : string; UserID : Z; Title : option string; CreatedAt : Z
}.
End Chat.

Module Message.
Record t : Type := {
  ID : string; ChatID : string; Sender : string; Content : string;
  Timestamp : Z; NegativeFeedback : bool
}.

Definition with_ID_Timestamp (msg : t) (id : string) (ts : Z) : t :=
  {| ID := id; ChatID := ChatID msg; Sender := Sender msg;
     Content := Content msg; Timestamp := ts;
     NegativeFeedback := NegativeFeedback msg |}.
End Message.

Module DataChunk.
(** [EmbeddingJSON] is the JSON array that [json.Marshal] makes of
    [Embedding]; it is kept as the array of numbers it denotes, the
    decimal rendering of a float32 and its parsing being inverse to
    each other. [None] is the empty or unreadable text. *)
Record t : Type := {
  ID : Z; Content : string; Embedding : list float32;
  EmbeddingJSON : option (list float32)
}.
End DataChunk.

(* ================================================================= *)
(** ** The world outside the program *)

(** An external call either fails with an error or returns. *)
Inductive outcome (A : Type) : Type :=
| Failed (e : error)
| Returned (a : A).
Arguments Failed {A} e.
Arguments Returned {A} a.

(** Calls made to the LLM gateway, as recorded in the state. *)
Inductive GatewayCall : Type :=
| CallEmbedContent (text : string)
| CallSendMessage (history : list genai.Content) (parts : list genai.Part)
| CallGenerateContent (systemInstruction prompt : string).

(** A goroutine started with [go]; it is scheduled, not run. *)
Inductive Goroutine : Type :=
| generateAndSaveChatTitle (chatID : string) (userID : Z)
    (basisContent : string).

(** The answers of the collaborators. Each oracle is indexed by the
    number of earlier interactions of its kind, so that no answer is
    assumed to repeat.
    - [sql_fails n]: the error, if any, of the [n]-th statement handed
      to the SQL driver (I/O, locking, a constraint that rejects a row);
    - [EmbedContent], [SendMessage], [GenerateContent]: the gateway;
    - [ReadFile]: [os.ReadFile];
    - [NewString]: [uuid.NewString]; [Now]: [time.Now]. *)
Record World : Type := {
  sql_fails : nat -> option error;
  EmbedContent : nat -> string -> outcome genai.EmbedContentResponse;
  SendMessage : nat -> list genai.Content -> list genai.Part ->
                outcome (option genai.GenerateContentResponse);
  GenerateContent : nat -> string -> string ->
                    outcome (option genai.GenerateContentResponse);
  ReadFile : string -> outcome string;
  NewString : nat -> string;
  Now : nat -> Z
}.

(** The tables of the database and the record of what the program did
    to its collaborators. [chunk_seq] is the AUTOINCREMENT counter of
    [data_chunks]. *)
Record State : Type := {
  chats : list Chat.t;
  messages : list Message.t;
  data_chunks : list DataChunk.t;
  chunk_seq : Z;
  sql_count : nat;
  gateway_calls : list GatewayCall;
  uuid_count : nat;
  clock_count : nat;
  goroutines : list Goroutine
}.

(** The persistent part of a state. *)
Definition tables (st : State)
  : list Chat.t * list Message.t * list DataChunk.t :=
  (chats st, messages st, data_chunks st).

(** State-passing computations. *)
Definition M (A : Type) : Type := State -> A * State.

Definition pure (A : Type) (a : A) : M A := fun st => (a, st).

Definition bind (A B : Type) (m : M A) (k : A -> M B) : M B :=
  fun st => let (a, st') := m st in k a st'.

Notation "x <- m ;; k" := (bind m (fun x => k))
  (at level 61, m at next level, right associativity).
Notation "' pat <- m ;; k" := (bind m (fun x => match x with pat => k end))
  (at level 61, pat pattern, m at next level, right associativity).

Definition modify (f : State -> State) : M unit := fun st => (tt, f st).
Definition gets (A : Type) (f : State -> A) : M A := fun st => (f st, st).

Definition set_chats (v : list Chat.t) (st : State) : State :=
  {| chats := v; messages := messages st; data_chunks := data_chunks st;
     chunk_seq := chunk_seq st; sql_count := sql_count st;
     gateway_calls := gateway_calls st; uuid_count := uuid_count st;
     clock_count := clock_count st; goroutines := goroutines st |}.

Definition set_messages (v : list Message.t) (st : State) : State :=
  {| chats := chats st; messages := v; data_chunks := data_chunks st;
     chunk_seq := chunk_seq st; sql_count := sql_count st;
     gateway_calls := gateway_calls st; uuid_count := uuid_count st;
     clock_count := clock_count st; goroutines := goroutines st |}.

Definition set_data_chunks (v : list DataChunk.t) (seq : Z) (st : State)
  : State :=
  {| chats := chats st; messages := messages st; data_chunks := v;
     chunk_seq := seq; sql_count := sql_count st;
     gateway_calls := gateway_calls st; uuid_count := uuid_count st;
     clock_count := clock_count st; goroutines := goroutines st |}.

Definition set_sql_count (v : nat) (st : State) : State :=
  {| chats := chats st; messages := messages st;
     data_chunks := data_chunks st; chunk_seq := chunk_seq st;
     sql_count := v; gateway_calls := gateway_calls st;
     uuid_count := uuid_count st; clock_count := clock_count st;
     goroutines := goroutines st |}.

Definition set_gateway_calls (v : list GatewayCall) (st : State) : State :=
  {| chats := chats st; messages := messages st;
     data_chunks := data_chunks st; chunk_seq := chunk_seq st;
     sql_count := sql_count st; gateway_calls := v;
     uuid_count := uuid_count st; clock_count := clock_count st;
     goroutines := goroutines st |}.

Definition set_uuid_count (v : nat) (st : State) : State :=
  {| chats := chats st; messages := messages st;
     data_chunks := data_chunks st; chunk_seq := chunk_seq st;
     sql_count := sql_count st; gateway_calls := gateway_calls st;
     uuid_count := v; clock_count := clock_count st;
     goroutines := goroutines st |}.

Definition set_clock_count (v : nat) (st : State) : State :=
  {| chats := chats st; messages := messages st;
     data_chunks := data_chunks st; chunk_seq := chunk_seq st;
     sql_count := sql_count st; gateway_calls := gateway_calls st;
     uuid_count := uuid_count st; clock_count := v;
     goroutines := goroutines st |}.

Definition set_goroutines (v : list Goroutine) (st : State) : State :=
  {| chats := chats st; messages := messages st;
     data_chunks := data_chunks st; chunk_seq := chunk_seq st;
     sql_count := sql_count st; gateway_calls := gateway_calls st;
     uuid_count := uuid_count st; clock_count := clock_count st;
     goroutines := v |}.

Section Effects.

Variable w : World.

(** One statement handed to the SQL driver ([Prepare], [Exec],
    [Query], [QueryRow]); the tables change only when it succeeds. *)
Definition sql : M (option error) :=
  fun st => (sql_fails w (sql_count st),
             set_sql_count (S (sql_count st)) st).

Definition uuid_NewString : M string :=
  fun st => (NewString w (uuid_count st),
             set_uuid_count (S (uuid_count st)) st).

Definition time_Now : M Z :=
  fun st => (Now w (clock_count st),
             set_clock_count (S (clock_count st)) st).

(** A gateway call: it is recorded, and answered by the oracle at the
    number of calls made before it. *)
Definition gateway (A : Type) (call : GatewayCall)
  (answer : nat -> outcome A) : M (outcome A) :=
  fun st => (answer (List.length (gateway_calls st)),
             set_gateway_calls (gateway_calls st ++ [call]) st).

(** [go f(...)]. *)
Definition go (g : Goroutine) : M unit :=
  modify (fun st => set_goroutines (goroutines st ++ [g]) st).

Definition os_ReadFile (filePath : string) : M (outcome string) :=
  pure (ReadFile w filePath).

End Effects.

(** SQL [ORDER BY]: a stable insertion into an ordered list; SQLite
    leaves the order of rows with equal keys open. *)
Fixpoint insert_by (A : Type) (before : A -> A -> bool) (x : A)
  (l : list A) : list A :=
  match l with
  | [] => [x]
  | y :: l' => if before x y then x :: l else y :: insert_by before x l'
  end.

Definition order_by (A : Type) (before : A -> A -> bool) (l : list A)
  : list A := fold_right (insert_by before) [] l.

(** SQL [LIMIT n]: a negative [n] is no limit. *)
Definition limit (A : Type) (n : Z) (l : list A) : list A :=
  if (n <? 0)%Z then l else firstn (Z.to_nat n) l.

(** [json.Marshal] of a [[]float32]: it refuses NaN and the
    infinities. *)
Definition json_finite (x : float32) : bool :=
  match x with
  | S754_zero _ | S754_finite _ _ _ => true
  | S754_infinity _ | S754_nan => false
  end.

Definition json_Marshal (v : list float32) : ret (option (list float32)) :=
  if forallb json_finite v then (Some v, None)
  else (None, Some (Errorf "json: unsupported value")).

(* ================================================================= *)
(** ** internal/store: SQLiteStore *)

Module store.
Section SQLiteStore.

Variable w : World.

Definition CreateChat (userID : Z) (title : option string)
  : M (ret (option Chat.t)) :=
  chatID <- uuid_NewString w ;;
  err <- sql w ;;
  match err with
  | Some e => pure (None, Some (Wrapf "failed to prepare chat insert" e))
  | None =>
      now <- time_Now w ;;
      err <- sql w ;;
      match err with
      | Some e =>
          pure (None, Some (Wrapf "failed to execute chat insert" e))
      | None =>
          let chat := {| Chat.ID := chatID; Chat.UserID := userID;
                         Chat.Title := title; Chat.CreatedAt := now |} in
          _ <- modify (fun st => set_chats (chats st ++ [chat]) st) ;;
          pure (Some chat, None)
      end
  end.

(** [SELECT ... FROM chats WHERE id = ? AND user_id = ?]; no row is
    [sql.ErrNoRows], answered by [(nil, nil)]. *)
Definition chat_row (chatID : string) (userID : Z) (c : Chat.t) : bool :=
  (String.eqb (Chat.ID c) chatID && (Chat.UserID c =? userID)%Z)%bool.

Definition GetChatByID (chatID : string) (userID : Z)
  : M (ret (option Chat.t)) :=
  err <- sql w ;;
  match err with
  | Some e => pure (None, Some (Wrapf "failed to get chat" e))
  | None =>
      rows <- gets chats ;;
      pure (find (chat_row chatID userID) rows, None)
  end.

(** [msg] is a pointer: the message with its [ID] and [Timestamp] set
    is returned next to the error. *)
Definition CreateMessage (msg : Message.t)
  : M (Message.t * option error) :=
  id <- uuid_NewString w ;;
  ts <- time_Now w ;;
  let msg := Message.with_ID_Timestamp msg id ts in
  err <- sql w ;;
  match err with
  | Some e => pure (msg, Some (Wrapf "failed to prepare message insert" e))
  | None =>
      err <- sql w ;;
      match err with
      | Some e =>
          pure (msg, Some (Wrapf "failed to execute message insert" e))
      | None =>
          _ <- modify (fun st => set_messages (messages st ++ [msg]) st) ;;
          pure (msg, None)
      end
  end.

Definition of_chat (chatID : string) (m : Message.t) : bool :=
  String.eqb (Message.ChatID m) chatID.

Definition newer_first (a b : Message.t) : bool :=
  (Message.Timestamp b <=? Message.Timestamp a)%Z.

Definition older_first (a b : Message.t) : bool :=
  (Message.Timestamp a <=? Message.Timestamp b)%Z.

(** [... WHERE chat_id = ? ORDER BY timestamp ASC LIMIT ? OFFSET ?]. *)
Definition GetMessagesByChatID (chatID : string) (limit_ offset : Z)
  : M (ret (list Message.t)) :=
  err <- sql w ;;
  match err with
  | Some e => pure ([], Some (Wrapf "failed to query messages" e))
  | None =>
      rows <- gets messages ;;
      pure (limit limit_
              (skipn (Z.to_nat offset)
                 (order_by older_first (filter (of_chat chatID) rows))),
            None)
  end.

(** [... WHERE chat_id = ? ORDER BY timestamp DESC LIMIT ?]; the rows
    are appended to [messages] as the cursor yields them. *)
Definition GetLastNMessagesByChatID (chatID : string) (n : Z)
  : M (ret (list Message.t)) :=
  err <- sql w ;;
  match err with
  | Some e => pure ([], Some (Wrapf "failed to query messages" e))
  | None =>
      rows <- gets messages ;;
      pure (limit n (order_by newer_first (filter (of_chat chatID) rows)),
            None)
  end.

(** [chunk] is a pointer: the chunk with [EmbeddingJSON] and [ID] set
    is returned next to the error. *)
Definition createDataChunk (chunk : DataChunk.t)
  : M (DataChunk.t * option error) :=
  match json_Marshal (DataChunk.Embedding chunk) with
  | (_, Some e) => pure (chunk, Some (Wrapf "failed to marshal embedding" e))
  | (embeddingBytes, None) =>
      let chunk := {| DataChunk.ID := DataChunk.ID chunk;
                      DataChunk.Content := DataChunk.Content chunk;
                      DataChunk.Embedding := DataChunk.Embedding chunk;
                      DataChunk.EmbeddingJSON := embeddingBytes |} in
      err <- sql w ;;
      match err with
      | Some e =>
          pure (chunk, Some (Wrapf "failed to prepare data_chunk insert" e))
      | None =>
          err <- sql w ;;
          match err with
          | Some e =>
              pure (chunk,
                    Some (Wrapf "failed to execute data_chunk insert" e))
          | None =>
              seq <- gets chunk_seq ;;
              let chunk := {| DataChunk.ID := (seq + 1)%Z;
                              DataChunk.Content := DataChunk.Content chunk;
                              DataChunk.Embedding :=
                                DataChunk.Embedding chunk;
                              DataChunk.EmbeddingJSON :=
                                DataChunk.EmbeddingJSON chunk |} in
              _ <- modify (fun st =>
                     set_data_chunks (data_chunks st ++ [chunk])
                       (seq + 1)%Z st) ;;
              pure (chunk, None)
          end
      end
  end.

(** The row as [GetAllDataChunks] scans it: the embedding is read
    back from [embedding_json] and is nil when the text is empty or
    does not parse; [EmbeddingJSON] is not filled in. *)
Definition scan_chunk (row : DataChunk.t) : DataChunk.t :=
  {| DataChunk.ID := DataChunk.ID row;
     DataChunk.Content := DataChunk.Content row;
     DataChunk.Embedding :=
       match DataChunk.EmbeddingJSON row with
       | Some v => v
       | None => []
       end;
     DataChunk.EmbeddingJSON := None |}.

Definition GetAllDataChunks : M (ret (list DataChunk.t)) :=
  err <- sql w ;;
  match err with
  | Some e => pure ([], Some (Wrapf "failed to query data_chunks" e))
  | None =>
      rows <- gets data_chunks ;;
      pure (map scan_chunk rows, None)
  end.

(** [DELETE FROM data_chunks], then the reset of the AUTOINCREMENT
    counter, whose failure is only logged. *)
Definition ClearDataChunks : M (option error) :=
  err <- sql w ;;
  match err with
  | Some e => pure (Some (Wrapf "failed to delete data_chunks" e))
  | None =>
      _ <- modify (fun st => set_data_chunks [] (chunk_seq st) st) ;;
      err <- sql w ;;
      match err with
      | Some _ => pure None
      | None =>
          _ <- modify (fun st => set_data_chunks (data_chunks st) 0%Z st) ;;
          pure None
      end
  end.

(** The parsing loop of [IngestDataFromFile],
    [for i, line := range lines]: one raw chunk per table row. *)
Fixpoint parse_lines (lines : list string) (i : nat)
  (rawChunks : list string) : list string :=
  match lines with
  | [] => rawChunks
  | line :: rest =>
      let trimmedLine := strings.TrimSpace line in
      if trimmedLine =? "" then parse_lines rest (S i) rawChunks
      else if ((i =? 0)%nat && strings.Contains trimmedLine "|"
               && (strings.Contains (strings.ToLower trimmedLine) "text"
                   || strings.Contains (strings.ToLower trimmedLine)
                        "content"))%bool
      then parse_lines rest (S i) rawChunks
      else if ((i =? 1)%nat && strings.Contains trimmedLine "|"
               && strings.Contains trimmedLine "---")%bool
      then parse_lines rest (S i) rawChunks
      else if (strings.HasPrefix trimmedLine "|"
               && strings.HasSuffix trimmedLine "|")%bool
      then
        let parts := strings.Split trimmedLine "|" in
        if (3 <=? List.length parts)%nat
        then
          let cellContent := strings.TrimSpace (nth 1 parts "") in
          if negb (cellContent =? "")
          then parse_lines rest (S i) (rawChunks ++ [cellContent])
          else parse_lines rest (S i) rawChunks
        else parse_lines rest (S i) rawChunks
      else parse_lines rest (S i) rawChunks
  end.

(** The embedding loop, [for i, rawChunk := range rawChunks]; the
    ticker that paces the calls delays them and nothing else. *)
Fixpoint embed_loop (embedder : string -> M (ret (list float32)))
  (rawChunks : list string) (count : nat) : M nat :=
  match rawChunks with
  | [] => pure count
  | rawChunk :: rest =>
      '(embedding, err) <- embedder rawChunk ;;
      match err with
      | Some _ => embed_loop embedder rest count
      | None =>
          let chunk := {| DataChunk.ID := 0%Z;
                          DataChunk.Content := rawChunk;
                          DataChunk.Embedding := embedding;
                          DataChunk.EmbeddingJSON := None |} in
          '(_, err) <- createDataChunk chunk ;;
          match err with
          | Some _ => embed_loop embedder rest count
          | None => embed_loop embedder rest (S count)
          end
      end
  end.

Definition line_feed : ascii := "010"%char.

Definition IngestDataFromFile (filePath : string)
  (embedder : string -> M (ret (list float32))) : M (ret nat) :=
  r <- os_ReadFile w filePath ;;
  match r with
  | Failed e =>
      pure (0%nat, Some (Wrapf ("failed to read data file " ++ filePath) e))
  | Returned fileContent =>
      let lines := strings.Split fileContent line_feed in
      let rawChunks := parse_lines lines 0 [] in
      if (List.length rawChunks =? 0)%nat then pure (0%nat, None)
      else
        err <- ClearDataChunks ;;
        match err with
        | Some e =>
            pure (0%nat,
                  Some (Wrapf "failed to clear existing data chunks" e))
        | None =>
            count <- embed_loop embedder rawChunks 0 ;;
            pure (count, None)
        end
  end.

(** *** The other chat and message methods *)

Definition of_user (userID : Z) (c : Chat.t) : bool :=
  (Chat.UserID c =? userID)%Z.

Definition newest_first (a b : Chat.t) : bool :=
  (Chat.CreatedAt b <=? Chat.CreatedAt a)%Z.

(** [SELECT ... FROM chats WHERE user_id = ? ORDER BY created_at DESC]. *)
Definition GetChatsByUserID (userID : Z) : M (ret (list Chat.t)) :=
  err <- sql w ;;
  match err with
  | Some e => pure ([], Some (Wrapf "failed to query chats" e))
  | None =>
      rows <- gets chats ;;
      pure (order_by newest_first (filter (of_user userID) rows), None)
  end.

(** The row after [UPDATE chats SET title = ? WHERE id = ? AND
    user_id = ?]. *)
Definition with_Title (chatID : string) (userID : Z) (title : string)
  (c : Chat.t) : Chat.t :=
  if chat_row chatID userID c
  then {| Chat.ID := Chat.ID c; Chat.UserID := Chat.UserID c;
          Chat.Title := Some title; Chat.CreatedAt := Chat.CreatedAt c |}
  else c.

(** [RowsAffected] counts the rows that the [WHERE] clause selects,
    whether or not the update changes them. *)
Definition UpdateChatTitle (chatID : string) (userID : Z) (title : string)
  : M (option error) :=
  err <- sql w ;;
  match err with
  | Some e => pure (Some (Wrapf "failed to prepare chat title update" e))
  | None =>
      err <- sql w ;;
      match err with
      | Some e =>
          pure (Some (Wrapf "failed to execute chat title update" e))
      | None =>
          rows <- gets chats ;;
          _ <- modify (fun st =>
                 set_chats (map (with_Title chatID userID title) rows) st) ;;
          let affected :=
            List.length (filter (chat_row chatID userID) rows) in
          if (affected =? 0)%nat
          then pure (Some (Errorf
                 "chat not found or not owned by user, title not updated"))
          else pure None
      end
  end.

Definition message_row (messageID : string) (m : Message.t) : bool :=
  String.eqb (Message.ID m) messageID.

(** The row after [UPDATE messages SET negative_feedback = ? WHERE
    id = ?]. *)
Definition with_NegativeFeedback (messageID : string)
  (negativeFeedback : bool) (m : Message.t) : Message.t :=
  if message_row messageID m
  then {| Message.ID := Message.ID m; Message.ChatID := Message.ChatID m;
          Message.Sender := Message.Sender m;
          Message.Content := Message.Content m;
          Message.Timestamp := Message.Timestamp m;
          Message.NegativeFeedback := negativeFeedback |}
  else m.

Definition UpdateMessageFeedback (messageID : string)
  (negativeFeedback : bool) : M (option error) :=
  err <- sql w ;;
  match err with
  | Some e => pure (Some (Wrapf "failed to prepare feedback update" e))
  | None =>
      err <- sql w ;;
      match err with
      | Some e => pure (Some (Wrapf "failed to execute feedback update" e))
      | None =>
          rows <- gets messages ;;
          _ <- modify (fun st =>
                 set_messages
                   (map (with_NegativeFeedback messageID negativeFeedback)
                      rows) st) ;;
          let affected := List.length (filter (message_row messageID) rows) in
          if (affected =? 0)%nat
          then pure (Some (Errorf "message not found, feedback not updated"))
          else pure None
      end
  end.

End SQLiteStore.
End store.

(* ================================================================= *)
(** ** internal/core *)

Module core.

Definition NumRelevantChunks : nat := 3.

(** The constant [0.7], rounded to float32 where it is compared. *)
Definition SimilarityThreshold : float32 := F32.of_ratio 7 10.

Record ScoredChunk : Type := {
  Chunk : DataChunk.t;
  Similarity : float32
}.

(** [RAGService]: next to the store and the gateway, which are the
    state and the world, the in-memory cache of data chunks. *)
Record RAGService : Type := { dataChunks : list DataChunk.t }.

Definition blank_line : string := String "010" (String "010" "").

Definition fallbackPostMessage : string :=
  "I'm sorry, I encountered an error while processing your request.".
Definition fallbackCreateChat : string :=
  "I encountered an issue trying to respond. Please try again.".
Definition fallbackNoCandidates : string :=
  "I'm sorry, I couldn't generate a response at this time. Please try again.".
Definition fallbackNoText : string :=
  "I received an empty or non-text response, please try rephrasing your question.".

Definition ErrChatNotFound : error := Errorf "chat not found".

Section Services.

Variable w : World.
Context {sorter : sort.Sorter}.

(** *** LLMService *)

Definition GetEmbedding (text : string) : M (ret (list float32)) :=
  r <- gateway (CallEmbedContent text) (fun n => EmbedContent w n text) ;;
  match r with
  | Failed e => pure ([], Some (Wrapf "gemini embedding request failed" e))
  | Returned res =>
      match genai.Embedding res with
      | None =>
          pure ([], Some (Errorf "no embedding data received from gemini"))
      | Some embedding =>
          if (List.length (genai.Values embedding) =? 0)%nat
          then pure ([], Some (Errorf
                                 "no embedding data received from gemini"))
          else pure (genai.Values embedding, None)
      end
  end.

(** [for _, part := range resp.Candidates[0].Content.Parts]: the text
    parts are written to [responseText]. *)
Definition write_text (responseText : string) (part : genai.Part)
  : string :=
  match part with
  | genai.Text txt => responseText ++ txt
  | genai.NonText _ => responseText
  end.

Definition GetChatCompletion (promptHistory : list genai.Content)
  : M (ret string) :=
  match rev promptHistory with
  | [] =>
      pure ("", Some (Errorf "prompt history is empty for chat completion"))
  | lastUserMessage :: _ =>
      if negb (genai.Role lastUserMessage =? "user")
      then pure ("", Some (Errorf
             "last message in history is not from 'user', cannot proceed with chat completion"))
      else
        r <- gateway
               (CallSendMessage promptHistory (genai.Parts lastUserMessage))
               (fun n => SendMessage w n promptHistory
                           (genai.Parts lastUserMessage)) ;;
        match r with
        | Failed e => pure ("", Some (Wrapf "gemini chat SendMessage failed" e))
        | Returned resp =>
            match resp with
            | Some {| genai.Candidates :=
                        {| genai.CandidateContent :=
                             Some {| genai.Parts := (_ :: _) as parts |}
                        |} :: _ |} =>
                let responseText := fold_left write_text parts "" in
                if (String.length responseText =? 0)%nat
                then pure (fallbackNoText, None)
                else pure (responseText, None)
            | _ => pure (fallbackNoCandidates, None)
            end
        end
  end.

(** *** RAGService *)

(** [for _, chunk := range s.dataChunks]: the chunks that pass the
    threshold are appended to [scoredChunks]. *)
Fixpoint score_loop (queryEmbedding : list float32)
  (chunks : list DataChunk.t) (scoredChunks : list ScoredChunk)
  : list ScoredChunk :=
  match chunks with
  | [] => scoredChunks
  | chunk :: rest =>
      if (List.length (DataChunk.Embedding chunk) =? 0)%nat
      then score_loop queryEmbedding rest scoredChunks
      else
        match utils.CosineSimilarity queryEmbedding
                (DataChunk.Embedding chunk) with
        | (_, Some _) => score_loop queryEmbedding rest scoredChunks
        | (similarity, None) =>
            if F32.geb similarity SimilarityThreshold
            then score_loop queryEmbedding rest
                   (scoredChunks
                      ++ [{| Chunk := chunk; Similarity := similarity |}])
            else score_loop queryEmbedding rest scoredChunks
        end
  end.

(** The [less] function handed to [sort.Slice]. *)
Definition by_similarity_desc (a b : ScoredChunk) : bool :=
  F32.gtb (Similarity a) (Similarity b).

(** [for i := 0; i < len(scoredChunks) && retrievedCount <
    NumRelevantChunks; i++]. *)
Fixpoint context_loop (scoredChunks : list ScoredChunk)
  (retrievedCount : nat) (contextBuilder : string) : nat * string :=
  match scoredChunks with
  | [] => (retrievedCount, contextBuilder)
  | sc :: rest =>
      if (retrievedCount <? NumRelevantChunks)%nat
      then context_loop rest (S retrievedCount)
             (contextBuilder ++ DataChunk.Content (Chunk sc) ++ blank_line)
      else (retrievedCount, contextBuilder)
  end.

Definition GetRelevantContext (s : RAGService) (query : string)
  : M (ret string) :=
  if (List.length (dataChunks s) =? 0)%nat then pure ("", None)
  else
    '(queryEmbedding, err) <- GetEmbedding query ;;
    match err with
    | Some e => pure ("", Some (Wrapf "failed to get query embedding" e))
    | None =>
        let scoredChunks := score_loop queryEmbedding (dataChunks s) [] in
        let scoredChunks := sort.Slice by_similarity_desc scoredChunks in
        let '(retrievedCount, contextBuilder) :=
          context_loop scoredChunks 0 "" in
        if (retrievedCount =? 0)%nat then pure ("", None)
        else pure (strings.TrimSpace contextBuilder, None)
    end.

Definition to_content (msg : Message.t) : genai.Content :=
  {| genai.Role := Message.Sender msg;
     genai.Parts := [genai.Text (Message.Content msg)] |}.

(** The last "user" turn: the question, with the context when one
    was found. *)
Definition finalUserContent (relevantContext userQuery : string)
  : string :=
  if negb (relevantContext =? "")
  then "Based on our previous conversation and the following potentially relevant context from GWI market research data:"
       ++ blank_line ++ "--- CONTEXT START ---" ++ String "010" ""
       ++ relevantContext ++ String "010" "" ++ "--- CONTEXT END ---"
       ++ blank_line ++ "Now, please answer my question: " ++ userQuery
  else "Based on our previous conversation (if any), and noting that I couldn't find specific GWI documents for your current question, please answer: "
       ++ userQuery.

Definition GenerateResponse (s : RAGService) (chatID : string)
  (userID : Z) (userQuery : string) : M (ret string) :=
  '(chatHistoryMsgs, err) <- store.GetLastNMessagesByChatID w chatID 5 ;;
  let chatHistoryMsgs :=
    match err with
    | Some _ => []
    | None => chatHistoryMsgs
    end in
  '(relevantContext, err) <- GetRelevantContext s userQuery ;;
  let relevantContext :=
    match err with
    | Some _ => ""
    | None => relevantContext
    end in
  let geminiChatHistory := map to_content chatHistoryMsgs in
  let geminiChatHistory :=
    (geminiChatHistory
       ++ [{| genai.Role := "user";
              genai.Parts :=
                [genai.Text (finalUserContent relevantContext userQuery)]
           |}])%list in
  '(modelResponse, err) <- GetChatCompletion geminiChatHistory ;;
  match err with
  | Some e => pure ("", Some (Wrapf "failed to get LLM completion" e))
  | None => pure (modelResponse, None)
  end.

(** *** ChatService *)

Definition new_message (chatID sender content : string) : Message.t :=
  {| Message.ID := ""; Message.ChatID := chatID;
     Message.Sender := sender; Message.Content := content;
     Message.Timestamp := 0%Z; Message.NegativeFeedback := false |}.

(** [firstMessageContent] is a [*string]: [None] is nil. Of the chat,
    a pointer too, [None] is nil. *)
Definition CreateChat (s : RAGService) (userID : Z)
  (firstMessageContent : option string)
  : M (option Chat.t * list Message.t * option error) :=
  '(chat, err) <- store.CreateChat w userID None ;;
  match chat, err with
  | _, Some e => pure (None, [], Some (Wrapf "failed to create chat in DB" e))
  | None, None => pure (None, [], None)
  | Some chat, None =>
      let messages : list Message.t := [] in
      match firstMessageContent with
      | Some content =>
          if negb (content =? "")
          then
            '(userMsg, err) <-
              store.CreateMessage w
                (new_message (Chat.ID chat) "user" content) ;;
            match err with
            | Some _ => pure (Some chat, messages, None)
            | None =>
                let messages := (messages ++ [userMsg])%list in
                '(modelContent, err) <-
                  GenerateResponse s (Chat.ID chat) userID
                    (Message.Content userMsg) ;;
                let modelContent :=
                  match err with
                  | Some _ => fallbackCreateChat
                  | None => modelContent
                  end in
                '(modelMsg, err) <-
                  store.CreateMessage w
                    (new_message (Chat.ID chat) "model" modelContent) ;;
                let messages :=
                  match err with
                  | Some _ => messages
                  | None => (messages ++ [modelMsg])%list
                  end in
                _ <- go (generateAndSaveChatTitle (Chat.ID chat) userID
                           (Message.Content userMsg)) ;;
                pure (Some chat, messages, None)
            end
          else pure (Some chat, messages, None)
      | None => pure (Some chat, messages, None)
      end
  end.

(** [for _, m := range messages { if m.Sender == "user" { ...; break } }]. *)
Definition first_user_content (messages : list Message.t) : string :=
  match find (fun m => Message.Sender m =? "user") messages with
  | Some m => Message.Content m
  | None => ""
  end.

Definition untitled (chat : Chat.t) : bool :=
  match Chat.Title chat with
  | None => true
  | Some title => title =? ""
  end.

(** The last block of [PostMessage],
    [if chat.Title == nil || *chat.Title == "" { ... }]: a chat without
    a title gets one derived from the user message found among its
    last two messages. *)
Definition title_if_missing (chat : Chat.t) (chatID : string) (userID : Z)
  : M unit :=
  if untitled chat
  then
    '(messages, _) <- store.GetLastNMessagesByChatID w chatID 2 ;;
    if (1 <=? List.length messages)%nat
    then
      let firstUserMessageContent := first_user_content messages in
      if negb (firstUserMessageContent =? "")
      then go (generateAndSaveChatTitle chatID userID
                 firstUserMessageContent)
      else pure tt
    else pure tt
  else pure tt.

Definition PostMessage (s : RAGService) (chatID : string) (userID : Z)
  (userContent : string) : M (ret (option Message.t)) :=
  '(chat, err) <- store.GetChatByID w chatID userID ;;
  match chat, err with
  | _, Some e => pure (None, Some (Wrapf "failed to verify chat" e))
  | None, None => pure (None, Some ErrChatNotFound)
  | Some chat, None =>
      '(userMsg, err) <-
        store.CreateMessage w (new_message chatID "user" userContent) ;;
      match err with
      | Some e => pure (None, Some (Wrapf "failed to store user message" e))
      | None =>
          '(modelContent, err) <-
            GenerateResponse s chatID userID userContent ;;
          let modelContent :=
            match err with
            | Some _ => fallbackPostMessage
            | None => modelContent
            end in
          '(modelMessage, err) <-
            store.CreateMessage w (new_message chatID "model" modelContent) ;;
          match err with
          | Some e =>
              pure (None, Some (Wrapf "failed to store model message" e))
          | None =>
              _ <- title_if_missing chat chatID userID ;;
              pure (Some modelMessage, None)
          end
      end
  end.

(** *** The other methods of the services *)

(** [NewRAGService]: the cache is what [GetAllDataChunks] reads. *)
Definition NewRAGService : M (ret (option RAGService)) :=
  '(chunks, err) <- store.GetAllDataChunks w ;;
  match err with
  | Some e =>
      pure (None,
            Some (Wrapf "failed to load data chunks for RAG service" e))
  | None => pure (Some {| dataChunks := chunks |}, None)
  end.

Definition titleSystemInstruction : string :=
  "You are a helpful assistant that generates concise titles for chat conversations. "
  ++ "The title should be 3-5 words maximum. Just return the title itself, nothing else.".

(** The double quote, and the cut set of the title: double quote,
    single quote, line feed, carriage return, tab, space and full
    stop. *)
Definition double_quote : string := String "034" "".

Definition titleCutset : string :=
  double_quote ++ "'" ++ String "010" (String "013" (String "009" " .")).

(** [GenerateTitleForChat]; the generation settings (temperature 0.3,
    at most 20 tokens) go with the call and are not recorded. *)
Definition GenerateTitleForChat (chatSummary : string) : M (ret string) :=
  let userPromptForTitle :=
    "Generate a very concise title (3-5 words maximum) for a conversation that starts with or is about: "
    ++ double_quote ++ chatSummary ++ double_quote ++ "." in
  r <- gateway (CallGenerateContent titleSystemInstruction userPromptForTitle)
         (fun n => GenerateContent w n titleSystemInstruction
                     userPromptForTitle) ;;
  match r with
  | Failed e =>
      pure ("", Some (Wrapf "gemini title generation request failed" e))
  | Returned resp =>
      match resp with
      | Some {| genai.Candidates :=
                  {| genai.CandidateContent :=
                       Some {| genai.Parts := (_ :: _) as parts |}
                  |} :: _ |} =>
          let titleText := fold_left write_text parts "" in
          if (String.length titleText =? 0)%nat
          then pure ("Chat",
                     Some (Errorf "LLM generated an empty title string"))
          else pure (strings.Trim titleText titleCutset, None)
      | _ =>
          pure ("Chat",
                Some (Errorf "LLM did not generate a title (empty response)"))
      end
  end.

Definition GetChats (userID : Z) : M (ret (list Chat.t)) :=
  store.GetChatsByUserID w userID.

Definition GetChatDetails (chatID : string) (userID : Z)
  : M (option Chat.t * list Message.t * option error) :=
  '(chat, err) <- store.GetChatByID w chatID userID ;;
  match chat, err with
  | _, Some e => pure (None, [], Some (Wrapf "failed to get chat" e))
  | None, None => pure (None, [], None)
  | Some chat, None =>
      '(messages, err) <- store.GetMessagesByChatID w chatID 100 0 ;;
      match err with
      | Some e =>
          pure (None, [], Some (Wrapf "failed to get messages for chat" e))
      | None => pure (Some chat, messages, None)
      end
  end.

(** The body of the goroutine that [CreateChat] and [PostMessage]
    start; it returns nothing, its failures are logged. *)
Definition generateAndSaveChatTitle (chatID : string) (userID : Z)
  (basisContent : string) : M unit :=
  '(title, err) <- GenerateTitleForChat basisContent ;;
  match err with
  | Some _ => pure tt
  | None =>
      let title := strings.Trim title titleCutset in
      _ <- store.UpdateChatTitle w chatID userID title ;;
      pure tt
  end.

Definition SetMessageFeedback (messageID : string) (userID : Z)
  (negative : bool) : M (option error) :=
  store.UpdateMessageFeedback w messageID negative.

End Services.
End core.

(* ================================================================= *)
(** ** internal/api: the handlers of the chat routes *)

Module api.

Definition StatusOK : Z := 200.
Definition StatusCreated : Z := 201.
Definition StatusNoContent : Z := 204.
Definition StatusBadRequest : Z := 400.
Definition StatusNotFound : Z := 404.
Definition StatusInternalServerError : Z := 500.

Record CreateChatRequest : Type := { FirstMessage : option string }.
Record PostMessageRequest : Type := { Content : string }.
Record FeedbackRequest : Type := { Negative : bool }.

(** What a handler reads of a request: the user identifier that the
    middleware left in the context, the URL parameter of the route,
    whether the body is [http.NoBody], and what [json.Decode] makes of
    the body. *)
Record Request (A : Type) : Type := {
  Context_userID : Z;
  URLParam : string;
  NoBody : bool;
  Decode : outcome A
}.

(** What a handler writes: the line of [http.Error], or the value
    handed to [json.Encode]. *)
Inductive Written : Type :=
| Nothing
| Line (text : string)
| CreateChatResponse (chat : option Chat.t) (messages : list Message.t)
| Chats (chats : list Chat.t)
| GetChatDetailsResponse (chat : option Chat.t) (messages : list Message.t)
| ModelMessage (msg : option Message.t).

(** The status code and the body; a handler that writes without
    [WriteHeader] answers [StatusOK]. *)
Record ResponseWriter : Type := { Code : Z; Body : Written }.

Definition http_Error (error : string) (code : Z) : ResponseWriter :=
  {| Code := code; Body := Line error |}.

Section Handlers.

Variable w : World.
Context {sorter : sort.Sorter}.

(** The text of the errors of the collaborators. *)
Variable describe : nat -> string.

(** [err.Error()]. *)
Fixpoint Error (err : error) : string :=
  match err with
  | Errorf msg => msg
  | Wrapf msg cause => msg ++ ": " ++ Error cause
  | External code => describe code
  end.

Definition CreateChatHandler (h : core.RAGService)
  (r : Request CreateChatRequest) : M ResponseWriter :=
  let userID := Context_userID r in
  let decoded :=
    if NoBody r then Returned {| FirstMessage := None |} else Decode r in
  match decoded with
  | Failed err =>
      pure (http_Error ("Invalid request body: " ++ Error err)
              StatusBadRequest)
  | Returned req =>
      '(chat, messages, err) <-
        core.CreateChat w h userID (FirstMessage req) ;;
      match err with
      | Some _ =>
          pure (http_Error "Failed to create chat" StatusInternalServerError)
      | None =>
          pure {| Code := StatusCreated;
                  Body := CreateChatResponse chat messages |}
      end
  end.

Definition ListChatsHandler (A : Type) (r : Request A) : M ResponseWriter :=
  let userID := Context_userID r in
  '(chats, err) <- core.GetChats w userID ;;
  match err with
  | Some _ =>
      pure (http_Error "Failed to list chats" StatusInternalServerError)
  | None => pure {| Code := StatusOK; Body := Chats chats |}
  end.

Definition GetChatDetailsHandler (A : Type) (r : Request A)
  : M ResponseWriter :=
  let userID := Context_userID r in
  let chatID := URLParam r in
  '(chat, messages, err) <- core.GetChatDetails w chatID userID ;;
  match err with
  | Some _ =>
      pure (http_Error "Failed to get chat details"
              StatusInternalServerError)
  | None =>
      match chat with
      | None => pure (http_Error "Chat not found" StatusNotFound)
      | Some _ =>
          pure {| Code := StatusOK;
                  Body := GetChatDetailsResponse chat messages |}
      end
  end.

Definition PostMessageHandler (h : core.RAGService)
  (r : Request PostMessageRequest) : M ResponseWriter :=
  let userID := Context_userID r in
  let chatID := URLParam r in
  match Decode r with
  | Failed err =>
      pure (http_Error ("Invalid request body: " ++ Error err)
              StatusBadRequest)
  | Returned req =>
      if Content req =? ""
      then pure (http_Error "Message content cannot be empty"
                   StatusBadRequest)
      else
        '(modelMessage, err) <-
          core.PostMessage w h chatID userID (Content req) ;;
        match err with
        | Some err =>
            if Error err =? "chat not found"
            then pure (http_Error (Error err) StatusNotFound)
            else pure (http_Error "Failed to post message"
                         StatusInternalServerError)
        | None => pure {| Code := StatusOK; Body := ModelMessage modelMessage |}
        end
  end.

Definition MessageFeedbackHandler (r : Request FeedbackRequest)
  : M ResponseWriter :=
  let userID := Context_userID r in
  let messageID := URLParam r in
  match Decode r with
  | Failed err =>
      pure (http_Error ("Invalid request body: " ++ Error err)
              StatusBadRequest)
  | Returned req =>
      err <- core.SetMessageFeedback w messageID userID (Negative req) ;;
      match err with
      | Some err =>
          if Error err =? "message not found for feedback"
          then pure (http_Error (Error err) StatusNotFound)
          else pure (http_Error "Failed to set feedback"
                       StatusInternalServerError)
      | None => pure {| Code := StatusNoContent; Body := Nothing |}
      end
  end.

End Handlers.
End api.

(* ================================================================= *)
(** ** Worlds, states and chunks used as instances *)

Module Examples.

(** A world in which the database works and the gateway and the file
    system fail; UUIDs are numbered and the clock ticks at each
    reading. *)
Definition digit (n : nat) : string :=
  String (ascii_of_nat (48 + n mod 10)) "".

Definition offline : World :=
  {| sql_fails := fun _ => None;
     EmbedContent := fun _ _ => Failed (External 0);
     SendMessage := fun _ _ _ => Failed (External 0);
     GenerateContent := fun _ _ _ => Failed (External 0);
     ReadFile := fun _ => Failed (External 0);
     NewString := fun n => "uuid-" ++ digit (n / 10) ++ digit n;
     Now := fun n => Z.of_nat n |}.

(** The world whose embedding gateway answers [q] to every text. *)
Definition embedding (q : list float32) : World :=
  {| sql_fails := sql_fails offline;
     EmbedContent := fun _ _ =>
       Returned {| genai.Embedding := Some {| genai.Values := q |} |};
     SendMessage := SendMessage offline;
     GenerateContent := GenerateContent offline;
     ReadFile := ReadFile offline;
     NewString := NewString offline;
     Now := Now offline |}.

(** The world whose generation gateway gives [r] to every call. *)
Definition answering
  (r : outcome (option genai.GenerateContentResponse)) : World :=
  {| sql_fails := sql_fails offline;
     EmbedContent := EmbedContent offline;
     SendMessage := fun _ _ _ => r;
     GenerateContent := GenerateContent offline;
     ReadFile := ReadFile offline;
     NewString := NewString offline;
     Now := Now offline |}.

Definition empty : State :=
  {| chats := []; messages := []; data_chunks := []; chunk_seq := 0;
     sql_count := 0; gateway_calls := []; uuid_count := 0;
     clock_count := 0; goroutines := [] |}.

Definition chunk (id : Z) (content : string) (embedding : list float32)
  : DataChunk.t :=
  {| DataChunk.ID := id; DataChunk.Content := content;
     DataChunk.Embedding := embedding; DataChunk.EmbeddingJSON := None |}.

(** A query along the first axis, a chunk at cosine 0.9 of it and a
    chunk at cosine 0.1. *)
Definition along_x : list float32 := [F32.of_Z 1; F32.zero].

Definition paris : DataChunk.t :=
  chunk 1 "Paris is the capital of France"
    [F32.of_ratio 9 10; S754_finite false 14626039 (-25)].

Definition sky : DataChunk.t :=
  chunk 2 "The sky is blue"
    [F32.of_ratio 1 10; S754_finite false 16693119 (-24)].

(** Twelve chunks with one embedding, hence one similarity to any
    query (0.9 to [along_x]), followed by a chunk at similarity 1. *)
Definition near_x : list float32 :=
  [F32.of_ratio 9 10; S754_finite false 14626039 (-25)].

Definition twelve_ties : list DataChunk.t :=
  [chunk 1 "a" near_x; chunk 2 "b" near_x; chunk 3 "c" near_x;
   chunk 4 "d" near_x; chunk 5 "e" near_x; chunk 6 "f" near_x;
   chunk 7 "g" near_x; chunk 8 "h" near_x; chunk 9 "i" near_x;
   chunk 10 "j" near_x; chunk 11 "k" near_x; chunk 12 "l" near_x].

Definition thirteen : list DataChunk.t :=
  (twelve_ties ++ [chunk 13 "best" along_x])%list.

End Examples.

(* ================================================================= *)
(** * Properties *)

(* ================================================================= *)
(** ** float32 arithmetic *)

Module F32Facts.

Lemma mul_comm (x y : float32) : F32.mul x y = F32.mul y x.
Proof.
  unfold F32.mul.
  destruct x as [sx|sx| |sx mx ex], y as [sy|sy| |sy my ey]; simpl;
    try reflexivity; try (now rewrite xorb_comm).
  now rewrite xorb_comm, Pos.mul_comm, Z.add_comm.
Qed.

Definition is_nan (x : float32) : bool :=
  match x with
  | S754_nan => true
  | _ => false
  end.

(** The order of [SFcompare], read on a key: the class of the number
    (infinities, signed finite numbers, zeros), then exponent and
    mantissa. *)
Definition key (x : float32) : Z * Z * Z :=
  match x with
  | S754_nan => (0, 0, 0)
  | S754_zero _ => (0, 0, 0)
  | S754_infinity true => (-2, 0, 0)
  | S754_infinity false => (2, 0, 0)
  | S754_finite true m e => (-1, - e, - Zpos m)
  | S754_finite false m e => (1, e, Zpos m)
  end%Z.

Definition key_lt (a b : Z * Z * Z) : Prop :=
  let '(a1, a2, a3) := a in
  let '(b1, b2, b3) := b in
  (a1 < b1 \/ (a1 = b1 /\ (a2 < b2 \/ (a2 = b2 /\ a3 < b3))))%Z.

Lemma key_lt_trans a b c : key_lt a b -> key_lt b c -> key_lt a c.
Proof.
  destruct a as [[a1 a2] a3], b as [[b1 b2] b3], c as [[c1 c2] c3].
  unfold key_lt. lia.
Qed.

Lemma key_lt_total a b : key_lt a b \/ a = b \/ key_lt b a.
Proof.
  destruct a as [[a1 a2] a3], b as [[b1 b2] b3]. unfold key_lt.
  destruct (Z.lt_trichotomy a1 b1) as [?|[?|?]];
    destruct (Z.lt_trichotomy a2 b2) as [?|[?|?]];
    destruct (Z.lt_trichotomy a3 b3) as [?|[?|?]];
    subst; try (left; lia); try (right; right; lia).
  right; left; reflexivity.
Qed.

Lemma key_lt_irrefl a : ~ key_lt a a.
Proof. destruct a as [[a1 a2] a3]. unfold key_lt. lia. Qed.

Lemma ltb_key (x y : float32) :
  is_nan x = false -> is_nan y = false ->
  (F32.ltb x y = true <-> key_lt (key x) (key y)).
Proof.
  unfold F32.ltb, SFltb.
  destruct x as [sx|sx| |sx mx ex], y as [sy|sy| |sy my ey];
    try discriminate; intros _ _;
    repeat match goal with s : bool |- _ => destruct s end;
    simpl; try (split; [discriminate | lia]); try (split; [lia | lia]);
    try (split; [intros _; lia | reflexivity]).
  all: change (PosDef.Pos.compare_cont Eq mx my) with (mx ?= my)%positive;
    destruct (Z.compare_spec ex ey); destruct (Pos.compare_spec mx my);
    simpl; split; try discriminate; try reflexivity; try lia.
Qed.

Lemma compare_antisym (x y : float32) :
  SFcompare y x = option_map CompOpp (SFcompare x y).
Proof.
  destruct x as [sx|sx| |sx mx ex], y as [sy|sy| |sy my ey];
    repeat match goal with s : bool |- _ => destruct s end;
    simpl; try reflexivity.
  all: change (PosDef.Pos.compare_cont Eq ?a ?b) with (a ?= b)%positive;
    rewrite (Z.compare_antisym ex ey), (Pos.compare_antisym mx my);
    destruct (ex ?= ey)%Z; simpl; try reflexivity;
    destruct (mx ?= my)%positive; reflexivity.
Qed.

Lemma geb_not_nan (x y : float32) :
  F32.geb x y = true -> is_nan x = false /\ is_nan y = false.
Proof.
  unfold F32.geb, SFleb.
  destruct x as [sx|sx| |sx mx ex], y as [sy|sy| |sy my ey];
    simpl; intros H; try discriminate; split; reflexivity.
Qed.

Lemma geb_ltb (x y : float32) :
  is_nan x = false -> is_nan y = false ->
  F32.geb x y = negb (F32.ltb x y).
Proof.
  unfold F32.geb, F32.ltb, SFleb, SFltb. intros Hx Hy.
  rewrite (compare_antisym x y).
  assert (H : SFcompare x y <> None).
  { destruct x as [sx|sx| |sx mx ex], y as [sy|sy| |sy my ey];
      try discriminate;
      repeat match goal with s : bool |- _ => destruct s end;
      simpl; discriminate. }
  destruct (SFcompare x y) as [[]|]; simpl; congruence.
Qed.

Lemma ltb_geb_false (x y : float32) :
  F32.ltb x y = true -> F32.geb x y = false.
Proof.
  unfold F32.geb, F32.ltb, SFleb, SFltb. rewrite (compare_antisym x y).
  destruct (SFcompare x y) as [[]|]; simpl; congruence.
Qed.

(** Two numbers equal to a third are not one above the other. *)
Lemma eqb_not_ltb (x y v : float32) :
  F32.eqb x v = true -> F32.eqb y v = true -> F32.ltb x y = false.
Proof.
unfold F32.eqb, F32.ltb, SFeqb, SFltb.
destruct x as [sx|sx| |sx mx ex], v as [sv|sv| |sv mv ev];
  repeat match goal with s : bool |- _ => destruct s end;
  try discriminate;
  destruct y as [sy|sy| |sy my ey];
  repeat match goal with s : bool |- _ => destruct s end;
  try discriminate; try reflexivity; cbn;
  change (PosDef.Pos.compare_cont Eq ?a ?b) with (a ?= b)%positive;
  destruct (Z.compare_spec ex ev); try discriminate;
  destruct (Pos.compare_spec mx mv); try discriminate;
  destruct (Z.compare_spec ey ev); try discriminate;
  destruct (Pos.compare_spec my mv); try discriminate;
  subst; intros _ _; rewrite Z.compare_refl, Pos.compare_refl; reflexivity.
Qed.

(** Comparison with zero holds of the two zeros and of nothing else. *)
Lemma eqb_zero (x : float32) :
  F32.eqb x F32.zero = true <-> exists s, x = S754_zero s.
Proof.
  unfold F32.eqb, SFeqb.
  destruct x as [sx|sx| |sx mx ex]; simpl; split;
    try discriminate; try (intros [s H]; discriminate);
    try (destruct sx; discriminate); eauto.
Qed.

End F32Facts.

(* ================================================================= *)
(** ** Cosine similarity *)

Module utilsFacts.
Import utils.

Lemma dotProduct_loop_comm (a b : list float32) (acc : float32) :
  dotProduct_loop a b acc = dotProduct_loop b a acc.
Proof.
  revert b acc. induction a as [|x a IH]; intros [|y b] acc; simpl;
    try reflexivity.
  rewrite (F32Facts.mul_comm x y). apply IH.
Qed.

Lemma dotProduct_comm (a b : list float32) : dotProduct a b = dotProduct b a.
Proof.
  unfold dotProduct. rewrite (Nat.eqb_sym (List.length a)).
  now rewrite dotProduct_loop_comm.
Qed.

(** Squares are never negative zero, and neither are their sums. *)
Lemma sumOfSquares_zeros (vec : list float32) :
  Forall (fun x => exists s, x = S754_zero s) vec ->
  sumOfSquares vec = F32.zero.
Proof.
  unfold sumOfSquares. intros H.
  induction H as [|x l [s ->] _ IH]; simpl; [reflexivity|].
  destruct s; exact IH.
Qed.

Lemma magnitude_zeros (vec : list float32) :
  Forall (fun x => exists s, x = S754_zero s) vec ->
  magnitude vec = F32.zero.
Proof.
  intros H. unfold magnitude. now rewrite (sumOfSquares_zeros H).
Qed.

Lemma length_eqb_0 (A : Type) (l : list A) :
  (List.length l =? 0)%nat = false <-> List.length l <> 0%nat.
Proof. apply Nat.eqb_neq. Qed.

(** The comparisons and the product of the two magnitudes do not
    depend on the order of the vectors. *)
Lemma magnitudes_swap (a b : list float32) :
  ((List.length a =? 0)%nat || (List.length b =? 0)%nat)%bool
  = ((List.length b =? 0)%nat || (List.length a =? 0)%nat)%bool
  /\ (F32.eqb (magnitude a) F32.zero || F32.eqb (magnitude b) F32.zero)%bool
     = (F32.eqb (magnitude b) F32.zero || F32.eqb (magnitude a) F32.zero)%bool
  /\ F32.mul (magnitude a) (magnitude b)
     = F32.mul (magnitude b) (magnitude a).
Proof.
split; [apply orb_comm|]. split; [apply orb_comm | apply F32Facts.mul_comm].
Qed.

(** The two calls go through the same operations on the same numbers. *)
Lemma CosineSimilarity_swap (a b : list float32) :
  CosineSimilarity a b = CosineSimilarity b a.
Proof.
unfold CosineSimilarity.
destruct (magnitudes_swap a b) as (E & Z & M).
rewrite E, Z, M, (dotProduct_comm a b). reflexivity.
Qed.

(** Go's [==] holds between a number and itself, and of no NaN. *)
Lemma eqb_number (x : float32) :
  F32.eqb x x = negb (F32Facts.is_nan x).
Proof.
unfold F32.eqb, SFeqb.
destruct x as [sx|sx| |sx mx ex];
  repeat match goal with s : bool |- _ => destruct s end;
  simpl; try reflexivity;
  rewrite Z.compare_refl;
  change (PosDef.Pos.compare_cont Eq mx mx) with (mx ?= mx)%positive;
  now rewrite Pos.compare_refl.
Qed.

(** Vectors of equal nonzero length are given no error. *)
Lemma CosineSimilarity_no_error (a b : list float32) :
  List.length a = List.length b -> List.length a <> 0%nat ->
  snd (CosineSimilarity a b) = None.
Proof.
intros L Ha. assert (Hb : List.length b <> 0%nat) by congruence.
unfold CosineSimilarity, dotProduct.
apply length_eqb_0 in Ha, Hb. rewrite Ha, Hb, L, Nat.eqb_refl. cbn.
now destruct (_ || _)%bool.
Qed.

(** The float32 2^70, whose square is beyond the largest float32. *)
Definition huge : float32 := F32.of_Z (2 ^ 70).

(** C9, as stated, fails: the square of 2^70 overflows to infinity, so
    that the dot product and both magnitudes of the vector [[huge]]
    with itself are infinite and their quotient is NaN; and [==] is
    false of a NaN, also between the results of the two calls. *)
Lemma CosineSimilarity_overflow_not_equal :
  let a := [huge] in
  let b := [huge] in
  List.length a = List.length b
  /\ List.length a <> 0%nat
  /\ forallb F32.valid a = true
  /\ CosineSimilarity a b = (S754_nan, None)
  /\ CosineSimilarity b a = (S754_nan, None)
  /\ F32.eqb (fst (CosineSimilarity a b)) (fst (CosineSimilarity b a))
     = false.
Proof.
cbv zeta. split; [reflexivity|]. split; [discriminate|].
repeat split; vm_compute; reflexivity.
Qed.

(** C9 (amended). For all vectors [a] and [b] of equal nonzero length,
    neither [CosineSimilarity a b] nor [CosineSimilarity b a] fails,
    and the two values are both NaN or both numbers; when they are
    numbers they are the same float32 and Go's [==] holds between
    them. *)
Theorem CosineSimilarity_symmetric (a b : list float32) :
  List.length a = List.length b -> List.length a <> 0%nat ->
  let x := CosineSimilarity a b in
  let y := CosineSimilarity b a in
  snd x = None
  /\ snd y = None
  /\ F32Facts.is_nan (fst x) = F32Facts.is_nan (fst y)
  /\ (F32Facts.is_nan (fst x) = false ->
      fst x = fst y /\ F32.eqb (fst x) (fst y) = true).
Proof.
intros L Ha. cbv zeta.
assert (E := CosineSimilarity_no_error a b L Ha).
rewrite <- (CosineSimilarity_swap a b).
split; [exact E|]. split; [exact E|]. split; [reflexivity|].
intros N. split; [reflexivity|]. now rewrite eqb_number, N.
Qed.

Lemma CosineSimilarity_symmetric_witness :
  let x := CosineSimilarity [F32.of_Z 3; F32.of_Z 4] [F32.of_Z 4; F32.of_Z 3]
  in
  let y := CosineSimilarity [F32.of_Z 4; F32.of_Z 3] [F32.of_Z 3; F32.of_Z 4]
  in
  snd x = None /\ snd y = None /\ F32.eqb (fst x) (fst y) = true.
Proof.
destruct (@CosineSimilarity_symmetric [F32.of_Z 3; F32.of_Z 4]
            [F32.of_Z 4; F32.of_Z 3]) as (X & Y & _ & E).
- reflexivity.
- simpl. discriminate.
- cbv zeta. split; [exact X|]. split; [exact Y|].
  apply E. vm_compute. reflexivity.
Defined.

(** C6, as stated, fails where one vector is empty and the other is
    not: the lengths differ, and the error is the one for empty
    vectors, which [CosineSimilarity] tests first. *)
Lemma CosineSimilarity_empty_before_mismatch :
  List.length (@nil float32) <> List.length [F32.of_Z 1]
  /\ snd (CosineSimilarity [] [F32.of_Z 1]) = Some ErrEmptyVector
  /\ snd (CosineSimilarity [] [F32.of_Z 1]) <> Some ErrDimensionMismatch.
Proof.
  split; [simpl; discriminate|]. split; [reflexivity|].
  simpl. discriminate.
Qed.

(** C6 (amended). [CosineSimilarity] fails with the empty-vector
    error when either input has zero length; it fails with the
    dimension-mismatch error when both inputs are non-empty and their
    lengths differ; and it returns 0 without error when both are
    non-empty of equal length and the magnitude computed for either
    compares equal to zero. *)
Theorem CosineSimilarity_failures (a b : list float32) :
  (List.length a = 0%nat \/ List.length b = 0%nat ->
   CosineSimilarity a b = (F32.zero, Some ErrEmptyVector))
  /\ (List.length a <> 0%nat -> List.length b <> 0%nat ->
      List.length a <> List.length b ->
      CosineSimilarity a b = (F32.zero, Some ErrDimensionMismatch))
  /\ (List.length a <> 0%nat -> List.length a = List.length b ->
      F32.eqb (magnitude a) F32.zero = true
      \/ F32.eqb (magnitude b) F32.zero = true ->
      CosineSimilarity a b = (F32.zero, None)).
Proof.
  unfold CosineSimilarity, dotProduct. repeat split.
  - intros [H|H]; rewrite H; simpl; [reflexivity|].
    now rewrite orb_true_r.
  - intros Ha Hb Hab.
    apply length_eqb_0 in Ha, Hb. rewrite Ha, Hb. simpl.
    apply Nat.eqb_neq in Hab. now rewrite Hab.
  - intros Ha Hab Hmag.
    assert (Hb : List.length b <> 0%nat) by congruence.
    apply length_eqb_0 in Ha, Hb. rewrite Ha, Hb. simpl.
    rewrite Hab, Nat.eqb_refl. simpl.
    destruct Hmag as [-> | ->]; [reflexivity|].
    now rewrite orb_true_r.
Qed.

Lemma CosineSimilarity_failures_witness :
  CosineSimilarity [] [F32.of_Z 1] = (F32.zero, Some ErrEmptyVector)
  /\ CosineSimilarity [F32.of_Z 1] [F32.of_Z 1; F32.of_Z 2]
     = (F32.zero, Some ErrDimensionMismatch)
  /\ CosineSimilarity [F32.zero; F32.zero] [F32.of_Z 1; F32.of_Z 2]
     = (F32.zero, None).
Proof.
  split; [|split].
  - apply (proj1 (CosineSimilarity_failures [] [F32.of_Z 1])).
    left. reflexivity.
  - apply (proj1 (proj2 (CosineSimilarity_failures [F32.of_Z 1]
                           [F32.of_Z 1; F32.of_Z 2])));
      simpl; discriminate.
  - apply (proj2 (proj2 (CosineSimilarity_failures [F32.zero; F32.zero]
                           [F32.of_Z 1; F32.of_Z 2]))).
    + simpl. discriminate.
    + reflexivity.
    + left. vm_compute. reflexivity.
Defined.

End utilsFacts.

(* ================================================================= *)
(** ** Sorting *)

Module sortFacts.
Import sort.

Section Insertion.

Variable A : Type.
Variable less : A -> A -> bool.

(** The part already in order, read from its last element. *)
Definition settled (done : list A) : Prop :=
  StronglySorted (fun a b => less a b = false) done.

Lemma sink_Permutation (x : A) (done : list A) :
  Permutation (x :: done) (sink less x done).
Proof.
  induction done as [|y done IH]; simpl; [reflexivity|].
  destruct (less x y); [|reflexivity].
  rewrite perm_swap. now apply perm_skip.
Qed.

Lemma sink_In (x z : A) (done : list A) :
  In z (sink less x done) -> z = x \/ In z done.
Proof.
  intros H.
  apply (Permutation_in z (Permutation_sym (sink_Permutation x done)))
    in H.
  destruct H as [H|H]; [left; now symmetry | now right].
Qed.

Lemma sink_settled (l : list A) (x : A) (done : list A) :
  transitive_ordering less l -> In x l -> incl done l ->
  settled done -> settled (sink less x done).
Proof.
  intros T Hx. induction done as [|y done IH]; intros Hincl Hs; simpl.
  - constructor; constructor.
  - assert (Hy : In y l) by (apply Hincl; now left).
    assert (Hd : incl done l) by (intros z Hz; apply Hincl; now right).
    inversion Hs as [|y' done' Hs' Hall]; subst.
    destruct (less x y) eqn:Exy.
    + constructor; [now apply IH|].
      apply Forall_forall. intros z Hz.
      destruct (sink_In _ _ _ Hz) as [-> | Hz'].
      * destruct (less y x) eqn:Eyx; [|reflexivity].
        rewrite <- (less_irrefl T x Hx).
        symmetry. now apply (less_trans T x y x).
      * now apply (proj1 (Forall_forall _ _) Hall).
    + constructor; [exact Hs|].
      constructor; [exact Exy|].
      apply Forall_forall. intros z Hz.
      apply (less_incomparable T x y z); auto.
      now apply (proj1 (Forall_forall _ _) Hall).
Qed.

Lemma fold_sink_Permutation (l done : list A) :
  Permutation (rev l ++ done)
    (fold_left (fun done x => sink less x done) l done).
Proof.
  revert done. induction l as [|x l IH]; intros done; simpl.
  - reflexivity.
  - rewrite <- IH. rewrite <- app_assoc. simpl.
    apply Permutation_app_head. apply sink_Permutation.
Qed.

Lemma fold_sink_settled (all l done : list A) :
  transitive_ordering less all -> incl l all -> incl done all ->
  settled done ->
  settled (fold_left (fun done x => sink less x done) l done).
Proof.
  intros T. revert done.
  induction l as [|x l IH]; intros done Hl Hd Hs; simpl; [exact Hs|].
  assert (Hx : In x all) by (apply Hl; now left).
  apply IH.
  - intros z Hz. apply Hl. now right.
  - intros z Hz. destruct (sink_In _ _ _ Hz) as [-> | Hz']; auto.
  - now apply sink_settled with (l := all).
Qed.

Lemma sorted_snoc (l : list A) (a : A) :
  sorted less l -> Forall (fun b => less a b = false) l ->
  sorted less (l ++ [a]).
Proof.
  unfold sorted. induction 1 as [|b l Hs IH Hall]; intros Ha; simpl.
  - constructor; constructor.
  - inversion Ha as [|b' l' Hab Ha']; subst.
    constructor; [now apply IH|].
    apply Forall_app. split; [exact Hall|].
    constructor; [exact Hab | constructor].
Qed.

Lemma settled_rev (done : list A) :
  settled done -> sorted less (rev done).
Proof.
  unfold settled.
  induction 1 as [|a l Hs IH Hall]; simpl; [constructor|].
  apply sorted_snoc; [exact IH|].
  apply Forall_forall. intros b Hb. apply in_rev in Hb.
  now apply (proj1 (Forall_forall _ _) Hall).
Qed.

Lemma insertionSort_Permutation (l : list A) :
  Permutation l (insertionSort less l).
Proof.
  unfold insertionSort. rewrite <- Permutation_rev.
  rewrite <- fold_sink_Permutation. rewrite app_nil_r.
  apply Permutation_rev.
Qed.

Lemma insertionSort_sorted (l : list A) :
  transitive_ordering less l -> sorted less (insertionSort less l).
Proof.
  intros T. unfold insertionSort. apply settled_rev.
  apply fold_sink_settled with (all := l); auto.
  - apply incl_refl.
  - intros z [].
  - constructor.
Qed.

Lemma transitive_ordering_Permutation (l l' : list A) :
  Permutation l l' -> transitive_ordering less l ->
  transitive_ordering less l'.
Proof.
  intros P [I T C].
  assert (H : forall x, In x l' -> In x l).
  { intros x. apply Permutation_in. now apply Permutation_sym. }
  split; eauto.
Qed.

End Insertion.

(** Insertion sort is stable: a class of elements none of which is
    less than another keeps its order. *)
Section Stable.

Variable A : Type.
Variable less : A -> A -> bool.
Variable P : A -> bool.

Definition unordered_class (l : list A) : Prop :=
  forall x y, In x l -> In y l -> less x y = true ->
              P x = true -> P y = true -> False.

Lemma sink_stable (l : list A) (x : A) (done : list A) :
  unordered_class l -> In x l -> incl done l ->
  filter P (rev (sink less x done)) = filter P (rev done ++ [x]).
Proof.
intros U Hx. induction done as [|y done IH]; intros Hd; [reflexivity|].
cbn [sink]. destruct (less x y) eqn:E; [|reflexivity].
assert (Hy : In y l) by (apply Hd; now left).
cbn [rev]. rewrite !filter_app, IH by (intros z Hz; apply Hd; now right).
rewrite filter_app, <- !app_assoc. f_equal. cbn.
destruct (P x) eqn:Px, (P y) eqn:Py; try reflexivity.
destruct (U x y Hx Hy E Px Py).
Qed.

Lemma insertionSort_stable (l : list A) :
  unordered_class l -> filter P (insertionSort less l) = filter P l.
Proof.
intros U. unfold insertionSort.
assert (G : forall rest done, incl rest l -> incl done l ->
              filter P (rev (fold_left (fun done x => sink less x done)
                               rest done))
              = filter P (rev done ++ rest)).
{ induction rest as [|x rest IH]; intros done Hr Hd; cbn [fold_left].
  - now rewrite app_nil_r.
  - assert (Hx : In x l) by (apply Hr; now left).
    rewrite IH.
    + rewrite filter_app, sink_stable with (l := l) by assumption.
      rewrite <- filter_app. now rewrite <- app_assoc.
    + intros z Hz. apply Hr. now right.
    + intros z Hz. apply sink_In in Hz. destruct Hz as [-> | Hz']; auto. }
apply (G l []); [apply incl_refl | intros z []].
Qed.

End Stable.

(** Insertion sort, which the toolchain applies to slices of at most
    12 elements, meets the contract of [sort.Slice] at every length. *)
Definition insertion_sorter : Sorter := {| Slice := insertionSort |}.

Lemma insertion_contract : Contract insertion_sorter.
Proof.
split.
- exact insertionSort_Permutation.
- exact insertionSort_sorted.
Qed.

(** On at most 12 elements, [sort.Slice] of the toolchain is insertion
    sort. *)
Lemma pdqsort_short (A : Type) (less : A -> A -> bool) (l : list A) :
  (List.length l <= 12)%nat -> pdqsort less l = insertionSort less l.
Proof.
intros H. unfold pdqsort. cbn [pdqsort_func].
replace (Z.of_nat (List.length l) - 0 <=? 12)%Z with true
  by (symmetry; apply Z.leb_le; lia).
unfold insertionSort_func. cbn [Z.to_nat firstn skipn app].
rewrite Z.sub_0_r, Nat2Z.id, firstn_all, skipn_all. apply app_nil_r.
Qed.

End sortFacts.

(* ================================================================= *)
(** ** Retrieval *)

Module ragFacts.
Import core.

(** *** The ranking in the words of its description *)

(** The similarity of a chunk to the query, for a chunk that has an
    embedding of the query's dimension. *)
Definition similarity_to (q : list float32) (c : DataChunk.t)
  : option float32 :=
  if (List.length (DataChunk.Embedding c) =? 0)%nat then None
  else
    match utils.CosineSimilarity q (DataChunk.Embedding c) with
    | (sim, None) => Some sim
    | (_, Some _) => None
    end.

Definition candidates (q : list float32) (index : list DataChunk.t)
  : list ScoredChunk :=
  flat_map
    (fun c =>
       match similarity_to q c with
       | Some sim => [{| Chunk := c; Similarity := sim |}]
       | None => []
       end) index.

(** "Keep chunks with s >= T", in index order. *)
Definition relevant (q : list float32) (index : list DataChunk.t)
  : list ScoredChunk :=
  filter (fun sc => F32.geb (Similarity sc) SimilarityThreshold)
    (candidates q index).

(** "Sorted by s descending". *)
Definition descending (l : list ScoredChunk) : Prop :=
  StronglySorted
    (fun a b => F32.geb (Similarity a) (Similarity b) = true) l.

Definition join (l : list string) : string := fold_right append "" l.

(** "Take the first K; concatenate their text, each followed by a
    blank-line separator; trim", with [strings.TrimSpace], which cuts
    the white space at both ends. *)
Definition context_of (ranked : list ScoredChunk) : string :=
  strings.TrimSpace
    (join (map (fun sc => DataChunk.Content (Chunk sc) ++ blank_line)
             (firstn NumRelevantChunks ranked))).

(** The answer of [GetEmbedding] to the [n]-th gateway call. *)
Definition embedding_answer (w : World) (n : nat) (text : string)
  : ret (list float32) :=
  match EmbedContent w n text with
  | Failed e => ([], Some (Wrapf "gemini embedding request failed" e))
  | Returned res =>
      match genai.Embedding res with
      | None => ([], Some (Errorf "no embedding data received from gemini"))
      | Some embedding =>
          if (List.length (genai.Values embedding) =? 0)%nat
          then ([], Some (Errorf "no embedding data received from gemini"))
          else (genai.Values embedding, None)
      end
  end.

(** *** The loops *)

Lemma append_assoc (a b c : string) : (a ++ b) ++ c = a ++ (b ++ c).
Proof. induction a as [|x a IH]; simpl; [reflexivity | now rewrite IH]. Qed.

Lemma append_nil_r (a : string) : a ++ "" = a.
Proof. induction a as [|x a IH]; simpl; [reflexivity | now rewrite IH]. Qed.

Lemma score_loop_relevant (q : list float32) (index : list DataChunk.t)
  (scoredChunks : list ScoredChunk) :
  score_loop q index scoredChunks = (scoredChunks ++ relevant q index)%list.
Proof.
  unfold relevant, candidates. revert scoredChunks.
  induction index as [|c index IH]; intros acc; simpl.
  - now rewrite app_nil_r.
  - unfold similarity_to.
    destruct (List.length (DataChunk.Embedding c) =? 0)%nat; simpl;
      [apply IH|].
    destruct (utils.CosineSimilarity q (DataChunk.Embedding c))
      as [sim [e|]]; simpl; [apply IH|].
    destruct (F32.geb sim SimilarityThreshold); simpl.
    + rewrite IH. now rewrite <- app_assoc.
    + apply IH.
Qed.

Definition separated (l : list ScoredChunk) : string :=
  join (map (fun sc => DataChunk.Content (Chunk sc) ++ blank_line) l).

Lemma context_loop_firstn (l : list ScoredChunk) (n : nat) (acc : string) :
  context_loop l n acc
  = ((n + List.length (firstn (NumRelevantChunks - n) l))%nat,
     acc ++ separated (firstn (NumRelevantChunks - n) l)).
Proof.
  revert n acc. induction l as [|sc l IH]; intros n acc;
    cbn [context_loop].
  - rewrite firstn_nil. cbn. now rewrite Nat.add_0_r, append_nil_r.
  - destruct (n <? NumRelevantChunks)%nat eqn:E.
    + apply Nat.ltb_lt in E. rewrite IH.
      replace (NumRelevantChunks - n)%nat
        with (S (NumRelevantChunks - S n)) by lia.
      rewrite firstn_cons. cbn [List.length]. f_equal; [lia|].
      unfold separated. cbn [map join fold_right].
      now rewrite !append_assoc.
    + apply Nat.ltb_ge in E.
      replace (NumRelevantChunks - n)%nat with 0%nat by lia.
      cbn. now rewrite Nat.add_0_r, append_nil_r.
Qed.

Lemma GetEmbedding_answer (w : World) (text : string) (st : State) :
  GetEmbedding w text st
  = (embedding_answer w (List.length (gateway_calls st)) text,
     set_gateway_calls (gateway_calls st ++ [CallEmbedContent text]) st).
Proof.
  unfold GetEmbedding, embedding_answer, bind, gateway, pure.
  destruct (EmbedContent w (List.length (gateway_calls st)) text)
    as [e|res]; [reflexivity|].
  destruct (genai.Embedding res) as [embedding|]; [|reflexivity].
  now destruct (List.length (genai.Values embedding) =? 0)%nat.
Qed.

(** [GetRelevantContext] in one equation. *)
Lemma GetRelevantContext_eq (w : World) (sorter : sort.Sorter)
  (s : RAGService) (query : string) (st : State) :
  GetRelevantContext w s query st
  = if (List.length (dataChunks s) =? 0)%nat then (("", None), st)
    else
      let st' :=
        set_gateway_calls (gateway_calls st ++ [CallEmbedContent query]) st
      in
      match embedding_answer w (List.length (gateway_calls st)) query with
      | (_, Some e) =>
          (("", Some (Wrapf "failed to get query embedding" e)), st')
      | (q, None) =>
          ((context_of
              (sort.Slice by_similarity_desc (relevant q (dataChunks s))),
            None), st')
      end.
Proof.
  unfold GetRelevantContext.
  destruct (List.length (dataChunks s) =? 0)%nat; [reflexivity|].
  unfold bind. rewrite GetEmbedding_answer.
  destruct (embedding_answer w (List.length (gateway_calls st)) query)
    as [q [e|]]; [reflexivity|].
  rewrite score_loop_relevant.
  change ([] ++ relevant q (dataChunks s))%list
    with (relevant q (dataChunks s)).
  rewrite context_loop_firstn, Nat.sub_0_r.
  unfold context_of, separated.
  destruct (sort.Slice by_similarity_desc (relevant q (dataChunks s)))
    as [|sc ranked]; reflexivity.
Qed.

(** *** The order of the ranking *)

Definition numbers (l : list ScoredChunk) : Prop :=
  Forall (fun sc => F32Facts.is_nan (Similarity sc) = false) l.

Lemma relevant_numbers (q : list float32) (index : list DataChunk.t) :
  numbers (relevant q index).
Proof.
  apply Forall_forall. intros sc H. apply filter_In in H.
  destruct H as [_ H]. now apply F32Facts.geb_not_nan in H.
Qed.

Lemma by_similarity_desc_ordering (l : list ScoredChunk) :
  numbers l -> sort.transitive_ordering by_similarity_desc l.
Proof.
  intros N.
  assert (K : forall a b, In a l -> In b l ->
              (by_similarity_desc a b = true
               <-> F32Facts.key_lt (F32Facts.key (Similarity b))
                     (F32Facts.key (Similarity a)))).
  { intros a b Ha Hb. unfold by_similarity_desc, F32.gtb.
    apply F32Facts.ltb_key; now apply (proj1 (Forall_forall _ _) N). }
  split.
  - intros x Hx. destruct (by_similarity_desc x x) eqn:E; [|reflexivity].
    apply (K x x Hx Hx) in E. now apply F32Facts.key_lt_irrefl in E.
  - intros x y z Hx Hy Hz Hxy Hyz.
    apply (K x y Hx Hy) in Hxy. apply (K y z Hy Hz) in Hyz.
    apply (K x z Hx Hz). now apply F32Facts.key_lt_trans with (2 := Hxy).
  - intros x y z Hx Hy Hz Hxy Hyz.
    destruct (by_similarity_desc x z) eqn:E; [|reflexivity].
    apply (K x z Hx Hz) in E.
    assert (Nxy : ~ F32Facts.key_lt (F32Facts.key (Similarity y))
                    (F32Facts.key (Similarity x))).
    { intros H. apply (K x y Hx Hy) in H. congruence. }
    assert (Nyz : ~ F32Facts.key_lt (F32Facts.key (Similarity z))
                    (F32Facts.key (Similarity y))).
    { intros H. apply (K y z Hy Hz) in H. congruence. }
    exfalso.
    destruct (F32Facts.key_lt_total (F32Facts.key (Similarity x))
                (F32Facts.key (Similarity y))) as [H1|[H1|H1]];
      [|rewrite H1 in *|contradiction];
      (destruct (F32Facts.key_lt_total (F32Facts.key (Similarity y))
                   (F32Facts.key (Similarity z))) as [H2|[H2|H2]];
       [|rewrite H2 in *|contradiction]).
    + apply (F32Facts.key_lt_irrefl (F32Facts.key (Similarity x))).
      apply F32Facts.key_lt_trans with (1 := H1).
      now apply F32Facts.key_lt_trans with (1 := H2).
    + apply (F32Facts.key_lt_irrefl (F32Facts.key (Similarity z))).
      now apply F32Facts.key_lt_trans with (1 := E).
    + apply (F32Facts.key_lt_irrefl (F32Facts.key (Similarity z))).
      now apply F32Facts.key_lt_trans with (1 := E).
    + now apply (F32Facts.key_lt_irrefl (F32Facts.key (Similarity z))).
Qed.

Lemma sorted_descending (l : list ScoredChunk) :
  numbers l -> sort.sorted by_similarity_desc l -> descending l.
Proof.
  unfold descending, sort.sorted. intros N S.
  induction S as [|a l S IH Hall]; [constructor|].
  inversion N as [|a' l' Na Nl]; subst.
  constructor; [now apply IH|].
  apply Forall_forall. intros b Hb.
  assert (Nb : F32Facts.is_nan (Similarity b) = false)
    by now apply (proj1 (Forall_forall _ _) Nl).
  rewrite (F32Facts.geb_ltb _ _ Na Nb).
  apply (proj1 (Forall_forall _ _) Hall) in Hb.
  unfold by_similarity_desc, F32.gtb in Hb. unfold F32.ltb.
  now rewrite Hb.
Qed.

(** What [sort.Slice] makes of the relevant chunks. *)
Lemma ranking_descending (sorter : sort.Sorter)
  (C : sort.Contract sorter) (q : list float32) (index : list DataChunk.t) :
  Permutation (relevant q index)
    (sort.Slice by_similarity_desc (relevant q index))
  /\ descending (sort.Slice by_similarity_desc (relevant q index)).
Proof.
  split; [apply sort.Slice_Permutation|].
  apply sorted_descending.
  - unfold numbers.
    apply (Permutation_Forall (sort.Slice_Permutation _ _)).
    apply relevant_numbers.
  - apply sort.Slice_sorted. apply by_similarity_desc_ordering.
    apply relevant_numbers.
Qed.

Lemma Slice_nil (sorter : sort.Sorter) (C : sort.Contract sorter)
  (A : Type) (less : A -> A -> bool) : sort.Slice less [] = [].
Proof.
  apply Permutation_nil. apply sort.Slice_Permutation.
Qed.


Lemma length_0_nil (A : Type) (l : list A) :
  (List.length l =? 0)%nat = true -> l = [].
Proof. destruct l; [reflexivity | discriminate]. Qed.

Lemma GetRelevantContext_embedded (w : World) (sorter : sort.Sorter)
  (C : sort.Contract sorter) (s : RAGService) (query : string) (st : State)
  (q : list float32) :
  fst (GetEmbedding w query st) = (q, None) ->
  fst (GetRelevantContext w s query st)
  = (context_of
       (sort.Slice by_similarity_desc (relevant q (dataChunks s))), None).
Proof.
  rewrite GetEmbedding_answer, GetRelevantContext_eq. cbn [fst].
  intros E.
  destruct (List.length (dataChunks s) =? 0)%nat eqn:L.
  - apply length_0_nil in L. rewrite L. cbn [fst relevant candidates
      flat_map filter]. now rewrite Slice_nil.
  - cbv zeta. now rewrite E.
Qed.



(** C7. On an empty chunk index [GetRelevantContext] returns the
    empty context and no error (and asks the gateway nothing); and
    when the query has an embedding and every chunk that has a
    similarity to it scores below the threshold, it returns the empty
    context and no error as well. *)
Theorem GetRelevantContext_nothing_relevant (w : World)
  (sorter : sort.Sorter) (C : sort.Contract sorter) :
  (forall (s : RAGService) (query : string) (st : State),
      dataChunks s = [] ->
      GetRelevantContext w s query st = (("", None), st))
  /\ (forall (s : RAGService) (query : string) (st : State)
            (q : list float32),
         fst (GetEmbedding w query st) = (q, None) ->
         (forall c sim, In c (dataChunks s) ->
                        similarity_to q c = Some sim ->
                        F32.ltb sim SimilarityThreshold = true) ->
         fst (GetRelevantContext w s query st) = ("", None)).
Proof.
  split.
  - intros s query st E. rewrite GetRelevantContext_eq, E. reflexivity.
  - intros s query st q E Below.
    rewrite GetRelevantContext_embedded with (q := q) by assumption.
    assert (R : relevant q (dataChunks s) = []).
    { unfold relevant, candidates.
      induction (dataChunks s) as [|c index IH]; [reflexivity|].
      cbn [flat_map]. rewrite filter_app, IH.
      - rewrite app_nil_r.
        destruct (similarity_to q c) as [sim|] eqn:S; [|reflexivity].
        cbn [filter Similarity].
        rewrite (F32Facts.ltb_geb_false _ _
                   (Below c sim (or_introl eq_refl) S)).
        reflexivity.
      - intros c' sim' H. apply Below. now right. }
    rewrite R, Slice_nil by assumption. reflexivity.
Qed.

Lemma GetRelevantContext_nothing_relevant_witness :
  GetRelevantContext (Examples.embedding Examples.along_x)
    (sorter := sortFacts.insertion_sorter)
    {| dataChunks := [] |} "What is the capital of France?"
    Examples.empty
  = (("", None), Examples.empty)
  /\ fst (GetRelevantContext (Examples.embedding Examples.along_x)
            (sorter := sortFacts.insertion_sorter)
            {| dataChunks := [Examples.sky] |} "Why is the sea salty?"
            Examples.empty)
     = ("", None).
Proof.
  split.
  - apply (proj1 (GetRelevantContext_nothing_relevant
                    (Examples.embedding Examples.along_x)
                    sortFacts.insertion_contract)).
    reflexivity.
  - apply (proj2 (GetRelevantContext_nothing_relevant
                    (Examples.embedding Examples.along_x)
                    sortFacts.insertion_contract))
      with (q := Examples.along_x).
    + reflexivity.
    + intros c sim [<-|[]] S. vm_compute in S.
      injection S as <-. vm_compute. reflexivity.
Defined.

(** C2, as stated, fails. Of thirteen chunks that pass the threshold,
    the first twelve at one similarity and the last at a higher one,
    [sort.Slice] of the toolchain ranks the best first and then the
    seventh and the third of the index: the quicksort has moved the
    equal ones. A stable sort would rank the first and the second
    after the best. *)
Lemma ties_against_index_order :
  let texts := map (fun sc => DataChunk.Content (Chunk sc)) in
  let relevant13 := relevant Examples.along_x Examples.thirteen in
  map Similarity relevant13
  = (repeat (F32.of_ratio 9 10) 12 ++ [F32.of_Z 1])%list
  /\ texts (sort.Slice (Sorter := sort.toolchain) by_similarity_desc
              relevant13)
     = ["best"; "g"; "c"; "d"; "e"; "f"; "a"; "h"; "i"; "j"; "k"; "l"; "b"]
  /\ fst (GetRelevantContext (Examples.embedding Examples.along_x)
            (sorter := sort.toolchain)
            {| dataChunks := Examples.thirteen |} "x?" Examples.empty)
     = ("best" ++ blank_line ++ "g" ++ blank_line ++ "c", None)
  /\ texts (sort.insertionSort by_similarity_desc relevant13)
     = ["best"; "a"; "b"; "c"; "d"; "e"; "f"; "g"; "h"; "i"; "j"; "k"; "l"].
Proof. cbv zeta. repeat split; vm_compute; reflexivity. Qed.

(** Among at most 12 relevant chunks the toolchain keeps the chunks of
    one similarity in index order. *)
Lemma ties_in_index_order (q : list float32) (index : list DataChunk.t)
  (v : float32) :
  (List.length (relevant q index) <= 12)%nat ->
  let same sc := F32.eqb (Similarity sc) v in
  filter same
    (sort.Slice (Sorter := sort.toolchain) by_similarity_desc
       (relevant q index))
  = filter same (relevant q index).
Proof.
intros L same. cbn [sort.Slice sort.toolchain].
rewrite sortFacts.pdqsort_short by exact L.
apply sortFacts.insertionSort_stable.
intros x y _ _ Less Px Py. subst same. cbn beta in Px, Py.
unfold by_similarity_desc, F32.gtb in Less.
pose proof (F32Facts.eqb_not_ltb _ _ _ Py Px) as N.
unfold F32.ltb in N. congruence.
Qed.

(** C2 (amended). For a fixed chunk index, two calls of
    [GetRelevantContext] to which the gateway gives the same answer
    for the query return the same result; the ranking behind a result
    is the relevant chunks rearranged by [sort.Slice] (a sort that
    keeps its documented contract) in descending order of similarity;
    and chunks of equal similarity appear in their index order as long
    as at most 12 chunks are relevant, the toolchain sorting these by
    insertion. Beyond 12 the order among equals is the one the
    quicksort leaves. *)
Theorem ranking_deterministic (w : World) (sorter : sort.Sorter)
  (s : RAGService) (query : string) :
  (forall st1 st2 : State,
      fst (GetEmbedding w query st1) = fst (GetEmbedding w query st2) ->
      fst (GetRelevantContext w s query st1)
      = fst (GetRelevantContext w s query st2))
  /\ (sort.Contract sorter ->
      forall q : list float32,
        let ranked :=
          sort.Slice by_similarity_desc (relevant q (dataChunks s)) in
        Permutation (relevant q (dataChunks s)) ranked
        /\ descending ranked)
  /\ (forall (q : list float32) (v : float32),
        (List.length (relevant q (dataChunks s)) <= 12)%nat ->
        let same sc := F32.eqb (Similarity sc) v in
        filter same
          (sort.Slice (Sorter := sort.toolchain) by_similarity_desc
             (relevant q (dataChunks s)))
        = filter same (relevant q (dataChunks s))).
Proof.
split; [|split].
- intros st1 st2. rewrite !GetEmbedding_answer, !GetRelevantContext_eq.
  cbn [fst]. intros ->.
  destruct (List.length (dataChunks s) =? 0)%nat; [reflexivity|].
  cbv zeta.
  now destruct (embedding_answer w (List.length (gateway_calls st2))
                  query) as [q [e|]].
- intros C q. now apply ranking_descending.
- intros q v. apply ties_in_index_order.
Qed.

Lemma ranking_deterministic_witness :
  fst (GetRelevantContext (Examples.embedding Examples.along_x)
         (sorter := sort.toolchain)
         {| dataChunks := Examples.twelve_ties |} "x?" Examples.empty)
  = fst (GetRelevantContext (Examples.embedding Examples.along_x)
           (sorter := sort.toolchain)
           {| dataChunks := Examples.twelve_ties |} "x?"
           (set_gateway_calls [CallEmbedContent "x?"] Examples.empty))
  /\ descending
       (sort.Slice (Sorter := sortFacts.insertion_sorter) by_similarity_desc
          (relevant Examples.along_x Examples.twelve_ties))
  /\ (let same sc := F32.eqb (Similarity sc) (F32.of_ratio 9 10) in
      filter same
        (sort.Slice (Sorter := sort.toolchain) by_similarity_desc
           (relevant Examples.along_x Examples.twelve_ties))
      = filter same (relevant Examples.along_x Examples.twelve_ties)).
Proof.
split; [|split].
- apply (proj1 (ranking_deterministic
                  (Examples.embedding Examples.along_x) sort.toolchain
                  {| dataChunks := Examples.twelve_ties |} "x?")).
  reflexivity.
- apply (proj1 (proj2 (ranking_deterministic
                         (Examples.embedding Examples.along_x)
                         sortFacts.insertion_sorter
                         {| dataChunks := Examples.twelve_ties |} "x?"))
           sortFacts.insertion_contract Examples.along_x).
- apply (proj2 (proj2 (ranking_deterministic
                         (Examples.embedding Examples.along_x)
                         sort.toolchain
                         {| dataChunks := Examples.twelve_ties |} "x?"))
           Examples.along_x (F32.of_ratio 9 10)).
  vm_compute. repeat constructor.
Defined.

End ragFacts.

(* ================================================================= *)
(** ** The message table *)

Module storeFacts.

Section OrderBy.

Variable A : Type.
Variable before : A -> A -> bool.
Hypothesis before_total : forall a b, before a b = true \/ before b a = true.
Hypothesis before_trans :
  forall a b c, before a b = true -> before b c = true -> before a c = true.

Definition ordered (l : list A) : Prop :=
  StronglySorted (fun a b => before a b = true) l.

Lemma insert_by_Permutation (x : A) (l : list A) :
  Permutation (x :: l) (insert_by before x l).
Proof.
induction l as [|y l IH]; cbn; [reflexivity|].
destruct (before x y); [reflexivity|].
rewrite perm_swap. now apply perm_skip.
Qed.

Lemma order_by_Permutation (l : list A) : Permutation l (order_by before l).
Proof.
induction l as [|x l IH]; cbn; [reflexivity|].
rewrite <- insert_by_Permutation. now apply perm_skip.
Qed.

Lemma insert_by_ordered (x : A) (l : list A) :
  ordered l -> ordered (insert_by before x l).
Proof.
unfold ordered. induction 1 as [|y l S IH Hall]; cbn.
- constructor; constructor.
- destruct (before x y) eqn:E.
  + constructor; [now constructor|].
    constructor; [exact E|].
    apply Forall_forall. intros z Hz. apply before_trans with y; [exact E|].
    now apply (proj1 (Forall_forall _ _) Hall).
  + constructor; [exact IH|].
    apply Forall_forall. intros z Hz.
    apply (Permutation_in z (Permutation_sym (insert_by_Permutation x l)))
      in Hz.
    destruct Hz as [<-|Hz].
    * destruct (before_total x y) as [H|H]; congruence.
    * now apply (proj1 (Forall_forall _ _) Hall).
Qed.

Lemma order_by_ordered (l : list A) : ordered (order_by before l).
Proof.
induction l as [|x l IH]; cbn; [constructor|].
now apply insert_by_ordered.
Qed.

Lemma skipn_In (n : nat) (l : list A) (b : A) : In b (skipn n l) -> In b l.
Proof.
intros H. rewrite <- (firstn_skipn n l). apply in_or_app. now right.
Qed.

Lemma firstn_In (n : nat) (l : list A) (a : A) : In a (firstn n l) -> In a l.
Proof.
intros H. rewrite <- (firstn_skipn n l). apply in_or_app. now left.
Qed.

(** In an ordered list, what [firstn] keeps comes before what it
    leaves. *)
Lemma ordered_firstn_skipn (n : nat) (l : list A) (a b : A) :
  ordered l -> In a (firstn n l) -> In b (skipn n l) -> before a b = true.
Proof.
unfold ordered. intros S. revert n.
induction S as [|x l S IH Hall]; intros n Ha Hb.
- rewrite firstn_nil in Ha. destruct Ha.
- destruct n as [|n]; [destruct Ha|].
  cbn in Ha, Hb. destruct Ha as [<-|Ha].
  + apply (proj1 (Forall_forall _ _) Hall).
    exact (skipn_In n l b Hb).
  + now apply (IH n).
Qed.

(** The first of an ordered list is a first of the list it orders. *)
Lemma ordered_head (l : list A) (x : A) (rest : list A) :
  order_by before l = x :: rest -> forall y, In y l -> before x y = true.
Proof.
intros E y Hy.
assert (S := order_by_ordered l). rewrite E in S.
apply (Permutation_in y (order_by_Permutation l)) in Hy. rewrite E in Hy.
inversion S as [|x' l' S' Hall]; subst.
destruct Hy as [<-|Hy].
- destruct (before_total x x); assumption.
- now apply (proj1 (Forall_forall _ _) Hall).
Qed.

End OrderBy.

Lemma newer_first_total (a b : Message.t) :
  store.newer_first a b = true \/ store.newer_first b a = true.
Proof. unfold store.newer_first. lia. Qed.

Lemma newer_first_trans (a b c : Message.t) :
  store.newer_first a b = true -> store.newer_first b c = true ->
  store.newer_first a c = true.
Proof. unfold store.newer_first. lia. Qed.

(** The rows that [GetLastNMessagesByChatID] selects for [n = 5]. *)
Definition last5 (chatID : string) (rows : list Message.t)
  : list Message.t :=
  limit 5 (order_by store.newer_first (filter (store.of_chat chatID) rows)).

Lemma GetLastNMessagesByChatID_run (w : World) (chatID : string) (n : Z)
  (st : State) :
  store.GetLastNMessagesByChatID w chatID n st
  = (match sql_fails w (sql_count st) with
     | Some e => ([], Some (Wrapf "failed to query messages" e))
     | None =>
         (limit n (order_by store.newer_first
                     (filter (store.of_chat chatID) (messages st))), None)
     end,
     set_sql_count (S (sql_count st)) st).
Proof.
unfold store.GetLastNMessagesByChatID, bind, sql, gets, pure.
now destruct (sql_fails w (sql_count st)).
Qed.

Lemma last5_length (chatID : string) (rows : list Message.t) :
  (List.length (last5 chatID rows) <= 5)%nat.
Proof. unfold last5, limit. cbn. apply firstn_le_length. Qed.

Lemma last5_rows (chatID : string) (rows : list Message.t) (m : Message.t) :
  In m (last5 chatID rows) -> In m rows /\ Message.ChatID m = chatID.
Proof.
unfold last5, limit. cbn [Z.ltb Z.compare]. intros H.
apply firstn_In in H.
apply (Permutation_in m (Permutation_sym (order_by_Permutation _ _))) in H.
apply filter_In in H. destruct H as [H E]. split; [exact H|].
now apply String.eqb_eq.
Qed.

(** No message of the chat that [last5] leaves is newer than one it
    keeps. *)
Lemma last5_most_recent (chatID : string) (rows : list Message.t)
  (m m' : Message.t) :
  In m (last5 chatID rows) -> In m' rows -> Message.ChatID m' = chatID ->
  ~ In m' (last5 chatID rows) ->
  (Message.Timestamp m' <= Message.Timestamp m)%Z.
Proof.
unfold last5, limit. cbn [Z.ltb Z.compare]. intros Hm Hm' E Out.
set (l := order_by store.newer_first (filter (store.of_chat chatID) rows))
  in *.
assert (In m' l) as Hl.
{ apply (Permutation_in m' (order_by_Permutation _ _)).
  apply filter_In. split; [exact Hm'|]. now apply String.eqb_eq. }
rewrite <- (firstn_skipn (Z.to_nat 5) l) in Hl. apply in_app_or in Hl.
destruct Hl as [Hl|Hl]; [contradiction|].
assert (B : store.newer_first m m' = true).
{ apply ordered_firstn_skipn with (n := Z.to_nat 5) (l := l); auto.
  apply order_by_ordered.
  - exact newer_first_total.
  - exact newer_first_trans. }
unfold store.newer_first in B. lia.
Qed.

Lemma StronglySorted_firstn (A : Type) (R : A -> A -> Prop) (n : nat)
  (l : list A) : StronglySorted R l -> StronglySorted R (firstn n l).
Proof.
intros S. revert n. induction S as [|x l S IH Hall]; intros [|n]; cbn;
  try constructor; [apply IH|].
apply Forall_forall. intros y Hy.
apply (proj1 (Forall_forall _ _) Hall).
rewrite <- (firstn_skipn n l). apply in_or_app. now left.
Qed.

(** The selection goes from the newest message to the oldest. *)
Lemma last5_newest_first (chatID : string) (rows : list Message.t) :
  StronglySorted
    (fun a b => (Message.Timestamp b <= Message.Timestamp a)%Z)
    (last5 chatID rows).
Proof.
unfold last5, limit. cbn [Z.ltb Z.compare].
apply StronglySorted_firstn.
assert (S : ordered store.newer_first
              (order_by store.newer_first
                 (filter (store.of_chat chatID) rows))).
{ apply order_by_ordered; [exact newer_first_total|].
  exact newer_first_trans. }
revert S.
generalize (order_by store.newer_first (filter (store.of_chat chatID) rows)).
intros sel S. unfold ordered in S.
induction S as [|x l S IH Hall]; constructor; [exact IH|].
apply Forall_forall. intros y Hy.
apply (proj1 (Forall_forall _ _) Hall) in Hy.
unfold store.newer_first in Hy. lia.
Qed.

(** A message newer than every other message of its chat heads the
    selection. *)
Lemma last5_newest (chatID : string) (rows : list Message.t)
  (m : Message.t) :
  Message.ChatID m = chatID ->
  (forall m', In m' rows -> Message.ChatID m' = chatID ->
              (Message.Timestamp m' < Message.Timestamp m)%Z) ->
  exists rest, last5 chatID (rows ++ [m]) = m :: rest.
Proof.
intros E Newer. unfold last5, limit. cbn [Z.ltb Z.compare].
set (l := filter (store.of_chat chatID) (rows ++ [m])).
assert (Hm : In m l).
{ apply filter_In. split; [apply in_or_app; right; now left|].
  now apply String.eqb_eq. }
destruct (order_by store.newer_first l) as [|x rest] eqn:S.
- apply (Permutation_in m (order_by_Permutation store.newer_first l)) in Hm.
  rewrite S in Hm. destruct Hm.
- assert (B : store.newer_first x m = true).
  { apply ordered_head with (l := l) (rest := rest); auto.
    - exact newer_first_total.
    - exact newer_first_trans. }
  assert (Hx : In x l).
  { apply (Permutation_in x
             (Permutation_sym (order_by_Permutation store.newer_first l))).
    rewrite S. now left. }
  apply filter_In in Hx. destruct Hx as [Hx Ex].
  apply String.eqb_eq in Ex. apply in_app_or in Hx.
  destruct Hx as [Hx|[<-|[]]].
  + apply (Newer x Hx) in Ex. unfold store.newer_first in B. lia.
  + exists (firstn 4 rest). reflexivity.
Qed.

(** The selection holds as many messages as the chat has, up to 5. *)
Lemma last5_count (chatID : string) (rows : list Message.t) :
  List.length (last5 chatID rows)
  = Nat.min 5 (List.length (filter (store.of_chat chatID) rows)).
Proof.
unfold last5, limit. cbn [Z.ltb Z.compare]. rewrite length_firstn.
now rewrite <- (Permutation_length
                  (order_by_Permutation store.newer_first _)).
Qed.

(** The selection and the messages it leaves make up the messages of
    the chat, each once, and none that is left is newer than one that
    is selected. *)
Lemma last5_split (chatID : string) (rows : list Message.t) :
  exists older,
    Permutation (last5 chatID rows ++ older)
      (filter (store.of_chat chatID) rows)
    /\ forall m m', In m (last5 chatID rows) -> In m' older ->
                    (Message.Timestamp m' <= Message.Timestamp m)%Z.
Proof.
unfold last5, limit. cbn [Z.ltb Z.compare].
set (l := order_by store.newer_first (filter (store.of_chat chatID) rows)).
exists (skipn (Z.to_nat 5) l). split.
- rewrite firstn_skipn. symmetry. apply order_by_Permutation.
- intros m m' Hm Hm'.
  assert (B : store.newer_first m m' = true).
  { apply ordered_firstn_skipn with (n := Z.to_nat 5) (l := l); auto.
    apply order_by_ordered.
    - exact newer_first_total.
    - exact newer_first_trans. }
  unfold store.newer_first in B. lia.
Qed.

End storeFacts.

(* ================================================================= *)
(** ** Chat turns *)

Module chatFacts.
Import core.

(** *** The prompt and the reply, in the words of their description *)

(** The final user turn of a prompt. *)
Definition user_turn (relevantContext userQuery : string) : genai.Content :=
  {| genai.Role := "user";
     genai.Parts :=
       [genai.Text (finalUserContent relevantContext userQuery)] |}.

(** The parts of a response: those of the content of its first
    candidate, none when the response, the candidate or the content is
    missing. *)
Definition first_parts (resp : option genai.GenerateContentResponse)
  : list genai.Part :=
  match resp with
  | Some r =>
      match genai.Candidates r with
      | c :: _ =>
          match genai.CandidateContent c with
          | Some content => genai.Parts content
          | None => []
          end
      | [] => []
      end
  | None => []
  end.

(** The text of the parts that are text. *)
Definition text_of (parts : list genai.Part) : string :=
  ragFacts.join
    (map (fun part => match part with
                      | genai.Text txt => txt
                      | genai.NonText _ => ""
                      end) parts).

(** What [GetChatCompletion] returns for an answer of the gateway. *)
Definition completion_answer
  (r : outcome (option genai.GenerateContentResponse)) : ret string :=
  match r with
  | Failed e => ("", Some (Wrapf "gemini chat SendMessage failed" e))
  | Returned resp =>
      match first_parts resp with
      | [] => (fallbackNoCandidates, None)
      | parts =>
          if text_of parts =? "" then (fallbackNoText, None)
          else (text_of parts, None)
      end
  end.

(** The histories handed to the generation gateway, call after call. *)
Definition prompts (calls : list GatewayCall) : list (list genai.Content) :=
  flat_map (fun call => match call with
                        | CallSendMessage history _ => [history]
                        | _ => []
                        end) calls.

Definition is_embed (call : GatewayCall) : Prop :=
  exists text, call = CallEmbedContent text.

(** *** One step at a time *)

Lemma write_text_text_of (parts : list genai.Part) (acc : string) :
  fold_left write_text parts acc = acc ++ text_of parts.
Proof.
revert acc. induction parts as [|part parts IH]; intros acc; cbn.
- now rewrite ragFacts.append_nil_r.
- rewrite IH. destruct part as [txt|k]; cbn.
  + now rewrite ragFacts.append_assoc.
  + reflexivity.
Qed.

Lemma length_eqb_0_empty (t : string) :
  (String.length t =? 0)%nat = (t =? "").
Proof. now destruct t. Qed.

Lemma GetChatCompletion_run (w : World) (h : list genai.Content)
  (turn : genai.Content) (st : State) :
  genai.Role turn = "user" ->
  GetChatCompletion w (h ++ [turn]) st
  = (completion_answer
       (SendMessage w (List.length (gateway_calls st)) (h ++ [turn])
          (genai.Parts turn)),
     set_gateway_calls
       (gateway_calls st ++ [CallSendMessage (h ++ [turn]) (genai.Parts turn)])
       st).
Proof.
intros R. unfold GetChatCompletion. rewrite rev_app_distr. cbn [rev app].
rewrite R. cbn [String.eqb Ascii.eqb Bool.eqb negb andb].
unfold bind, gateway, pure, completion_answer.
destruct (SendMessage w (List.length (gateway_calls st)) (h ++ [turn])
            (genai.Parts turn)) as [e|resp]; [reflexivity|].
destruct resp as [[[|[[[role [|part parts]]|]] cs]]|]; cbn [first_parts
  genai.Candidates genai.CandidateContent genai.Parts]; try reflexivity.
rewrite write_text_text_of. cbn [append]. rewrite length_eqb_0_empty.
now destruct (text_of (part :: parts) =? "").
Qed.

Lemma set_gateway_calls_same (st : State) :
  set_gateway_calls (gateway_calls st ++ []) st = st.
Proof. destruct st. unfold set_gateway_calls. cbn. now rewrite app_nil_r. Qed.

(** Retrieval touches nothing but the record of gateway calls, to
    which it adds at most the embedding of the query. *)
Lemma GetRelevantContext_state (w : World) (sorter : sort.Sorter)
  (s : RAGService) (query : string) (st : State) :
  exists calls,
    snd (GetRelevantContext w s query st)
    = set_gateway_calls (gateway_calls st ++ calls) st
    /\ Forall is_embed calls.
Proof.
rewrite ragFacts.GetRelevantContext_eq.
destruct (List.length (dataChunks s) =? 0)%nat.
- exists []. split; [now rewrite set_gateway_calls_same | constructor].
- exists [CallEmbedContent query]. cbv zeta. split.
  + now destruct (ragFacts.embedding_answer w
                    (List.length (gateway_calls st)) query) as [q [e|]].
  + constructor; [now exists query | constructor].
Qed.

(** The history that [GenerateResponse] puts in the prompt. *)
Definition history_of (w : World) (chatID : string) (st : State)
  : list Message.t :=
  match sql_fails w (sql_count st) with
  | Some _ => []
  | None => storeFacts.last5 chatID (messages st)
  end.

Lemma completion_step (w : World) (hist : list Message.t)
  (ctx userQuery : string) (st2 : State) :
  (let (a, st') :=
     GetChatCompletion w
       (map to_content hist
          ++ [{| genai.Role := "user";
                 genai.Parts := [genai.Text (finalUserContent ctx userQuery)]
              |}])%list st2 in
   (let '(modelResponse, err0) := a in
    match err0 with
    | Some e => pure ("", Some (Wrapf "failed to get LLM completion" e))
    | None => pure (modelResponse, None)
    end) st')
  = (match completion_answer
             (SendMessage w (List.length (gateway_calls st2))
                (map to_content hist ++ [user_turn ctx userQuery])%list
                (genai.Parts (user_turn ctx userQuery))) with
     | (_, Some e) => ("", Some (Wrapf "failed to get LLM completion" e))
     | (modelResponse, None) => (modelResponse, None)
     end,
     set_gateway_calls
       (gateway_calls st2
          ++ [CallSendMessage
                (map to_content hist ++ [user_turn ctx userQuery])%list
                (genai.Parts (user_turn ctx userQuery))]) st2).
Proof.
change {| genai.Role := "user";
          genai.Parts := [genai.Text (finalUserContent ctx userQuery)] |}
  with (user_turn ctx userQuery).
rewrite GetChatCompletion_run by reflexivity.
now destruct (completion_answer _) as [text [e|]].
Qed.

(** It goes from the newest message to the oldest, as the query
    yields it. *)
Lemma history_of_newest_first (w : World) (chatID : string) (st : State) :
  StronglySorted
    (fun a b => (Message.Timestamp b <= Message.Timestamp a)%Z)
    (history_of w chatID st).
Proof.
unfold history_of. destruct (sql_fails w (sql_count st)); [constructor|].
apply storeFacts.last5_newest_first.
Qed.

Lemma GenerateResponse_run (w : World) (sorter : sort.Sorter)
  (s : RAGService) (chatID : string) (userID : Z) (userQuery : string)
  (st : State) :
  GenerateResponse w s chatID userID userQuery st
  = let r :=
      GetRelevantContext w s userQuery (set_sql_count (S (sql_count st)) st)
    in
    let relevantContext :=
      match snd (fst r) with
      | Some _ => ""
      | None => fst (fst r)
      end in
    let turn := user_turn relevantContext userQuery in
    let prompt := (map to_content (history_of w chatID st) ++ [turn])%list in
    (match completion_answer
             (SendMessage w (List.length (gateway_calls (snd r))) prompt
                (genai.Parts turn)) with
     | (_, Some e) => ("", Some (Wrapf "failed to get LLM completion" e))
     | (modelResponse, None) => (modelResponse, None)
     end,
     set_gateway_calls
       (gateway_calls (snd r) ++ [CallSendMessage prompt (genai.Parts turn)])
       (snd r)).
Proof.
unfold GenerateResponse, bind.
rewrite storeFacts.GetLastNMessagesByChatID_run. cbv zeta.
unfold history_of, storeFacts.last5.
destruct (sql_fails w (sql_count st)) as [e|];
  destruct (GetRelevantContext w s userQuery
              (set_sql_count (S (sql_count st)) st)) as [[ctx err] st2];
  cbn [fst snd]; apply completion_step.
Qed.

(** *** A turn of [PostMessage] *)

(** A message as [CreateMessage] stamps it in state [st]. *)
Definition stamped (w : World) (st : State) (msg : Message.t) : Message.t :=
  Message.with_ID_Timestamp msg (NewString w (uuid_count st))
    (Now w (clock_count st)).

(** The inbound message of a turn, and the state once the chat is
    verified and the message stored (three statements). *)
Definition inbound (w : World) (st : State) (chatID userContent : string)
  : Message.t := stamped w st (new_message chatID "user" userContent).

Definition accepted (w : World) (st : State) (chatID userContent : string)
  : State :=
  set_messages (messages st ++ [inbound w st chatID userContent])
    (set_sql_count (3 + sql_count st)
       (set_clock_count (S (clock_count st))
          (set_uuid_count (S (uuid_count st)) st))).

(** The turn reaches generation: the chat is found for the user and
    the three statements are executed. *)
Definition reaches_generation (w : World) (st : State) (chatID : string)
  (userID : Z) : Prop :=
  (exists chat, find (store.chat_row chatID userID) (chats st) = Some chat)
  /\ sql_fails w (sql_count st) = None
  /\ sql_fails w (1 + sql_count st) = None
  /\ sql_fails w (2 + sql_count st) = None.

(** The content of the model message, from what [GenerateResponse]
    returns. *)
Definition model_content (g : ret string) : string :=
  match snd g with
  | Some _ => fallbackPostMessage
  | None => fst g
  end.

(** The state after the [k] statements of a [CreateMessage]. *)
Definition ticked (k : nat) (st : State) : State :=
  set_sql_count (k + sql_count st)
    (set_clock_count (S (clock_count st))
       (set_uuid_count (S (uuid_count st)) st)).

Lemma CreateMessage_run (w : World) (msg : Message.t) (st : State) :
  store.CreateMessage w msg st
  = match sql_fails w (sql_count st) with
    | Some e =>
        ((stamped w st msg,
          Some (Wrapf "failed to prepare message insert" e)), ticked 1 st)
    | None =>
        match sql_fails w (1 + sql_count st) with
        | Some e =>
            ((stamped w st msg,
              Some (Wrapf "failed to execute message insert" e)),
             ticked 2 st)
        | None =>
            ((stamped w st msg, None),
             set_messages (messages st ++ [stamped w st msg]) (ticked 2 st))
        end
    end.
Proof.
unfold store.CreateMessage, bind, uuid_NewString, time_Now, sql, modify,
  pure.
cbn. destruct (sql_fails w (sql_count st)); [reflexivity|].
cbn. now destruct (sql_fails w (S (sql_count st))).
Qed.

Lemma GetChatByID_run (w : World) (chatID : string) (userID : Z)
  (st : State) :
  store.GetChatByID w chatID userID st
  = (match sql_fails w (sql_count st) with
     | Some e => (None, Some (Wrapf "failed to get chat" e))
     | None => (find (store.chat_row chatID userID) (chats st), None)
     end,
     set_sql_count (S (sql_count st)) st).
Proof.
unfold store.GetChatByID, bind, sql, gets, pure.
now destruct (sql_fails w (sql_count st)).
Qed.

(** Deriving a title writes no message and calls no gateway from the
    turn itself: it starts at most one goroutine. *)
Lemma title_if_missing_frame (w : World) (chat : Chat.t) (chatID : string)
  (userID : Z) (st : State) :
  let st' := snd (title_if_missing w chat chatID userID st) in
  gateway_calls st' = gateway_calls st /\ messages st' = messages st.
Proof.
unfold title_if_missing.
destruct (untitled chat); [|split; reflexivity].
unfold bind. rewrite storeFacts.GetLastNMessagesByChatID_run.
destruct (sql_fails w (sql_count st)); cbn;
  repeat match goal with
         | |- context [if ?b then _ else _] => destruct b; cbn
         end; split; reflexivity.
Qed.

Lemma PostMessage_run (w : World) (sorter : sort.Sorter) (s : RAGService)
  (chatID : string) (userID : Z) (userContent : string) (st : State)
  (chat : Chat.t) :
  find (store.chat_row chatID userID) (chats st) = Some chat ->
  sql_fails w (sql_count st) = None ->
  sql_fails w (1 + sql_count st) = None ->
  sql_fails w (2 + sql_count st) = None ->
  PostMessage w s chatID userID userContent st
  = let g := GenerateResponse w s chatID userID userContent
               (accepted w st chatID userContent) in
    let reply :=
      stamped w (snd g) (new_message chatID "model" (model_content (fst g)))
    in
    match sql_fails w (sql_count (snd g)) with
    | Some e =>
        ((None,
          Some (Wrapf "failed to store model message"
                  (Wrapf "failed to prepare message insert" e))),
         ticked 1 (snd g))
    | None =>
        match sql_fails w (1 + sql_count (snd g)) with
        | Some e =>
            ((None,
              Some (Wrapf "failed to store model message"
                      (Wrapf "failed to execute message insert" e))),
             ticked 2 (snd g))
        | None =>
            ((Some reply, None),
             snd (title_if_missing w chat chatID userID
                    (set_messages (messages (snd g) ++ [reply])
                       (ticked 2 (snd g)))))
        end
    end.
Proof.
intros F S0 S1 S2. cbv zeta.
unfold PostMessage. unfold bind at 1. rewrite GetChatByID_run, S0, F.
unfold bind at 1. rewrite CreateMessage_run.
cbn [sql_count set_sql_count]. change (S (sql_count st)) with
  (1 + sql_count st)%nat. rewrite S1.
change (1 + (1 + sql_count st))%nat with (2 + sql_count st)%nat. rewrite S2.
match goal with
| |- context [bind (GenerateResponse w s chatID userID userContent) _ ?st'] =>
    change st' with (accepted w st chatID userContent)
end.
unfold bind at 1.
destruct (GenerateResponse w s chatID userID userContent
            (accepted w st chatID userContent)) as [[text err] st3].
cbn [fst snd]. unfold model_content. cbn [fst snd].
unfold bind at 1. rewrite CreateMessage_run.
destruct (sql_fails w (sql_count st3)) as [e1|]; [reflexivity|].
destruct (sql_fails w (1 + sql_count st3)) as [e2|]; [reflexivity|].
unfold bind, pure.
now destruct (title_if_missing w chat chatID userID _) as [u st5].
Qed.

Lemma PostMessage_turn (w : World) (sorter : sort.Sorter) (s : RAGService)
  (chatID : string) (userID : Z) (userContent : string) (st : State) :
  reaches_generation w st chatID userID ->
  let g := GenerateResponse w s chatID userID userContent
             (accepted w st chatID userContent) in
  let r := PostMessage w s chatID userID userContent st in
  let reply :=
    stamped w (snd g) (new_message chatID "model" (model_content (fst g))) in
  gateway_calls (snd r) = gateway_calls (snd g)
  /\ (sql_fails w (sql_count (snd g)) = None ->
      sql_fails w (1 + sql_count (snd g)) = None ->
      fst r = (Some reply, None)
      /\ messages (snd r) = (messages (snd g) ++ [reply])%list).
Proof.
intros ([chat F] & S0 & S1 & S2). cbv zeta.
rewrite PostMessage_run with (chat := chat) by assumption. cbv zeta.
set (g := GenerateResponse w s chatID userID userContent
            (accepted w st chatID userContent)).
destruct (sql_fails w (sql_count (snd g))) as [e1|];
  [split; [reflexivity | discriminate]|].
destruct (sql_fails w (1 + sql_count (snd g))) as [e2|];
  [split; [reflexivity | intros _; discriminate]|].
cbn [fst snd].
match goal with
| |- context [title_if_missing w chat chatID userID ?st'] =>
    destruct (title_if_missing_frame w chat chatID userID st') as [G M]
end.
rewrite G, M. split; [reflexivity|].
intros _ _. split; reflexivity.
Qed.

(** What [GenerateResponse] leaves in the state, and what it returns:
    one statement, the embedding calls of the retrieval, and the
    generation call that carries the prompt. *)
Lemma GenerateResponse_effect (w : World) (sorter : sort.Sorter)
  (s : RAGService) (chatID : string) (userID : Z) (userQuery : string)
  (st : State) :
  exists (calls : list GatewayCall) (relevantContext : string),
    let turn := user_turn relevantContext userQuery in
    let prompt := (map to_content (history_of w chatID st) ++ [turn])%list in
    let n := (List.length (gateway_calls st) + List.length calls)%nat in
    Forall is_embed calls
    /\ snd (GenerateResponse w s chatID userID userQuery st)
       = set_gateway_calls
           (gateway_calls st ++ calls
              ++ [CallSendMessage prompt (genai.Parts turn)])
           (set_sql_count (S (sql_count st)) st)
    /\ fst (GenerateResponse w s chatID userID userQuery st)
       = match completion_answer
                 (SendMessage w n prompt (genai.Parts turn)) with
         | (_, Some e) => ("", Some (Wrapf "failed to get LLM completion" e))
         | (modelResponse, None) => (modelResponse, None)
         end.
Proof.
rewrite GenerateResponse_run. cbv zeta.
destruct (GetRelevantContext_state w sorter s userQuery
            (set_sql_count (S (sql_count st)) st)) as (calls & E & Emb).
destruct (GetRelevantContext w s userQuery
            (set_sql_count (S (sql_count st)) st)) as [[ctx err] st2].
cbn [fst snd] in *. subst st2.
exists calls, (match err with Some _ => "" | None => ctx end).
split; [exact Emb|]. cbn [gateway_calls set_gateway_calls set_sql_count].
rewrite length_app. split; [|reflexivity].
unfold set_gateway_calls, set_sql_count. cbn. now rewrite <- app_assoc.
Qed.

Lemma prompts_app (a b : list GatewayCall) :
  prompts (a ++ b) = (prompts a ++ prompts b)%list.
Proof. apply flat_map_app. Qed.

Lemma prompts_embed (calls : list GatewayCall) :
  Forall is_embed calls -> prompts calls = [].
Proof.
induction 1 as [|call calls [text ->] _ IH]; [reflexivity | exact IH].
Qed.

(** "At most the 5 most recent prior messages of the chat, ordered
    chronologically ascending", of the messages stored before the
    turn. *)
Definition prior_history (chatID : string) (st : State) : list Message.t :=
  let ascending :=
    order_by store.older_first
      (filter (store.of_chat chatID) (messages st)) in
  skipn (List.length ascending - 5) ascending.

(** The chat "does not exist or is not owned by the calling user". *)
Definition not_owned (st : State) (chatID : string) (userID : Z) : Prop :=
  forall c, In c (chats st) -> Chat.ID c = chatID -> Chat.UserID c <> userID.

Lemma not_owned_find (st : State) (chatID : string) (userID : Z) :
  not_owned st chatID userID ->
  find (store.chat_row chatID userID) (chats st) = None.
Proof.
  unfold not_owned. induction (chats st) as [|c l IH]; intros H;
    [reflexivity|].
  cbn [find]. unfold store.chat_row at 1.
  destruct (String.eqb_spec (Chat.ID c) chatID) as [E|E].
  - destruct (Z.eqb_spec (Chat.UserID c) userID) as [U|U].
    + exfalso. now apply (H c (or_introl eq_refl) E).
    + cbn. apply IH. intros c' Hc'. apply H. now right.
  - cbn. apply IH. intros c' Hc'. apply H. now right.
Qed.

(** C5. For a chat id that does not exist or is not owned by the
    calling user, [PostMessage] writes nothing to the database (and
    neither calls the gateway nor starts a goroutine), and, the
    lookup statement being executed by the driver, fails with the
    error "chat not found". *)
Theorem PostMessage_not_found (w : World) (sorter : sort.Sorter)
  (s : RAGService) (chatID : string) (userID : Z) (userContent : string)
  (st : State) :
  not_owned st chatID userID ->
  let r := PostMessage w s chatID userID userContent st in
  tables (snd r) = tables st
  /\ gateway_calls (snd r) = gateway_calls st
  /\ goroutines (snd r) = goroutines st
  /\ (sql_fails w (sql_count st) = None ->
      fst r = (None, Some ErrChatNotFound)).
Proof.
  intros H. apply not_owned_find in H.
  unfold PostMessage, store.GetChatByID, bind, sql, gets, pure.
  destruct (sql_fails w (sql_count st)) as [e|]; cbn.
  - repeat split. discriminate.
  - rewrite H. cbn. repeat split.
Qed.

Definition somebody_else : State :=
  set_chats [{| Chat.ID := "c1"; Chat.UserID := 8; Chat.Title := None;
                Chat.CreatedAt := 0 |}] Examples.empty.

Lemma PostMessage_not_found_witness :
  let r := PostMessage Examples.offline
             (sorter := sortFacts.insertion_sorter)
             {| dataChunks := [] |} "c1" 7 "hello" somebody_else in
  tables (snd r) = tables somebody_else
  /\ gateway_calls (snd r) = gateway_calls somebody_else
  /\ goroutines (snd r) = goroutines somebody_else
  /\ (sql_fails Examples.offline (sql_count somebody_else) = None ->
      fst r = (None, Some ErrChatNotFound)).
Proof.
  apply (@PostMessage_not_found Examples.offline
           sortFacts.insertion_sorter {| dataChunks := [] |}
           "c1" 7%Z "hello" somebody_else).
  intros c [<-|[]] _. cbn. discriminate.
Defined.

(** C10. [CreateChat] with an absent or empty first message stores no
    message, calls no gateway and starts no goroutine; and, the two
    statements of the chat insert being executed by the driver, it
    succeeds, returning the chat it has added to the table, of the
    calling user and without a title, and an empty message list. *)
Theorem CreateChat_without_first_message (w : World)
  (sorter : sort.Sorter) (s : RAGService) (userID : Z)
  (firstMessageContent : option string) (st : State) :
  firstMessageContent = None \/ firstMessageContent = Some "" ->
  let r := CreateChat w s userID firstMessageContent st in
  messages (snd r) = messages st
  /\ gateway_calls (snd r) = gateway_calls st
  /\ goroutines (snd r) = goroutines st
  /\ (sql_fails w (sql_count st) = None ->
      sql_fails w (S (sql_count st)) = None ->
      exists chat : Chat.t,
        fst r = (Some chat, [], None)
        /\ Chat.Title chat = None
        /\ Chat.UserID chat = userID
        /\ chats (snd r) = (chats st ++ [chat])%list).
Proof.
  intros H.
  unfold CreateChat, store.CreateChat, bind, sql, uuid_NewString,
    time_Now, modify, pure.
  cbn.
  destruct (sql_fails w (sql_count st)) as [e|]; cbn.
  - repeat split. discriminate.
  - destruct (sql_fails w (S (sql_count st))) as [e|]; cbn.
    + repeat split. discriminate.
    + destruct H as [-> | ->]; cbn; repeat split;
        intros _ _; eexists; repeat split.
Qed.

Lemma CreateChat_without_first_message_witness :
  let r := CreateChat Examples.offline
             (sorter := sortFacts.insertion_sorter)
             {| dataChunks := [] |} 7 (Some "") Examples.empty in
  messages (snd r) = []
  /\ gateway_calls (snd r) = []
  /\ goroutines (snd r) = []
  /\ exists chat : Chat.t,
       fst r = (Some chat, [], None)
       /\ Chat.Title chat = None
       /\ Chat.UserID chat = 7%Z
       /\ chats (snd r) = [chat].
Proof.
  destruct (@CreateChat_without_first_message Examples.offline
              sortFacts.insertion_sorter {| dataChunks := [] |} 7%Z
              (Some "") Examples.empty
              (or_intror eq_refl)) as (M & G & R & C).
  split; [exact M|]. split; [exact G|]. split; [exact R|].
  apply C; reflexivity.
Defined.

(** A chat of user 7 with two messages, at a time when the clock has
    been read thirty times. *)
Definition hi : Message.t :=
  {| Message.ID := "m1"; Message.ChatID := "c1"; Message.Sender := "user";
     Message.Content := "Hi"; Message.Timestamp := 10;
     Message.NegativeFeedback := false |}.

Definition hello : Message.t :=
  {| Message.ID := "m2"; Message.ChatID := "c1"; Message.Sender := "model";
     Message.Content := "Hello"; Message.Timestamp := 20;
     Message.NegativeFeedback := false |}.

Definition talk : State :=
  {| chats := [{| Chat.ID := "c1"; Chat.UserID := 7;
                  Chat.Title := Some "Greetings"; Chat.CreatedAt := 5 |}];
     messages := [hi; hello]; data_chunks := []; chunk_seq := 0;
     sql_count := 0; gateway_calls := []; uuid_count := 2;
     clock_count := 30; goroutines := [] |}.

(** C3, as stated, fails: the inbound message is stored before the
    history is read, so that it is part of the history, and the
    history goes from the newest message to the oldest. *)
Lemma history_newest_first_with_inbound :
  let st' := snd (PostMessage Examples.offline
                    (sorter := sortFacts.insertion_sorter)
                    {| dataChunks := [] |} "c1" 7 "And you?" talk) in
  let asked := inbound Examples.offline talk "c1" "And you?" in
  prompts (gateway_calls st')
  = [(map to_content [asked; hello; hi] ++ [user_turn "" "And you?"])%list]
  /\ prior_history "c1" talk = [hi; hello]
  /\ [asked; hello; hi] <> prior_history "c1" talk.
Proof.
cbv zeta. split; [vm_compute; reflexivity|].
split; [vm_compute; reflexivity|].
vm_compute. discriminate.
Qed.

(** C3 (amended). In a turn of [PostMessage] that reaches generation,
    the prompt sent to the gateway is a history followed by the final
    user turn. The history is taken from the messages of the chat as
    they are stored once the inbound message is recorded, the inbound
    message among them: it holds at most 5 of them, the most recent
    ones (no message of the chat that it leaves out is newer than one
    it holds), each once, ordered from the newest to the oldest; it is
    empty when the history query fails, and holds as many messages as
    the chat has, up to 5, when the query is executed. It begins with
    the inbound message whenever the clock stamps that message later
    than the messages the chat had before. *)
Theorem PostMessage_history (w : World) (sorter : sort.Sorter)
  (s : RAGService) (chatID : string) (userID : Z) (userContent : string)
  (st : State) :
  reaches_generation w st chatID userID ->
  let st' := snd (PostMessage w s chatID userID userContent st) in
  let asked := inbound w st chatID userContent in
  let rows := (messages st ++ [asked])%list in
  let stored := filter (store.of_chat chatID) rows in
  exists (history : list Message.t) (relevantContext : string),
    prompts (gateway_calls st')
    = (prompts (gateway_calls st)
         ++ [map to_content history
               ++ [user_turn relevantContext userContent]])%list
    /\ (List.length history <= 5)%nat
    /\ (forall m, In m history -> In m rows /\ Message.ChatID m = chatID)
    /\ (forall m m', In m history -> In m' rows ->
                     Message.ChatID m' = chatID -> ~ In m' history ->
                     (Message.Timestamp m' <= Message.Timestamp m)%Z)
    /\ StronglySorted
         (fun a b => (Message.Timestamp b <= Message.Timestamp a)%Z) history
    /\ In asked stored
    /\ (sql_fails w (3 + sql_count st) <> None -> history = [])
    /\ (sql_fails w (3 + sql_count st) = None ->
        List.length history = Nat.min 5 (List.length stored)
        /\ (exists older,
              Permutation (history ++ older) stored
              /\ forall m m', In m history -> In m' older ->
                              (Message.Timestamp m' <= Message.Timestamp m)%Z)
        /\ ((forall m', In m' (messages st) -> Message.ChatID m' = chatID ->
                        (Message.Timestamp m' < Now w (clock_count st))%Z) ->
            exists rest, history = asked :: rest)).
Proof.
intros R. cbv zeta.
destruct (PostMessage_turn sorter s userContent R) as [G _].
cbv zeta in G. rewrite G. clear G.
destruct (GenerateResponse_effect w sorter s chatID userID userContent
            (accepted w st chatID userContent))
  as (calls & ctx & Emb & E & _).
cbv zeta in E. rewrite E. clear E.
exists (history_of w chatID (accepted w st chatID userContent)), ctx.
cbn [gateway_calls set_gateway_calls set_sql_count accepted set_messages
     set_clock_count set_uuid_count].
rewrite !prompts_app, (prompts_embed Emb). cbn [app prompts flat_map].
split; [reflexivity|].
assert (I : In (inbound w st chatID userContent)
              (filter (store.of_chat chatID)
                 (messages st ++ [inbound w st chatID userContent]))).
{ apply filter_In. split; [apply in_or_app; right; now left|].
  apply String.eqb_refl. }
assert (Srt := history_of_newest_first w chatID
                 (accepted w st chatID userContent)).
revert Srt. unfold history_of.
cbn [sql_count messages accepted set_messages set_sql_count
     set_clock_count set_uuid_count].
destruct (sql_fails w (3 + sql_count st)) as [e|]; intros Srt.
- split; [cbn; lia|]. split; [intros m []|].
  split; [intros m m' []|]. split; [exact Srt|]. split; [exact I|].
  split; [reflexivity | discriminate].
- split; [apply storeFacts.last5_length|].
  split; [apply storeFacts.last5_rows|].
  split; [intros m m'; apply storeFacts.last5_most_recent|].
  split; [exact Srt|]. split; [exact I|].
  split; [intros N; now elim N|].
  intros _. split; [apply storeFacts.last5_count|].
  split; [apply storeFacts.last5_split|].
  intros Newer.
  exact (@storeFacts.last5_newest chatID (messages st)
           (inbound w st chatID userContent) eq_refl Newer).
Qed.

Lemma PostMessage_history_witness :
  exists (history : list Message.t) (relevantContext : string),
    prompts (gateway_calls
               (snd (PostMessage Examples.offline
                       (sorter := sortFacts.insertion_sorter)
                       {| dataChunks := [] |} "c1" 7 "And you?" talk)))
    = [(map to_content history
          ++ [user_turn relevantContext "And you?"])%list]
    /\ (List.length history <= 5)%nat
    /\ List.length history = 3%nat
    /\ exists rest,
         history = inbound Examples.offline talk "c1" "And you?" :: rest.
Proof.
destruct (@PostMessage_history Examples.offline sortFacts.insertion_sorter
            {| dataChunks := [] |} "c1" 7%Z "And you?" talk)
  as (history & ctx & P & L & _ & _ & _ & _ & _ & I).
- split; [eexists; reflexivity|]. repeat split; reflexivity.
- destruct I as (N & _ & H); [reflexivity|].
  exists history, ctx. split; [exact P|]. split; [exact L|].
  split; [exact N|].
  apply H. intros m' [<-|[<-|[]]] _; cbn; lia.
Defined.

(** A response without candidates, and one whose only part is not
    text. *)
Definition no_candidates : option genai.GenerateContentResponse :=
  Some {| genai.Candidates := [] |}.

Definition picture_only : option genai.GenerateContentResponse :=
  Some {| genai.Candidates :=
            [{| genai.CandidateContent :=
                  Some {| genai.Role := "model";
                          genai.Parts := [genai.NonText 1] |} |}] |}.

(** C4, as stated, fails: there is not one fallback but three. The
    apology of [PostMessage] stands for a failed gateway call; an
    empty response and a response without text are answered by the two
    sentences of [GetChatCompletion], which [PostMessage] stores as
    they are. *)
Lemma three_fallbacks :
  let post w :=
    PostMessage w (sorter := sortFacts.insertion_sorter)
      {| dataChunks := [] |} "c1" 7 "And you?" talk in
  option_map Message.Content
    (fst (fst (post (Examples.answering (Failed (External 0))))))
  = Some fallbackPostMessage
  /\ option_map Message.Content
       (fst (fst (post (Examples.answering (Returned no_candidates)))))
     = Some fallbackNoCandidates
  /\ option_map Message.Content
       (fst (fst (post (Examples.answering (Returned picture_only)))))
     = Some fallbackNoText
  /\ fallbackNoCandidates <> fallbackPostMessage
  /\ fallbackNoText <> fallbackPostMessage.
Proof.
cbv zeta. repeat split; try (vm_compute; reflexivity);
  vm_compute; discriminate.
Qed.

(** C4 (amended). When the chat is found for the user and the database
    executes every statement, [PostMessage] makes one generation call,
    stores the user message and then a message of sender "model" in
    the chat, and returns the latter. Its content is the apology of
    [PostMessage] when the gateway call fails, the apology of
    [GetChatCompletion] when the response is empty, and its notice of
    an empty or non-text response when the response has parts but no
    text: a canned sentence each time, never the error. *)
Theorem PostMessage_fallback (w : World) (sorter : sort.Sorter)
  (s : RAGService) (chatID : string) (userID : Z) (userContent : string)
  (st : State) :
  (exists chat, find (store.chat_row chatID userID) (chats st) = Some chat) ->
  (forall n, sql_fails w n = None) ->
  let r := PostMessage w s chatID userID userContent st in
  exists (n : nat) (prompt : list genai.Content) (parts : list genai.Part)
         (reply : Message.t),
    nth_error (gateway_calls (snd r)) n = Some (CallSendMessage prompt parts)
    /\ prompts (gateway_calls (snd r))
       = (prompts (gateway_calls st) ++ [prompt])%list
    /\ fst r = (Some reply, None)
    /\ messages (snd r)
       = (messages st ++ [inbound w st chatID userContent; reply])%list
    /\ Message.Sender reply = "model"
    /\ Message.ChatID reply = chatID
    /\ (forall e, SendMessage w n prompt parts = Failed e ->
                  Message.Content reply = fallbackPostMessage)
    /\ (forall resp, SendMessage w n prompt parts = Returned resp ->
                     first_parts resp = [] ->
                     Message.Content reply = fallbackNoCandidates)
    /\ (forall resp, SendMessage w n prompt parts = Returned resp ->
                     first_parts resp <> [] ->
                     text_of (first_parts resp) = "" ->
                     Message.Content reply = fallbackNoText).
Proof.
intros F Healthy. cbv zeta.
assert (R : reaches_generation w st chatID userID)
  by (split; [exact F | repeat split; apply Healthy]).
destruct (PostMessage_turn sorter s userContent R) as [G T].
cbv zeta in G, T. destruct (T (Healthy _) (Healthy _)) as [Fst Msgs].
clear T. rewrite G, Fst, Msgs. clear G Fst Msgs.
destruct (GenerateResponse_effect w sorter s chatID userID userContent
            (accepted w st chatID userContent))
  as (calls & ctx & Emb & E & A).
cbv zeta in E, A. rewrite E, A. clear E A.
cbn [gateway_calls messages set_gateway_calls set_sql_count accepted
     set_messages set_clock_count set_uuid_count].
set (turn := user_turn ctx userContent).
set (prompt := (map to_content
                  (history_of w chatID (accepted w st chatID userContent))
                  ++ [turn])%list).
set (n := (List.length (gateway_calls st) + List.length calls)%nat).
exists n, prompt, (genai.Parts turn). eexists.
split.
{ rewrite app_assoc. rewrite nth_error_app2; rewrite length_app; [|lia].
  subst n. now rewrite Nat.sub_diag. }
split.
{ rewrite !prompts_app, (prompts_embed Emb). reflexivity. }
split; [reflexivity|].
split; [now rewrite <- app_assoc|].
split; [reflexivity|]. split; [reflexivity|].
cbn [Message.Content stamped Message.with_ID_Timestamp new_message].
unfold model_content.
repeat split.
- intros e ->. reflexivity.
- intros resp -> P. unfold completion_answer. now rewrite P.
- intros resp -> P T. unfold completion_answer.
  destruct (first_parts resp) as [|part parts]; [contradiction|].
  now rewrite T.
Qed.

Lemma PostMessage_fallback_witness :
  exists reply : Message.t,
    fst (PostMessage (Examples.answering (Failed (External 0)))
           (sorter := sortFacts.insertion_sorter)
           {| dataChunks := [] |} "c1" 7 "And you?" talk)
    = (Some reply, None)
    /\ Message.Sender reply = "model"
    /\ Message.Content reply = fallbackPostMessage.
Proof.
destruct (@PostMessage_fallback (Examples.answering (Failed (External 0)))
            sortFacts.insertion_sorter {| dataChunks := [] |} "c1" 7%Z
            "And you?" talk)
  as (n & prompt & parts & reply & _ & _ & R & _ & S & _ & E & _).
- eexists. reflexivity.
- reflexivity.
- exists reply. split; [exact R|]. split; [exact S|].
  apply (E (External 0)). reflexivity.
Defined.

End chatFacts.

(* ================================================================= *)
(** ** Ingestion *)

Module ingestFacts.

(** The raw chunks that the parsing loop of [IngestDataFromFile] extracts
    from the text of a file. *)
Definition rows_of (fileContent : string) : list string :=
  store.parse_lines (strings.Split fileContent store.line_feed) 0 [].

(** The rows with the number of the gateway call that embeds each:
    one call per row, in order, after the [n] calls already made. *)
Definition attempts (n : nat) (rows : list string) : list (nat * string) :=
  combine (seq n (List.length rows)) rows.

(** The embedding call for a row succeeds. *)
Definition succeeds (w : World) (a : nat * string) : bool :=
  match snd (ragFacts.embedding_answer w (fst a) (snd a)) with
  | None => true
  | Some _ => false
  end.

(** It succeeds with numbers that JSON can carry, so that the chunk can
    be stored. *)
Definition storable (w : World) (a : nat * string) : bool :=
  (succeeds w a
   && forallb json_finite (fst (ragFacts.embedding_answer w (fst a) (snd a))))%bool.

(** What is stored of a chunk, beside its identifier. *)
Definition text_and_embedding (c : DataChunk.t)
  : string * list float32 := (DataChunk.Content c, DataChunk.Embedding c).

Definition embedded (w : World) (a : nat * string)
  : string * list float32 :=
  (snd a, fst (ragFacts.embedding_answer w (fst a) (snd a))).

Section Healthy.

Variable w : World.
Hypothesis healthy : forall n, sql_fails w n = None.

Lemma createDataChunk_run (chunk : DataChunk.t) (st : State) :
  let r := store.createDataChunk w chunk st in
  gateway_calls (snd r) = gateway_calls st
  /\ if forallb json_finite (DataChunk.Embedding chunk)
     then snd (fst r) = None
          /\ map text_and_embedding (data_chunks (snd r))
             = (map text_and_embedding (data_chunks st)
                  ++ [text_and_embedding chunk])%list
     else snd (fst r) <> None /\ data_chunks (snd r) = data_chunks st.
Proof.
cbv zeta. unfold store.createDataChunk, json_Marshal.
destruct (forallb json_finite (DataChunk.Embedding chunk)).
- unfold bind, sql, gets, modify, pure. rewrite healthy. cbn.
  rewrite healthy. cbn. split; [reflexivity|]. split; [reflexivity|].
  now rewrite map_app.
- cbn. split; [reflexivity|]. split; [discriminate | reflexivity].
Qed.

Definition raw_chunk (row : string) (v : list float32) : DataChunk.t :=
  {| DataChunk.ID := 0; DataChunk.Content := row; DataChunk.Embedding := v;
     DataChunk.EmbeddingJSON := None |}.

(** One turn of the embedding loop. *)
Lemma embed_loop_cons (row : string) (rows : list string) (count : nat)
  (st : State) :
  store.embed_loop w (core.GetEmbedding w) (row :: rows) count st
  = let st1 :=
      set_gateway_calls (gateway_calls st ++ [CallEmbedContent row]) st in
    match ragFacts.embedding_answer w (List.length (gateway_calls st)) row
    with
    | (_, Some _) => store.embed_loop w (core.GetEmbedding w) rows count st1
    | (v, None) =>
        let r := store.createDataChunk w (raw_chunk row v) st1 in
        match snd (fst r) with
        | Some _ =>
            store.embed_loop w (core.GetEmbedding w) rows count (snd r)
        | None =>
            store.embed_loop w (core.GetEmbedding w) rows (S count) (snd r)
        end
    end.
Proof.
cbn [store.embed_loop]. unfold bind at 1.
rewrite ragFacts.GetEmbedding_answer. cbv zeta.
destruct (ragFacts.embedding_answer w (List.length (gateway_calls st)) row)
  as [v [e|]]; [reflexivity|].
unfold bind. fold (raw_chunk row v).
now destruct (store.createDataChunk w (raw_chunk row v) _)
  as [[chunk' [e|]] st2].
Qed.

Lemma embed_loop_run (rows : list string) (count : nat) (st : State) :
  let r := store.embed_loop w (core.GetEmbedding w) rows count st in
  let kept := filter (storable w)
                (attempts (List.length (gateway_calls st)) rows) in
  fst r = (count + List.length kept)%nat
  /\ map text_and_embedding (data_chunks (snd r))
     = (map text_and_embedding (data_chunks st) ++ map (embedded w) kept)%list.
Proof.
cbv zeta. revert count st.
induction rows as [|row rows IH]; intros count st.
- cbn. now rewrite Nat.add_0_r, app_nil_r.
- rewrite embed_loop_cons. cbv zeta.
  unfold attempts. cbn [List.length seq combine filter].
  fold (attempts (S (List.length (gateway_calls st))) rows).
  set (st1 := set_gateway_calls
                (gateway_calls st ++ [CallEmbedContent row]) st).
  assert (L : List.length (gateway_calls st1)
              = S (List.length (gateway_calls st))).
  { subst st1. cbn. rewrite length_app. cbn. lia. }
  assert (Sto : storable w (List.length (gateway_calls st), row)
                = match ragFacts.embedding_answer w
                          (List.length (gateway_calls st)) row with
                  | (v, None) => forallb json_finite v
                  | (_, Some _) => false
                  end).
  { unfold storable, succeeds. cbn [fst snd].
    now destruct (ragFacts.embedding_answer w
                    (List.length (gateway_calls st)) row) as [v [e|]]. }
  rewrite Sto. clear Sto.
  destruct (ragFacts.embedding_answer w (List.length (gateway_calls st)) row)
    as [v [e|]] eqn:A.
  + specialize (IH count st1). rewrite L in IH. exact IH.
  + destruct (createDataChunk_run (raw_chunk row v) st1) as [G C].
    cbv zeta in G, C.
    destruct (store.createDataChunk w (raw_chunk row v) st1)
      as [[chunk' err] st2].
    cbn [fst snd] in *. cbn [DataChunk.Embedding raw_chunk] in C.
    assert (L2 : List.length (gateway_calls st2)
                 = S (List.length (gateway_calls st))) by congruence.
    destruct (forallb json_finite v).
    * destruct C as [-> C].
      specialize (IH (S count) st2). rewrite L2 in IH.
      destruct IH as [IH1 IH2]. split.
      -- rewrite IH1. cbn [List.length]. lia.
      -- rewrite IH2, C. cbn [map]. rewrite <- app_assoc.
         unfold embedded at 2. cbn [fst snd]. rewrite A. reflexivity.
    * destruct C as [N C]. destruct err as [e|]; [|contradiction].
      specialize (IH count st2). rewrite L2, C in IH. exact IH.
Qed.

Lemma ClearDataChunks_run (st : State) :
  store.ClearDataChunks w st
  = (None,
     set_sql_count (2 + sql_count st) (set_data_chunks [] 0 st)).
Proof.
unfold store.ClearDataChunks, bind, sql, modify, pure. rewrite healthy.
cbn. rewrite healthy. reflexivity.
Qed.

Lemma IngestDataFromFile_eq (filePath fileContent : string) (st : State) :
  ReadFile w filePath = Returned fileContent ->
  store.IngestDataFromFile w filePath (core.GetEmbedding w) st
  = match rows_of fileContent with
    | [] => ((0%nat, None), st)
    | rows =>
        let r :=
          store.embed_loop w (core.GetEmbedding w) rows 0
            (set_sql_count (2 + sql_count st) (set_data_chunks [] 0 st)) in
        ((fst r, None), snd r)
    end.
Proof.
intros F.
unfold store.IngestDataFromFile, os_ReadFile. unfold bind at 1, pure at 1.
rewrite F. fold (rows_of fileContent).
destruct (rows_of fileContent) as [|row rows]; [reflexivity|].
cbn [List.length Nat.eqb]. unfold bind at 1.
rewrite ClearDataChunks_run. unfold bind, pure. cbv zeta.
now destruct (store.embed_loop w (core.GetEmbedding w) (row :: rows) 0 _).
Qed.


End Healthy.




(** A document of three rows under a header, and a world in which it
    is the file, the database works and the second call to the
    embedding gateway fails. *)
Definition three_rows : string :=
  "| text |" ++ String "010" ""
  ++ "|------|" ++ String "010" ""
  ++ "| Paris is the capital of France |" ++ String "010" ""
  ++ "| The sky is blue |" ++ String "010" ""
  ++ "| Water is wet |" ++ String "010" "".

Definition second_call_fails : World :=
  {| sql_fails := fun _ => None;
     EmbedContent := fun n _ =>
       if (n =? 1)%nat then Failed (External 429)
       else Returned {| genai.Embedding :=
                          Some {| genai.Values := Examples.along_x |} |};
     SendMessage := SendMessage Examples.offline;
     GenerateContent := GenerateContent Examples.offline;
     ReadFile := fun _ => Returned three_rows;
     NewString := NewString Examples.offline;
     Now := Now Examples.offline |}.

End ingestFacts.

(* ================================================================= *)
(** ** The chats and messages of the store *)

Module chatStoreFacts.

Lemma CreateChat_run (w : World) (userID : Z) (title : option string)
  (st : State) :
  sql_fails w (sql_count st) = None ->
  sql_fails w (1 + sql_count st) = None ->
  let chat := {| Chat.ID := NewString w (uuid_count st);
                 Chat.UserID := userID; Chat.Title := title;
                 Chat.CreatedAt := Now w (clock_count st) |} in
  store.CreateChat w userID title st
  = ((Some chat, None),
     set_chats (chats st ++ [chat]) (chatFacts.ticked 2 st)).
Proof.
intros S0 S1. cbv zeta.
unfold store.CreateChat, bind, uuid_NewString, time_Now, sql, modify, pure.
cbn. rewrite S0. cbn. change (S (sql_count st)) with (1 + sql_count st)%nat.
rewrite S1. reflexivity.
Qed.

Lemma find_app (A : Type) (f : A -> bool) (l l' : list A) :
  find f (l ++ l')
  = match find f l with
    | Some x => Some x
    | None => find f l'
    end.
Proof.
induction l as [|x l IH]; cbn; [reflexivity|]. now destruct (f x).
Qed.

Lemma find_none_id (st : State) (id : string) (userID : Z) :
  (forall c, In c (chats st) -> Chat.ID c <> id) ->
  find (store.chat_row id userID) (chats st) = None.
Proof.
intros Fresh. apply chatFacts.not_owned_find.
intros c Hc E. now apply Fresh in Hc.
Qed.

(** X1. A chat that [CreateChat] stores under an identifier that no chat
    has yet is read back by [GetChatByID] for its owner, as it was
    created (a nil title stays nil), and is not found for any other
    user; the three statements are executed by the driver. *)
Theorem CreateChat_then_GetChatByID (w : World) (userID : Z)
  (title : option string) (st : State) :
  sql_fails w (sql_count st) = None ->
  sql_fails w (1 + sql_count st) = None ->
  sql_fails w (2 + sql_count st) = None ->
  (forall c, In c (chats st) -> Chat.ID c <> NewString w (uuid_count st)) ->
  let r := store.CreateChat w userID title st in
  let chat := {| Chat.ID := NewString w (uuid_count st);
                 Chat.UserID := userID; Chat.Title := title;
                 Chat.CreatedAt := Now w (clock_count st) |} in
  fst r = (Some chat, None)
  /\ fst (store.GetChatByID w (Chat.ID chat) userID (snd r))
     = (Some chat, None)
  /\ (forall other, other <> userID ->
      fst (store.GetChatByID w (Chat.ID chat) other (snd r)) = (None, None)).
Proof.
intros S0 S1 S2 Fresh. cbv zeta. rewrite CreateChat_run by assumption.
cbn [fst snd Chat.ID]. split; [reflexivity|].
split; [|intros other Other]; rewrite chatFacts.GetChatByID_run;
  cbn [fst sql_count set_chats chatFacts.ticked set_sql_count
       set_clock_count set_uuid_count chats];
  rewrite S2, find_app, (find_none_id _ _ Fresh); cbn [find];
  unfold store.chat_row; cbn [Chat.ID Chat.UserID];
  rewrite String.eqb_refl; cbn [andb].
- now rewrite Z.eqb_refl.
- destruct (Z.eqb_spec userID other) as [E|E]; [|reflexivity].
  now elim Other.
Qed.

Lemma CreateChat_then_GetChatByID_witness :
  let r := store.CreateChat Examples.offline 7 None Examples.empty in
  exists chat,
    fst r = (Some chat, None)
    /\ fst (store.GetChatByID Examples.offline (Chat.ID chat) 7 (snd r))
       = (Some chat, None)
    /\ fst (store.GetChatByID Examples.offline (Chat.ID chat) 8 (snd r))
       = (None, None).
Proof.
destruct (@CreateChat_then_GetChatByID Examples.offline 7 None
            Examples.empty) as (A & B & C);
  [reflexivity | reflexivity | reflexivity | intros c [] |].
cbv zeta. eexists. split; [exact A|]. split; [exact B|].
apply C. lia.
Defined.

(** *** Listing the chats of a user *)

Lemma newest_first_total (a b : Chat.t) :
  store.newest_first a b = true \/ store.newest_first b a = true.
Proof. unfold store.newest_first. lia. Qed.

Lemma newest_first_trans (a b c : Chat.t) :
  store.newest_first a b = true -> store.newest_first b c = true ->
  store.newest_first a c = true.
Proof. unfold store.newest_first. lia. Qed.

Lemma GetChatsByUserID_run (w : World) (userID : Z) (st : State) :
  store.GetChatsByUserID w userID st
  = (match sql_fails w (sql_count st) with
     | Some e => ([], Some (Wrapf "failed to query chats" e))
     | None =>
         (order_by store.newest_first
            (filter (store.of_user userID) (chats st)), None)
     end,
     set_sql_count (S (sql_count st)) st).
Proof.
unfold store.GetChatsByUserID, bind, sql, gets, pure.
now destruct (sql_fails w (sql_count st)).
Qed.

(** X2. [GetChatsByUserID] changes no table. When the query fails it
    returns the wrapped error and no chat; otherwise it returns the
    chats of the user, each once, and no chat of another user, from
    the newest to the oldest. *)
Theorem GetChatsByUserID_newest_first (w : World) (userID : Z) (st : State) :
  let r := store.GetChatsByUserID w userID st in
  tables (snd r) = tables st
  /\ match sql_fails w (sql_count st) with
     | Some e => fst r = ([], Some (Wrapf "failed to query chats" e))
     | None =>
         snd (fst r) = None
         /\ Permutation (filter (store.of_user userID) (chats st))
              (fst (fst r))
         /\ (forall c, In c (fst (fst r))
                       <-> In c (chats st) /\ Chat.UserID c = userID)
         /\ StronglySorted
              (fun a b => (Chat.CreatedAt b <= Chat.CreatedAt a)%Z)
              (fst (fst r))
     end.
Proof.
cbv zeta. rewrite GetChatsByUserID_run. cbn [fst snd].
split; [reflexivity|].
destruct (sql_fails w (sql_count st)) as [e|]; [reflexivity|].
cbn [fst snd].
set (mine := filter (store.of_user userID) (chats st)).
assert (P : Permutation mine (order_by store.newest_first mine))
  by apply storeFacts.order_by_Permutation.
split; [reflexivity|]. split; [exact P|]. split.
- intros c. split.
  + intros H. apply (Permutation_in c (Permutation_sym P)) in H.
    apply filter_In in H. destruct H as [H E]. split; [exact H|].
    unfold store.of_user in E. lia.
  + intros [H E]. apply (Permutation_in c P). apply filter_In.
    split; [exact H|]. unfold store.of_user. lia.
- assert (S : storeFacts.ordered store.newest_first
                (order_by store.newest_first mine)).
  { apply storeFacts.order_by_ordered; [exact newest_first_total|].
    exact newest_first_trans. }
  revert S. generalize (order_by store.newest_first mine).
  intros l S. unfold storeFacts.ordered in S.
  induction S as [|x l S IH Hall]; constructor; [exact IH|].
  apply Forall_forall. intros y Hy.
  apply (proj1 (Forall_forall _ _) Hall) in Hy.
  unfold store.newest_first in Hy. lia.
Qed.

Lemma GetChatsByUserID_newest_first_witness :
  fst (store.GetChatsByUserID Examples.offline 8
         (set_chats
            [{| Chat.ID := "c1"; Chat.UserID := 8; Chat.Title := None;
                Chat.CreatedAt := 1 |};
             {| Chat.ID := "c2"; Chat.UserID := 7; Chat.Title := None;
                Chat.CreatedAt := 2 |};
             {| Chat.ID := "c3"; Chat.UserID := 8; Chat.Title := None;
                Chat.CreatedAt := 3 |}] Examples.empty))
  = ([{| Chat.ID := "c3"; Chat.UserID := 8; Chat.Title := None;
         Chat.CreatedAt := 3 |};
      {| Chat.ID := "c1"; Chat.UserID := 8; Chat.Title := None;
         Chat.CreatedAt := 1 |}], None).
Proof.
destruct (@GetChatsByUserID_newest_first Examples.offline 8
            (set_chats
               [{| Chat.ID := "c1"; Chat.UserID := 8; Chat.Title := None;
                   Chat.CreatedAt := 1 |};
                {| Chat.ID := "c2"; Chat.UserID := 7; Chat.Title := None;
                   Chat.CreatedAt := 2 |};
                {| Chat.ID := "c3"; Chat.UserID := 8; Chat.Title := None;
                   Chat.CreatedAt := 3 |}] Examples.empty))
  as (_ & E & _).
rewrite (surjective_pairing (fst (store.GetChatsByUserID _ _ _))), E.
reflexivity.
Defined.

(** *** Updating the title of a chat *)

Definition NoSuchChat : error :=
  Errorf "chat not found or not owned by user, title not updated".

Lemma UpdateChatTitle_run (w : World) (chatID : string) (userID : Z)
  (title : string) (st : State) :
  store.UpdateChatTitle w chatID userID title st
  = match sql_fails w (sql_count st) with
    | Some e =>
        (Some (Wrapf "failed to prepare chat title update" e),
         set_sql_count (1 + sql_count st) st)
    | None =>
        match sql_fails w (1 + sql_count st) with
        | Some e =>
            (Some (Wrapf "failed to execute chat title update" e),
             set_sql_count (2 + sql_count st) st)
        | None =>
            (if (List.length
                   (filter (store.chat_row chatID userID) (chats st)) =? 0)%nat
             then Some NoSuchChat else None,
             set_chats
               (map (store.with_Title chatID userID title) (chats st))
               (set_sql_count (2 + sql_count st) st))
        end
    end.
Proof.
unfold store.UpdateChatTitle, bind, sql, gets, modify, pure.
destruct (sql_fails w (sql_count st)); [reflexivity|].
cbn [sql_count set_sql_count].
change (S (sql_count st)) with (1 + sql_count st)%nat.
destruct (sql_fails w (1 + sql_count st)); [reflexivity|].
cbn [chats set_sql_count].
now destruct (List.length _ =? 0)%nat.
Qed.

Lemma find_none_filter (A : Type) (f : A -> bool) (l : list A) :
  find f l = None -> filter f l = [].
Proof.
induction l as [|x l IH]; cbn; [reflexivity|].
destruct (f x); [discriminate | exact IH].
Qed.

Lemma find_some_filter (A : Type) (f : A -> bool) (l : list A) (x : A) :
  find f l = Some x -> (List.length (filter f l) =? 0)%nat = false.
Proof.
induction l as [|y l IH]; cbn; [discriminate|].
destruct (f y); [reflexivity | exact IH].
Qed.

Lemma map_unselected (A : Type) (f : A -> bool) (g : A -> A) (l : list A) :
  (forall x, f x = false -> g x = x) ->
  filter f l = [] -> map g l = l.
Proof.
intros G. induction l as [|x l IH]; cbn; [reflexivity|].
destruct (f x) eqn:E; [discriminate|]. intros H.
now rewrite (G x E), IH.
Qed.

Lemma with_Title_other (chatID : string) (userID : Z) (title : string)
  (c : Chat.t) :
  store.chat_row chatID userID c = false ->
  store.with_Title chatID userID title c = c.
Proof. unfold store.with_Title. now intros ->. Qed.

Lemma with_Title_row (chatID : string) (userID : Z) (title : string)
  (c : Chat.t) :
  store.chat_row chatID userID (store.with_Title chatID userID title c)
  = store.chat_row chatID userID c.
Proof.
unfold store.with_Title.
destruct (store.chat_row chatID userID c) eqn:E; [|exact E].
exact E.
Qed.

(** X3. For a chat that does not exist or belongs to another user,
    [UpdateChatTitle] changes no table and fails; when the driver
    executes the two statements, the error is "chat not found or not
    owned by user, title not updated". *)
Theorem UpdateChatTitle_not_owned (w : World) (chatID : string)
  (userID : Z) (title : string) (st : State) :
  chatFacts.not_owned st chatID userID ->
  let r := store.UpdateChatTitle w chatID userID title st in
  tables (snd r) = tables st
  /\ fst r <> None
  /\ (sql_fails w (sql_count st) = None ->
      sql_fails w (1 + sql_count st) = None ->
      fst r = Some NoSuchChat).
Proof.
intros N. cbv zeta. apply chatFacts.not_owned_find in N.
apply find_none_filter in N.
rewrite UpdateChatTitle_run.
destruct (sql_fails w (sql_count st)) as [e|];
  [split; [reflexivity|]; split; [discriminate | discriminate]|].
destruct (sql_fails w (1 + sql_count st)) as [e|];
  [split; [reflexivity|]; split; [discriminate | intros _; discriminate]|].
rewrite N. cbn [List.length Nat.eqb fst snd].
rewrite (map_unselected _ _ (chats st)
           (with_Title_other chatID userID title) N).
split; [reflexivity|]. split; [discriminate | reflexivity].
Qed.

(** A chat of user 8, without a title, and two messages in it. *)
Definition hers : Chat.t :=
  {| Chat.ID := "c1"; Chat.UserID := 8; Chat.Title := None;
     Chat.CreatedAt := 0 |}.

Definition question : Message.t :=
  {| Message.ID := "m1"; Message.ChatID := "c1"; Message.Sender := "user";
     Message.Content := "How many?"; Message.Timestamp := 1;
     Message.NegativeFeedback := false |}.

Definition answer : Message.t :=
  {| Message.ID := "m2"; Message.ChatID := "c1"; Message.Sender := "model";
     Message.Content := "Forty-two."; Message.Timestamp := 2;
     Message.NegativeFeedback := false |}.

Definition her_chat : State :=
  set_messages [question; answer] (set_chats [hers] Examples.empty).

Lemma UpdateChatTitle_not_owned_witness :
  let r := store.UpdateChatTitle Examples.offline "c1" 7 "Mine" her_chat in
  tables (snd r) = tables her_chat /\ fst r = Some NoSuchChat.
Proof.
destruct (@UpdateChatTitle_not_owned Examples.offline "c1" 7 "Mine"
            her_chat) as (A & _ & C).
- intros c [<-|[]] _. cbn. lia.
- cbv zeta. split; [exact A|]. apply C; reflexivity.
Defined.

Definition unselected (chatID : string) (userID : Z) (l : list Chat.t)
  : list Chat.t :=
  filter (fun c => negb (store.chat_row chatID userID c)) l.

Lemma unselected_with_Title (chatID : string) (userID : Z) (title : string)
  (l : list Chat.t) :
  unselected chatID userID (map (store.with_Title chatID userID title) l)
  = unselected chatID userID l.
Proof.
unfold unselected. induction l as [|c l IH]; cbn [map filter];
  [reflexivity|].
rewrite with_Title_row.
destruct (store.chat_row chatID userID c) eqn:E; cbn [negb];
  [exact IH|].
now rewrite (with_Title_other _ _ _ _ E), IH.
Qed.

Lemma find_with_Title (chatID : string) (userID : Z) (title : string)
  (l : list Chat.t) :
  find (store.chat_row chatID userID)
    (map (store.with_Title chatID userID title) l)
  = option_map (store.with_Title chatID userID title)
      (find (store.chat_row chatID userID) l).
Proof.
induction l as [|c l IH]; cbn [map find option_map]; [reflexivity|].
rewrite with_Title_row.
now destruct (store.chat_row chatID userID c).
Qed.

Lemma UpdateChatTitle_found (w : World) (chatID : string) (userID : Z)
  (title : string) (st : State) (chat : Chat.t) :
  find (store.chat_row chatID userID) (chats st) = Some chat ->
  sql_fails w (sql_count st) = None ->
  sql_fails w (1 + sql_count st) = None ->
  store.UpdateChatTitle w chatID userID title st
  = (None,
     set_chats (map (store.with_Title chatID userID title) (chats st))
       (set_sql_count (2 + sql_count st) st)).
Proof.
intros F S0 S1. rewrite UpdateChatTitle_run, S0, S1.
now rewrite (find_some_filter _ _ F).
Qed.

Lemma GetChatByID_with_Title (w : World) (chatID : string) (userID : Z)
  (title : string) (st : State) (chat : Chat.t) :
  find (store.chat_row chatID userID) (chats st) = Some chat ->
  sql_fails w (2 + sql_count st) = None ->
  fst (store.GetChatByID w chatID userID
         (set_chats (map (store.with_Title chatID userID title) (chats st))
            (set_sql_count (2 + sql_count st) st)))
  = (Some {| Chat.ID := Chat.ID chat; Chat.UserID := Chat.UserID chat;
             Chat.Title := Some title;
             Chat.CreatedAt := Chat.CreatedAt chat |}, None).
Proof.
intros F S2. rewrite chatFacts.GetChatByID_run.
cbn [fst sql_count set_chats set_sql_count chats]. rewrite S2.
rewrite find_with_Title, F. cbn [option_map]. unfold store.with_Title.
apply find_some in F. destruct F as [_ F]. now rewrite F.
Qed.

(** X4. For a chat of the user, the statements being executed,
    [UpdateChatTitle] succeeds and [GetChatByID] then returns the chat
    with the new title, whatever title it had; the other chats, the
    messages and the chunks are as before. *)
Theorem UpdateChatTitle_then_GetChatByID (w : World) (chatID : string)
  (userID : Z) (title : string) (st : State) (chat : Chat.t) :
  find (store.chat_row chatID userID) (chats st) = Some chat ->
  sql_fails w (sql_count st) = None ->
  sql_fails w (1 + sql_count st) = None ->
  sql_fails w (2 + sql_count st) = None ->
  let r := store.UpdateChatTitle w chatID userID title st in
  fst r = None
  /\ fst (store.GetChatByID w chatID userID (snd r))
     = (Some {| Chat.ID := Chat.ID chat; Chat.UserID := Chat.UserID chat;
                Chat.Title := Some title;
                Chat.CreatedAt := Chat.CreatedAt chat |}, None)
  /\ unselected chatID userID (chats (snd r))
     = unselected chatID userID (chats st)
  /\ List.length (chats (snd r)) = List.length (chats st)
  /\ messages (snd r) = messages st
  /\ data_chunks (snd r) = data_chunks st.
Proof.
intros F S0 S1 S2. cbv zeta.
rewrite (@UpdateChatTitle_found w chatID userID title st chat F S0 S1).
cbn [fst snd].
split; [reflexivity|].
split; [exact (@GetChatByID_with_Title w chatID userID title st chat F S2)|].
cbn [chats set_chats]. split; [apply unselected_with_Title|].
split; [apply length_map|]. split; reflexivity.
Qed.

Lemma UpdateChatTitle_then_GetChatByID_witness :
  let r := store.UpdateChatTitle Examples.offline "c1" 8 "Counting"
             her_chat in
  fst r = None
  /\ fst (store.GetChatByID Examples.offline "c1" 8 (snd r))
     = (Some {| Chat.ID := "c1"; Chat.UserID := 8;
                Chat.Title := Some "Counting"; Chat.CreatedAt := 0 |}, None).
Proof.
destruct (@UpdateChatTitle_then_GetChatByID Examples.offline "c1" 8
            "Counting" her_chat hers) as (A & B & _);
  [reflexivity | reflexivity | reflexivity | reflexivity |].
cbv zeta. split; [exact A | exact B].
Defined.

(** *** Feedback on a message *)

Definition NoSuchMessage : error :=
  Errorf "message not found, feedback not updated".

Lemma UpdateMessageFeedback_run (w : World) (messageID : string)
  (negative : bool) (st : State) :
  store.UpdateMessageFeedback w messageID negative st
  = match sql_fails w (sql_count st) with
    | Some e =>
        (Some (Wrapf "failed to prepare feedback update" e),
         set_sql_count (1 + sql_count st) st)
    | None =>
        match sql_fails w (1 + sql_count st) with
        | Some e =>
            (Some (Wrapf "failed to execute feedback update" e),
             set_sql_count (2 + sql_count st) st)
        | None =>
            (if (List.length
                   (filter (store.message_row messageID) (messages st))
                 =? 0)%nat
             then Some NoSuchMessage else None,
             set_messages
               (map (store.with_NegativeFeedback messageID negative)
                  (messages st))
               (set_sql_count (2 + sql_count st) st))
        end
    end.
Proof.
unfold store.UpdateMessageFeedback, bind, sql, gets, modify, pure.
destruct (sql_fails w (sql_count st)); [reflexivity|].
cbn [sql_count set_sql_count].
change (S (sql_count st)) with (1 + sql_count st)%nat.
destruct (sql_fails w (1 + sql_count st)); [reflexivity|].
cbn [messages set_sql_count].
now destruct (List.length _ =? 0)%nat.
Qed.

(** A message without its feedback flag. *)
Definition unflagged (m : Message.t)
  : string * string * string * string * Z :=
  (Message.ID m, Message.ChatID m, Message.Sender m, Message.Content m,
   Message.Timestamp m).

Lemma with_NegativeFeedback_unflagged (messageID : string) (negative : bool)
  (l : list Message.t) :
  map unflagged (map (store.with_NegativeFeedback messageID negative) l)
  = map unflagged l.
Proof.
rewrite map_map. apply map_ext. intros m.
unfold store.with_NegativeFeedback.
now destruct (store.message_row messageID m).
Qed.

Lemma with_NegativeFeedback_other (messageID : string) (negative : bool)
  (m : Message.t) :
  store.message_row messageID m = false ->
  store.with_NegativeFeedback messageID negative m = m.
Proof. unfold store.with_NegativeFeedback. now intros ->. Qed.

Lemma filter_length_0 (A : Type) (f : A -> bool) (l : list A) :
  (List.length (filter f l) =? 0)%nat = true <-> filter f l = [].
Proof.
destruct (filter f l); cbn; split; congruence.
Qed.

(** X5. [UpdateMessageFeedback] changes nothing but feedback flags, and
    nothing at all when it fails. When the driver executes its two
    statements, it succeeds exactly when a message has the identifier,
    the failure being "message not found, feedback not updated";
    afterwards every message with the identifier carries the flag
    given and every other message was there before. *)
Theorem UpdateMessageFeedback_flags (w : World) (messageID : string)
  (negative : bool) (st : State) :
  let r := store.UpdateMessageFeedback w messageID negative st in
  map unflagged (messages (snd r)) = map unflagged (messages st)
  /\ chats (snd r) = chats st
  /\ (fst r <> None -> messages (snd r) = messages st)
  /\ (sql_fails w (sql_count st) = None ->
      sql_fails w (1 + sql_count st) = None ->
      (fst r = None
       <-> exists m, In m (messages st) /\ Message.ID m = messageID)
      /\ (fst r <> None -> fst r = Some NoSuchMessage)
      /\ forall m, In m (messages (snd r)) ->
           if String.eqb (Message.ID m) messageID
           then Message.NegativeFeedback m = negative
           else In m (messages st)).
Proof.
cbv zeta. rewrite UpdateMessageFeedback_run.
destruct (sql_fails w (sql_count st)) as [e|];
  [repeat split; try reflexivity; discriminate|].
destruct (sql_fails w (1 + sql_count st)) as [e|];
  [repeat split; try reflexivity; intros; discriminate|].
cbn [fst snd messages set_messages chats set_sql_count].
split; [apply with_NegativeFeedback_unflagged|]. split; [reflexivity|].
destruct (List.length (filter (store.message_row messageID) (messages st))
          =? 0)%nat eqn:L.
- apply filter_length_0 in L. split.
  + intros _. apply map_unselected with (f := store.message_row messageID);
      [apply with_NegativeFeedback_other | exact L].
  + intros _ _. split; [|split; [reflexivity|]].
    * split; [discriminate|]. intros (m & Hm & E). exfalso.
      assert (In m (filter (store.message_row messageID) (messages st))) as H.
      { apply filter_In. split; [exact Hm|]. now apply String.eqb_eq. }
      rewrite L in H. destruct H.
    * rewrite (map_unselected _ _ (messages st)
                 (with_NegativeFeedback_other messageID negative) L).
      intros m Hm. destruct (String.eqb (Message.ID m) messageID) eqn:E;
        [|exact Hm].
      exfalso.
      assert (In m (filter (store.message_row messageID) (messages st))) as H
        by (apply filter_In; split; assumption).
      rewrite L in H. destruct H.
- split; [intros H; now elim H|]. intros _ _.
  split; [|split; [intros H; now elim H|]].
  + split; [intros _|reflexivity].
    destruct (filter (store.message_row messageID) (messages st))
      as [|m l] eqn:F; [discriminate|].
    assert (In m (filter (store.message_row messageID) (messages st))) as H
      by (rewrite F; now left).
    apply filter_In in H. destruct H as [H E].
    exists m. split; [exact H|]. now apply String.eqb_eq.
  + intros m Hm. apply in_map_iff in Hm. destruct Hm as (m0 & <- & Hm0).
    unfold store.with_NegativeFeedback, store.message_row.
    destruct (String.eqb (Message.ID m0) messageID) eqn:E;
      cbn [Message.ID Message.NegativeFeedback]; rewrite E;
      [reflexivity | exact Hm0].
Qed.

Lemma UpdateMessageFeedback_flags_witness :
  let r := store.UpdateMessageFeedback Examples.offline "m2" true her_chat in
  fst r = None
  /\ map Message.NegativeFeedback (messages (snd r)) = [false; true]
  /\ fst (store.UpdateMessageFeedback Examples.offline "m3" true her_chat)
     = Some NoSuchMessage.
Proof.
destruct (@UpdateMessageFeedback_flags Examples.offline "m2" true her_chat)
  as (_ & _ & _ & A).
destruct (@UpdateMessageFeedback_flags Examples.offline "m3" true her_chat)
  as (_ & _ & _ & B).
destruct A as (A & _); [reflexivity | reflexivity|].
destruct B as (_ & B & _); [reflexivity | reflexivity|].
cbv zeta. split; [|split].
- apply A. exists answer. split; [right; now left | reflexivity].
- reflexivity.
- apply B. discriminate.
Defined.

(** *** The details of a chat *)

Lemma older_first_total (a b : Message.t) :
  store.older_first a b = true \/ store.older_first b a = true.
Proof. unfold store.older_first. lia. Qed.

Lemma older_first_trans (a b c : Message.t) :
  store.older_first a b = true -> store.older_first b c = true ->
  store.older_first a c = true.
Proof. unfold store.older_first. lia. Qed.

Lemma GetMessagesByChatID_run (w : World) (chatID : string)
  (limit_ offset : Z) (st : State) :
  store.GetMessagesByChatID w chatID limit_ offset st
  = (match sql_fails w (sql_count st) with
     | Some e => ([], Some (Wrapf "failed to query messages" e))
     | None =>
         (limit limit_
            (skipn (Z.to_nat offset)
               (order_by store.older_first
                  (filter (store.of_chat chatID) (messages st)))), None)
     end,
     set_sql_count (S (sql_count st)) st).
Proof.
unfold store.GetMessagesByChatID, bind, sql, gets, pure.
now destruct (sql_fails w (sql_count st)).
Qed.

Lemma GetChatDetails_run (w : World) (chatID : string) (userID : Z)
  (st : State) :
  core.GetChatDetails w chatID userID st
  = match sql_fails w (sql_count st) with
    | Some e =>
        ((None, [],
          Some (Wrapf "failed to get chat" (Wrapf "failed to get chat" e))),
         set_sql_count (1 + sql_count st) st)
    | None =>
        match find (store.chat_row chatID userID) (chats st) with
        | None => ((None, [], None), set_sql_count (1 + sql_count st) st)
        | Some chat =>
            match sql_fails w (1 + sql_count st) with
            | Some e =>
                ((None, [],
                  Some (Wrapf "failed to get messages for chat"
                          (Wrapf "failed to query messages" e))),
                 set_sql_count (2 + sql_count st) st)
            | None =>
                ((Some chat,
                  firstn 100
                    (order_by store.older_first
                       (filter (store.of_chat chatID) (messages st))),
                  None),
                 set_sql_count (2 + sql_count st) st)
            end
        end
    end.
Proof.
unfold core.GetChatDetails. unfold bind at 1.
rewrite chatFacts.GetChatByID_run.
destruct (sql_fails w (sql_count st)) as [e|]; [reflexivity|].
destruct (find (store.chat_row chatID userID) (chats st)) as [chat|];
  [|reflexivity].
unfold bind. rewrite GetMessagesByChatID_run.
cbn [sql_count set_sql_count messages].
change (S (sql_count st)) with (1 + sql_count st)%nat.
now destruct (sql_fails w (1 + sql_count st)).
Qed.

(** X6. For a chat that does not exist or belongs to another user,
    [GetChatDetails] returns no chat and no message and runs the
    lookup statement only; the lookup being executed, it returns no
    error either. *)
Theorem GetChatDetails_not_owned (w : World) (chatID : string) (userID : Z)
  (st : State) :
  chatFacts.not_owned st chatID userID ->
  let r := core.GetChatDetails w chatID userID st in
  fst (fst (fst r)) = None
  /\ snd (fst (fst r)) = []
  /\ snd r = set_sql_count (1 + sql_count st) st
  /\ (sql_fails w (sql_count st) = None -> fst r = (None, [], None)).
Proof.
intros N. cbv zeta. apply chatFacts.not_owned_find in N.
rewrite GetChatDetails_run, N.
destruct (sql_fails w (sql_count st)) as [e|]; cbn [fst snd];
  repeat split; try reflexivity; discriminate.
Qed.

Lemma GetChatDetails_not_owned_witness :
  core.GetChatDetails Examples.offline "c1" 7 her_chat
  = ((None, [], None), set_sql_count 1 her_chat).
Proof.
destruct (@GetChatDetails_not_owned Examples.offline "c1" 7 her_chat)
  as (_ & _ & A & B).
- intros c [<-|[]] _. cbn. lia.
- cbv zeta in A, B. specialize (B eq_refl).
  rewrite (surjective_pairing (core.GetChatDetails _ _ _ _)).
  now rewrite A, B.
Defined.

(** X7. For a chat of the user, the two statements being executed,
    [GetChatDetails] returns the chat with at most 100 of its
    messages, in ascending order of time, and changes no table; no
    message of the chat that is left out is older than one returned,
    and all are returned when the chat has at most 100. *)
Theorem GetChatDetails_oldest_hundred (w : World) (chatID : string)
  (userID : Z) (st : State) (chat : Chat.t) :
  find (store.chat_row chatID userID) (chats st) = Some chat ->
  sql_fails w (sql_count st) = None ->
  sql_fails w (1 + sql_count st) = None ->
  let r := core.GetChatDetails w chatID userID st in
  let page := snd (fst (fst r)) in
  let theirs := filter (store.of_chat chatID) (messages st) in
  fst r = (Some chat, page, None)
  /\ tables (snd r) = tables st
  /\ (List.length page <= 100)%nat
  /\ (forall m, In m page -> In m (messages st) /\ Message.ChatID m = chatID)
  /\ StronglySorted
       (fun a b => (Message.Timestamp a <= Message.Timestamp b)%Z) page
  /\ (forall m m', In m page -> In m' theirs -> ~ In m' page ->
      (Message.Timestamp m <= Message.Timestamp m')%Z)
  /\ ((List.length theirs <= 100)%nat -> Permutation theirs page).
Proof.
intros F S0 S1. cbv zeta. rewrite GetChatDetails_run, S0, F, S1.
cbn [fst snd].
set (theirs := filter (store.of_chat chatID) (messages st)).
set (l := order_by store.older_first theirs).
assert (P : Permutation theirs l)
  by apply storeFacts.order_by_Permutation.
assert (O : storeFacts.ordered store.older_first l).
{ apply storeFacts.order_by_ordered; [exact older_first_total|].
  exact older_first_trans. }
split; [reflexivity|]. split; [reflexivity|].
split; [apply firstn_le_length|]. split; [|split; [|split]].
- intros m Hm. apply storeFacts.firstn_In in Hm.
  apply (Permutation_in m (Permutation_sym P)) in Hm.
  apply filter_In in Hm. destruct Hm as [Hm E]. split; [exact Hm|].
  now apply String.eqb_eq.
- apply storeFacts.StronglySorted_firstn.
  clearbody l. clear P. unfold storeFacts.ordered in O.
  induction O as [|x l O IH Hall]; constructor; [exact IH|].
  apply Forall_forall. intros y Hy.
  apply (proj1 (Forall_forall _ _) Hall) in Hy.
  unfold store.older_first in Hy. lia.
- intros m m' Hm Hm' Out.
  apply (Permutation_in m' P) in Hm'.
  rewrite <- (firstn_skipn 100 l) in Hm'. apply in_app_or in Hm'.
  destruct Hm' as [Hm'|Hm']; [contradiction|].
  assert (B : store.older_first m m' = true).
  { apply storeFacts.ordered_firstn_skipn with (n := 100%nat) (l := l);
      assumption. }
  unfold store.older_first in B. lia.
- intros L. rewrite firstn_all2; [exact P|].
  now rewrite <- (Permutation_length P).
Qed.

Lemma GetChatDetails_oldest_hundred_witness :
  fst (core.GetChatDetails Examples.offline "c1" 8 her_chat)
  = (Some hers, [question; answer], None).
Proof.
destruct (@GetChatDetails_oldest_hundred Examples.offline "c1" 8 her_chat
            hers) as (A & _); [reflexivity | reflexivity | reflexivity |].
cbv zeta in A. rewrite A. reflexivity.
Defined.

End chatStoreFacts.

(* ================================================================= *)
(** ** The title of a chat *)

Module titleFacts.

(** *** Trimming with a set of ASCII bytes *)

(** What [trimLeftASCII (trimRightASCII s as) as] leaves of the bytes
    of [s]. *)
Definition strip (cut : ascii -> bool) (l : list ascii) : list ascii :=
  strings.cut_head cut (rev (strings.cut_head cut (rev l))).

(** Neither the first nor the last byte is in the set. *)
Definition clean (cut : ascii -> bool) (l : list ascii) : Prop :=
  match l with
  | [] => True
  | c :: _ => cut c = false /\ cut (last l c) = false
  end.

Lemma cut_head_suffix (cut : ascii -> bool) (l : list ascii) :
  exists p, l = (p ++ strings.cut_head cut l)%list.
Proof.
induction l as [|c l [p IH]]; [now exists []|]. cbn.
destruct (cut c); [|now exists []].
exists (c :: p). cbn. now rewrite <- IH.
Qed.

Lemma cut_head_head (cut : ascii -> bool) (l : list ascii) (c : ascii)
  (t : list ascii) : strings.cut_head cut l = c :: t -> cut c = false.
Proof.
induction l as [|x l IH]; cbn; [discriminate|].
destruct (cut x) eqn:E; [exact IH|]. intros H. inversion H. now subst.
Qed.

Lemma cut_head_clean (cut : ascii -> bool) (l : list ascii) :
  match l with [] => True | c :: _ => cut c = false end ->
  strings.cut_head cut l = l.
Proof. destruct l as [|c l]; [reflexivity|]. cbn. now intros ->. Qed.

Lemma last_app_cons (A : Type) (p l : list A) (x d : A) :
  last (p ++ x :: l) d = last (x :: l) d.
Proof.
induction p as [|y p IH]; [reflexivity|].
cbn [app]. rewrite <- IH. cbn. now destruct (p ++ x :: l)%list eqn:E;
  [destruct p; discriminate|].
Qed.

Lemma last_rev_cons (A : Type) (l : list A) (x d : A) :
  last (rev (x :: l)) d = x.
Proof. cbn [rev]. apply last_last. Qed.

Lemma strip_clean (cut : ascii -> bool) (l : list ascii) :
  clean cut (strip cut l).
Proof.
unfold strip, clean.
destruct (strings.cut_head cut (rev l)) as [|x r] eqn:R; [exact I|].
assert (X : cut x = false) by exact (cut_head_head _ _ R).
destruct (cut_head_suffix cut (rev (x :: r))) as [p P].
destruct (strings.cut_head cut (rev (x :: r))) as [|c t] eqn:T; [exact I|].
split; [exact (cut_head_head _ _ T)|].
assert (L : last (c :: t) c = x).
{ rewrite <- (last_app_cons p t c c), <- P.
  rewrite (last_rev_cons r x c). reflexivity. }
now rewrite L.
Qed.

Lemma rev_head_last (l : list ascii) (c : ascii) :
  match rev (c :: l) with
  | [] => False
  | x :: _ => x = last (c :: l) c
  end.
Proof.
destruct (rev (c :: l)) as [|x r] eqn:R.
- apply (f_equal (@List.length _)) in R. rewrite length_rev in R.
  discriminate.
- assert (E : c :: l = rev (x :: r))
    by (rewrite <- R; now rewrite rev_involutive).
  rewrite E. now rewrite last_rev_cons.
Qed.

Lemma clean_strip (cut : ascii -> bool) (l : list ascii) :
  clean cut l -> strip cut l = l.
Proof.
unfold strip. destruct l as [|c l]; [reflexivity|]. intros [H L].
assert (R := rev_head_last l c).
rewrite (cut_head_clean cut (rev (c :: l))).
- rewrite rev_involutive. apply cut_head_clean. exact H.
- destruct (rev (c :: l)) as [|x r]; [exact I|]. now rewrite R.
Qed.

Lemma strip_idempotent (cut : ascii -> bool) (l : list ascii) :
  strip cut (strip cut l) = strip cut l.
Proof. apply clean_strip, strip_clean. Qed.

(** The set made of the cut set of the title. *)
Definition in_titleCutset (c : ascii) : bool :=
  existsb (Ascii.eqb c) (list_ascii_of_string core.titleCutset).

Lemma Trim_titleCutset (s : string) :
  strings.Trim s core.titleCutset
  = string_of_list_ascii (strip in_titleCutset (list_ascii_of_string s)).
Proof.
destruct s as [|c s]; [reflexivity|].
unfold strings.Trim, strip, strings.trimLeftASCII, strings.trimRightASCII.
cbn [core.titleCutset core.double_quote append].
cbn [String.length Nat.eqb andb].
change (strings.makeASCIISet _) with (Some in_titleCutset). cbv iota.
now rewrite list_ascii_of_string_of_list_ascii.
Qed.

Lemma Trim_titleCutset_idempotent (s : string) :
  strings.Trim (strings.Trim s core.titleCutset) core.titleCutset
  = strings.Trim s core.titleCutset.
Proof.
rewrite !Trim_titleCutset, list_ascii_of_string_of_list_ascii.
now rewrite strip_idempotent.
Qed.

(** *** The title that the gateway derives *)

Definition title_prompt (chatSummary : string) : string :=
  "Generate a very concise title (3-5 words maximum) for a conversation that starts with or is about: "
  ++ core.double_quote ++ chatSummary ++ core.double_quote ++ ".".

Definition title_call (chatSummary : string) : GatewayCall :=
  CallGenerateContent core.titleSystemInstruction (title_prompt chatSummary).

(** The answer of the gateway to the title request made in [st]. *)
Definition title_response (w : World) (chatSummary : string) (st : State)
  : outcome (option genai.GenerateContentResponse) :=
  GenerateContent w (List.length (gateway_calls st))
    core.titleSystemInstruction (title_prompt chatSummary).

(** What [GenerateTitleForChat] returns for an answer of the gateway. *)
Definition title_answer
  (r : outcome (option genai.GenerateContentResponse)) : ret string :=
  match r with
  | Failed e =>
      ("", Some (Wrapf "gemini title generation request failed" e))
  | Returned resp =>
      match chatFacts.first_parts resp with
      | [] =>
          ("Chat",
           Some (Errorf "LLM did not generate a title (empty response)"))
      | parts =>
          if chatFacts.text_of parts =? ""
          then ("Chat", Some (Errorf "LLM generated an empty title string"))
          else (strings.Trim (chatFacts.text_of parts) core.titleCutset, None)
      end
  end.

Lemma GenerateTitleForChat_run (w : World) (chatSummary : string)
  (st : State) :
  core.GenerateTitleForChat w chatSummary st
  = (title_answer (title_response w chatSummary st),
     set_gateway_calls (gateway_calls st ++ [title_call chatSummary]) st).
Proof.
unfold core.GenerateTitleForChat, title_response, title_answer.
fold (title_prompt chatSummary). unfold bind, gateway, pure.
fold (title_call chatSummary).
destruct (GenerateContent w (List.length (gateway_calls st))
            core.titleSystemInstruction (title_prompt chatSummary))
  as [e|resp]; [reflexivity|].
destruct resp as [[[|[[[role [|part parts]]|]] cs]]|];
  cbn [chatFacts.first_parts genai.Candidates genai.CandidateContent
       genai.Parts]; try reflexivity.
rewrite chatFacts.write_text_text_of. cbn [append].
rewrite chatFacts.length_eqb_0_empty.
now destruct (chatFacts.text_of (part :: parts) =? "").
Qed.

(** X8. [GenerateTitleForChat] makes one call to the gateway and touches
    nothing else. When it fails, the title it returns is empty or
    "Chat"; when it succeeds, the title is the text of the answer,
    which is not empty, cut by [strings.Trim]: it neither begins nor
    ends with a double quote, a single quote, a line feed, a carriage
    return, a tab, a space or a full stop, and trimming it again
    changes nothing. *)
Theorem GenerateTitleForChat_trimmed (w : World) (chatSummary : string)
  (st : State) :
  let r := core.GenerateTitleForChat w chatSummary st in
  let title := fst (fst r) in
  snd r = set_gateway_calls (gateway_calls st ++ [title_call chatSummary]) st
  /\ match snd (fst r) with
     | Some _ => title = "" \/ title = "Chat"
     | None =>
         clean in_titleCutset (list_ascii_of_string title)
         /\ strings.Trim title core.titleCutset = title
         /\ exists resp,
              title_response w chatSummary st = Returned resp
              /\ chatFacts.text_of (chatFacts.first_parts resp) <> ""
              /\ title
                 = strings.Trim (chatFacts.text_of (chatFacts.first_parts resp))
                     core.titleCutset
     end.
Proof.
cbv zeta. rewrite GenerateTitleForChat_run. cbn [fst snd].
split; [reflexivity|]. unfold title_answer.
destruct (title_response w chatSummary st) as [e|resp]; cbn [fst snd];
  [now left|].
destruct (chatFacts.first_parts resp) as [|part parts] eqn:P; cbn [fst snd];
  [now right|].
destruct (chatFacts.text_of (part :: parts) =? "") eqn:T; cbn [fst snd];
  [now right|].
split; [|split].
- rewrite Trim_titleCutset, list_ascii_of_string_of_list_ascii.
  apply strip_clean.
- apply Trim_titleCutset_idempotent.
- exists resp. split; [reflexivity|]. rewrite P. split; [|reflexivity].
  intros E. rewrite E in T. discriminate.
Qed.

(** *** The goroutine that saves the title *)

(** A chat without its title. *)
Definition untitled_row (c : Chat.t) : string * Z * Z :=
  (Chat.ID c, Chat.UserID c, Chat.CreatedAt c).

Lemma with_Title_untitled_row (chatID : string) (userID : Z)
  (title : string) (l : list Chat.t) :
  map untitled_row (map (store.with_Title chatID userID title) l)
  = map untitled_row l.
Proof.
rewrite map_map. apply map_ext. intros c. unfold store.with_Title.
now destruct (store.chat_row chatID userID c).
Qed.

Lemma generateAndSaveChatTitle_run (w : World) (chatID : string)
  (userID : Z) (basisContent : string) (st : State) :
  snd (core.generateAndSaveChatTitle w chatID userID basisContent st)
  = let g := core.GenerateTitleForChat w basisContent st in
    match snd (fst g) with
    | Some _ => snd g
    | None =>
        snd (store.UpdateChatTitle w chatID userID (fst (fst g)) (snd g))
    end.
Proof.
unfold core.generateAndSaveChatTitle, bind. cbv zeta.
rewrite GenerateTitleForChat_run. unfold title_answer.
destruct (title_response w basisContent st) as [e|resp]; [reflexivity|].
destruct (chatFacts.first_parts resp) as [|part parts]; [reflexivity|].
destruct (chatFacts.text_of (part :: parts) =? ""); [reflexivity|].
cbn [fst snd]. rewrite Trim_titleCutset_idempotent.
now destruct (store.UpdateChatTitle w chatID userID _ _).
Qed.

(** X9. The goroutine [generateAndSaveChatTitle] makes the one title
    call and never touches the messages, the chunks or the
    goroutines; of the chats it changes titles only, and only of the
    chat of the user it was started for. When the title generation
    fails it runs no statement, so that the placeholder "Chat" is
    never saved; when the chat is not the user's, the chats are
    unchanged. *)
Theorem generateAndSaveChatTitle_frame (w : World) (chatID : string)
  (userID : Z) (basisContent : string) (st : State) :
  let g := core.GenerateTitleForChat w basisContent st in
  let st' :=
    snd (core.generateAndSaveChatTitle w chatID userID basisContent st) in
  messages st' = messages st
  /\ data_chunks st' = data_chunks st
  /\ goroutines st' = goroutines st
  /\ gateway_calls st' = (gateway_calls st ++ [title_call basisContent])%list
  /\ map untitled_row (chats st') = map untitled_row (chats st)
  /\ chatStoreFacts.unselected chatID userID (chats st')
     = chatStoreFacts.unselected chatID userID (chats st)
  /\ (snd (fst g) <> None ->
      chats st' = chats st /\ sql_count st' = sql_count st)
  /\ (chatFacts.not_owned st chatID userID -> chats st' = chats st).
Proof.
cbv zeta. rewrite generateAndSaveChatTitle_run. cbv zeta.
rewrite GenerateTitleForChat_run. cbn [fst snd].
destruct (snd (title_answer (title_response w basisContent st))) as [e|];
  [repeat split; reflexivity|].
set (title := fst (title_answer (title_response w basisContent st))).
set (st1 := set_gateway_calls
              (gateway_calls st ++ [title_call basisContent]) st).
rewrite chatStoreFacts.UpdateChatTitle_run.
change (chats st1) with (chats st). change (sql_count st1) with (sql_count st).
destruct (sql_fails w (sql_count st)) as [e|]; cbn [snd];
  [repeat split; intros; try reflexivity; congruence|].
destruct (sql_fails w (1 + sql_count st)) as [e|]; cbn [snd];
  [repeat split; intros; try reflexivity; congruence|].
cbn [messages data_chunks goroutines gateway_calls chats set_chats
     set_sql_count set_gateway_calls st1].
split; [reflexivity|]. split; [reflexivity|]. split; [reflexivity|].
split; [reflexivity|]. split; [apply with_Title_untitled_row|].
split; [apply chatStoreFacts.unselected_with_Title|].
split; [intros H; now elim H|].
intros N. apply chatFacts.not_owned_find in N.
apply chatStoreFacts.find_none_filter in N.
apply chatStoreFacts.map_unselected
  with (f := store.chat_row chatID userID); [|exact N].
apply chatStoreFacts.with_Title_other.
Qed.

(** The world whose gateway gives the one text [text] to every title
    request. *)
Definition titling (text : string) : World :=
  {| sql_fails := sql_fails Examples.offline;
     EmbedContent := EmbedContent Examples.offline;
     SendMessage := SendMessage Examples.offline;
     GenerateContent := fun _ _ _ =>
       Returned
         (Some {| genai.Candidates :=
                    [{| genai.CandidateContent :=
                          Some {| genai.Role := "model";
                                  genai.Parts := [genai.Text text] |} |}] |});
     ReadFile := ReadFile Examples.offline;
     NewString := NewString Examples.offline;
     Now := Now Examples.offline |}.

Lemma generateAndSaveChatTitle_frame_witness :
  chats (snd (core.generateAndSaveChatTitle Examples.offline "c1" 8
                "How many?" chatStoreFacts.her_chat))
  = chats chatStoreFacts.her_chat
  /\ chats (snd (core.generateAndSaveChatTitle (titling "Counting") "c1" 7
                   "How many?" chatStoreFacts.her_chat))
     = chats chatStoreFacts.her_chat.
Proof.
split.
- destruct (@generateAndSaveChatTitle_frame Examples.offline "c1" 8
              "How many?" chatStoreFacts.her_chat)
    as (_ & _ & _ & _ & _ & _ & A & _).
  cbv zeta in A. apply A. discriminate.
- destruct (@generateAndSaveChatTitle_frame (titling "Counting") "c1" 7
              "How many?" chatStoreFacts.her_chat)
    as (_ & _ & _ & _ & _ & _ & _ & A).
  cbv zeta in A. apply A. intros c [<-|[]] _. cbn. lia.
Defined.

(** X10. When the gateway answers a text and the driver executes the
    statements, the goroutine gives the chat of the user the title
    that [strings.Trim] makes of the text, in place of the title it
    had: the second trimming of the goroutine changes nothing, and the
    title, which may be empty, neither begins nor ends with a byte of
    the cut set. *)
Theorem generateAndSaveChatTitle_saves (w : World) (chatID : string)
  (userID : Z) (basisContent : string) (st : State) (chat : Chat.t)
  (resp : option genai.GenerateContentResponse) :
  find (store.chat_row chatID userID) (chats st) = Some chat ->
  title_response w basisContent st = Returned resp ->
  chatFacts.text_of (chatFacts.first_parts resp) <> "" ->
  sql_fails w (sql_count st) = None ->
  sql_fails w (1 + sql_count st) = None ->
  sql_fails w (2 + sql_count st) = None ->
  let st' :=
    snd (core.generateAndSaveChatTitle w chatID userID basisContent st) in
  let title :=
    strings.Trim (chatFacts.text_of (chatFacts.first_parts resp))
      core.titleCutset in
  fst (store.GetChatByID w chatID userID st')
  = (Some {| Chat.ID := Chat.ID chat; Chat.UserID := Chat.UserID chat;
             Chat.Title := Some title;
             Chat.CreatedAt := Chat.CreatedAt chat |}, None)
  /\ clean in_titleCutset (list_ascii_of_string title).
Proof.
intros F R T S0 S1 S2. cbv zeta. split.
- rewrite generateAndSaveChatTitle_run. cbv zeta.
  rewrite GenerateTitleForChat_run, R. unfold title_answer.
  destruct (chatFacts.first_parts resp) as [|part parts] eqn:P.
  { now elim T. }
  destruct (chatFacts.text_of (part :: parts) =? "") eqn:E.
  { apply String.eqb_eq in E. now elim T. }
  cbn [fst snd].
  set (title := strings.Trim (chatFacts.text_of (part :: parts))
                  core.titleCutset).
  set (st1 := set_gateway_calls
                (gateway_calls st ++ [title_call basisContent]) st).
  rewrite (@chatStoreFacts.UpdateChatTitle_found w chatID userID title st1
             chat F S0 S1).
  cbn [snd].
  exact (@chatStoreFacts.GetChatByID_with_Title w chatID userID title st1
           chat F S2).
- rewrite Trim_titleCutset, list_ascii_of_string_of_list_ascii.
  apply strip_clean.
Qed.

Lemma generateAndSaveChatTitle_saves_witness :
  let text :=
    core.double_quote ++ "Counting sheep." ++ core.double_quote
    ++ String "010" "" in
  fst (store.GetChatByID (titling text) "c1" 8
         (snd (core.generateAndSaveChatTitle (titling text) "c1" 8
                 "How many?" chatStoreFacts.her_chat)))
  = (Some {| Chat.ID := "c1"; Chat.UserID := 8;
             Chat.Title := Some "Counting sheep"; Chat.CreatedAt := 0 |},
     None).
Proof.
cbv zeta.
destruct (@generateAndSaveChatTitle_saves
            (titling (core.double_quote ++ "Counting sheep."
                      ++ core.double_quote ++ String "010" ""))
            "c1" 8 "How many?" chatStoreFacts.her_chat chatStoreFacts.hers
            (Some {| genai.Candidates :=
                       [{| genai.CandidateContent :=
                             Some {| genai.Role := "model";
                                     genai.Parts :=
                                       [genai.Text
                                          (core.double_quote
                                           ++ "Counting sheep."
                                           ++ core.double_quote
                                           ++ String "010" "")] |} |}] |}))
  as [A _];
  [reflexivity | reflexivity | discriminate | reflexivity | reflexivity
  | reflexivity |].
exact A.
Defined.

End titleFacts.

(* ================================================================= *)
(** ** The first exchange of a chat and the goroutine of a turn *)

Module turnFacts.

(** *** What a turn starts in the background *)

Lemma GenerateResponse_frame (w : World) (sorter : sort.Sorter)
  (s : core.RAGService) (chatID : string) (userID : Z) (userQuery : string)
  (st : State) :
  let st' := snd (core.GenerateResponse w s chatID userID userQuery st) in
  tables st' = tables st
  /\ goroutines st' = goroutines st
  /\ clock_count st' = clock_count st
  /\ uuid_count st' = uuid_count st
  /\ sql_count st' = S (sql_count st).
Proof.
cbv zeta.
destruct (chatFacts.GenerateResponse_effect w sorter s chatID userID
            userQuery st) as (calls & ctx & _ & E & _).
cbv zeta in E. rewrite E. repeat split.
Qed.

Lemma CreateMessage_frame (w : World) (msg : Message.t) (st : State) :
  let r := store.CreateMessage w msg st in
  goroutines (snd r) = goroutines st
  /\ gateway_calls (snd r) = gateway_calls st
  /\ chats (snd r) = chats st.
Proof.
cbv zeta. rewrite chatFacts.CreateMessage_run.
destruct (sql_fails w (sql_count st)); [repeat split|].
destruct (sql_fails w (1 + sql_count st)); repeat split.
Qed.

(** The goroutine that [title_if_missing] starts, if any. *)
Lemma title_if_missing_goroutines (w : World) (chat : Chat.t)
  (chatID : string) (userID : Z) (st : State) :
  let st' := snd (core.title_if_missing w chat chatID userID st) in
  goroutines st' = goroutines st
  \/ (core.untitled chat = true
      /\ exists basis,
           basis <> ""
           /\ goroutines st'
              = (goroutines st
                   ++ [generateAndSaveChatTitle chatID userID basis])%list).
Proof.
cbv zeta. unfold core.title_if_missing.
destruct (core.untitled chat); [|now left].
unfold bind. rewrite storeFacts.GetLastNMessagesByChatID_run.
destruct (sql_fails w (sql_count st)); cbn [fst snd];
  [now left|].
destruct (1 <=? List.length _)%nat; [|now left].
destruct (core.first_user_content _ =? "") eqn:E; cbn [negb]; [now left|].
right. split; [reflexivity|]. eexists. split; [|reflexivity].
intros H. rewrite H in E. discriminate.
Qed.

Lemma PostMessage_goroutines (w : World) (sorter : sort.Sorter)
  (s : core.RAGService) (chatID : string) (userID : Z) (userContent : string)
  (st : State) :
  let st' := snd (core.PostMessage w s chatID userID userContent st) in
  goroutines st' = goroutines st
  \/ ((exists chat,
         find (store.chat_row chatID userID) (chats st) = Some chat
         /\ core.untitled chat = true)
      /\ exists basis,
           basis <> ""
           /\ goroutines st'
              = (goroutines st
                   ++ [generateAndSaveChatTitle chatID userID basis])%list).
Proof.
cbv zeta.
remember (snd (core.PostMessage w s chatID userID userContent st)) as st'
  eqn:E.
unfold core.PostMessage in E. unfold bind at 1 in E.
rewrite chatFacts.GetChatByID_run in E.
destruct (sql_fails w (sql_count st)) as [e|]; [left; now subst|].
destruct (find (store.chat_row chatID userID) (chats st)) as [chat|] eqn:F;
  [|left; now subst].
unfold bind at 1 in E.
match type of E with
| context [store.CreateMessage w ?m ?s0] =>
    destruct (CreateMessage_frame w m s0) as (G1 & _);
    destruct (store.CreateMessage w m s0) as [[userMsg err] st2]
end.
cbn [fst snd] in G1. cbn [goroutines set_sql_count] in G1.
destruct err as [e|]; [left; now subst|].
unfold bind at 1 in E.
destruct (GenerateResponse_frame w sorter s chatID userID userContent st2)
  as (_ & G2 & _).
destruct (core.GenerateResponse w s chatID userID userContent st2)
  as [[modelContent err] st3].
cbn [fst snd] in G2. unfold bind at 1 in E.
match type of E with
| context [store.CreateMessage w ?m ?s0] =>
    destruct (CreateMessage_frame w m s0) as (G3 & _);
    destruct (store.CreateMessage w m s0) as [[modelMessage err2] st4]
end.
cbn [fst snd] in G3.
destruct err2 as [e|]; [left; subst; cbn; congruence|].
unfold bind, pure in E.
destruct (title_if_missing_goroutines w chat chatID userID st4) as [G4|G4];
  cbv zeta in G4;
  destruct (core.title_if_missing w chat chatID userID st4) as [u st5];
  cbn [fst snd] in *; subst st'.
- left. congruence.
- right. destruct G4 as (U & basis & B & G4).
  split; [now exists chat|]. exists basis. split; [exact B|].
  now rewrite G4, G3, G2, G1.
Qed.

(** Inserting a message older than all of [newest] leaves [newest] at
    the head. *)
Lemma insert_by_older (x : Message.t) (newest rest : list Message.t) :
  Forall (fun y => (Message.Timestamp x < Message.Timestamp y)%Z) newest ->
  insert_by store.newer_first x (newest ++ rest)
  = (newest ++ insert_by store.newer_first x rest)%list.
Proof.
induction 1 as [|y newest Hy _ IH]; [reflexivity|].
cbn [app insert_by]. unfold store.newer_first at 1.
destruct (Z.leb_spec (Message.Timestamp y) (Message.Timestamp x)); [lia|].
now rewrite IH.
Qed.

Lemma order_by_older (older newest : list Message.t) :
  Forall (fun x =>
            Forall (fun y => (Message.Timestamp x < Message.Timestamp y)%Z)
              newest) older ->
  exists rest,
    order_by store.newer_first (older ++ newest)
    = (order_by store.newer_first newest ++ rest)%list.
Proof.
unfold order_by. rewrite fold_right_app.
fold (order_by store.newer_first newest).
assert (P := storeFacts.order_by_Permutation store.newer_first newest).
generalize dependent (order_by store.newer_first newest). intros top P.
induction 1 as [|x older Hx _ [rest IH]].
- exists []. cbn. now rewrite app_nil_r.
- cbn [fold_right]. rewrite IH.
  exists (insert_by store.newer_first x rest).
  apply insert_by_older. apply (Permutation_Forall P Hx).
Qed.

(** The basis of the title after a turn: with the inbound message
    newer than the chat and the reply not older than it, the two head
    the selection and the user message is the one found. *)
Lemma first_user_content_turn (chatID : string) (rows : list Message.t)
  (u m : Message.t) :
  Message.ChatID u = chatID -> Message.ChatID m = chatID ->
  Message.Sender u = "user" -> Message.Sender m = "model" ->
  (forall x, In x rows -> Message.ChatID x = chatID ->
             (Message.Timestamp x < Message.Timestamp u)%Z) ->
  (Message.Timestamp u <= Message.Timestamp m)%Z ->
  let selected :=
    limit 2 (order_by store.newer_first
               (filter (store.of_chat chatID) (rows ++ [u; m]))) in
  (1 <=? List.length selected)%nat = true
  /\ core.first_user_content selected = Message.Content u.
Proof.
intros Cu Cm Su Sm Old Later. cbv zeta.
assert (Sel : limit 2 (order_by store.newer_first
                         (filter (store.of_chat chatID) (rows ++ [u; m])))
              = if (Message.Timestamp m <=? Message.Timestamp u)%Z
                then [u; m] else [m; u]).
{ rewrite filter_app. cbn [filter]. unfold store.of_chat at 2 3.
  rewrite Cu, Cm, String.eqb_refl.
  destruct (@order_by_older (filter (store.of_chat chatID) rows) [u; m])
    as [rest E].
  { apply Forall_forall. intros x Hx. apply filter_In in Hx.
    destruct Hx as [Hx Cx]. apply String.eqb_eq in Cx.
    specialize (Old x Hx Cx). repeat constructor; lia. }
  rewrite E. unfold limit. cbn [Z.ltb Z.compare Z.to_nat Pos.to_nat
    Pos.iter_op Nat.add order_by fold_right insert_by].
  unfold store.newer_first.
  now destruct (Message.Timestamp m <=? Message.Timestamp u)%Z. }
rewrite Sel.
destruct (Message.Timestamp m <=? Message.Timestamp u)%Z;
  (split; [reflexivity|]); unfold core.first_user_content; cbn [find].
- rewrite Su. reflexivity.
- rewrite Sm. cbn. rewrite Su. reflexivity.
Qed.

(** X11. A turn of [PostMessage] starts at most one goroutine, for the
    chat and the user of the turn and on a basis that is not empty,
    and none when the chat has a title. When the chat has none, the
    content is not empty, the driver executes every statement, the
    user message is newer than the messages of the chat and the reply
    is not older than the user message, the goroutine is started on
    the content of the user message. *)
Theorem PostMessage_title_goroutine (w : World) (sorter : sort.Sorter)
  (s : core.RAGService) (chatID : string) (userID : Z) (userContent : string)
  (st : State) :
  let st' := snd (core.PostMessage w s chatID userID userContent st) in
  (goroutines st' = goroutines st
   \/ exists basis,
        basis <> ""
        /\ goroutines st'
           = (goroutines st
                ++ [generateAndSaveChatTitle chatID userID basis])%list)
  /\ (forall chat,
        find (store.chat_row chatID userID) (chats st) = Some chat ->
        core.untitled chat = false ->
        goroutines st' = goroutines st)
  /\ (forall chat,
        find (store.chat_row chatID userID) (chats st) = Some chat ->
        core.untitled chat = true ->
        userContent <> "" ->
        (forall n, sql_fails w n = None) ->
        (forall x, In x (messages st) -> Message.ChatID x = chatID ->
                   (Message.Timestamp x < Now w (clock_count st))%Z) ->
        (Now w (clock_count st) <= Now w (S (clock_count st)))%Z ->
        goroutines st'
        = (goroutines st
             ++ [generateAndSaveChatTitle chatID userID userContent])%list).
Proof.
cbv zeta.
assert (G := PostMessage_goroutines w sorter s chatID userID userContent st).
cbv zeta in G. split; [|split].
- destruct G as [G|(_ & G)]; [now left | now right].
- intros chat F U. destruct G as [G|((chat' & F' & U') & _)]; [exact G|].
  congruence.
- intros chat F U NE Healthy Old Later.
  rewrite chatFacts.PostMessage_run with (chat := chat)
    by (try exact F; apply Healthy).
  cbv zeta.
  destruct (GenerateResponse_frame w sorter s chatID userID userContent
              (chatFacts.accepted w st chatID userContent))
    as (T & Go & Cl & _).
  cbv zeta in T, Go, Cl.
  set (g := core.GenerateResponse w s chatID userID userContent
              (chatFacts.accepted w st chatID userContent)) in *.
  rewrite !Healthy. cbn [snd].
  set (reply := chatFacts.stamped w (snd g)
                  (core.new_message chatID "model"
                     (chatFacts.model_content (fst g)))).
  assert (M : messages (snd g)
              = (messages st
                   ++ [chatFacts.inbound w st chatID userContent])%list).
  { unfold tables in T. injection T as _ T _. exact T. }
  unfold core.title_if_missing. rewrite U. unfold bind.
  rewrite storeFacts.GetLastNMessagesByChatID_run, Healthy.
  cbn [messages set_messages fst snd]. rewrite M, <- app_assoc.
  cbn [app].
  destruct (@first_user_content_turn chatID (messages st)
              (chatFacts.inbound w st chatID userContent) reply)
    as [L C]; try reflexivity.
  { exact Old. }
  { unfold reply, chatFacts.stamped. cbn [Message.Timestamp
      Message.with_ID_Timestamp chatFacts.inbound]. rewrite Cl. exact Later. }
  cbv zeta in L, C. rewrite L, C.
  cbn [Message.Content chatFacts.inbound chatFacts.stamped
       Message.with_ID_Timestamp core.new_message].
  destruct (userContent =? "") eqn:E;
    [apply String.eqb_eq in E; now elim NE|].
  cbn [negb]. unfold go, modify. cbn [snd goroutines set_goroutines].
  cbn [goroutines set_messages set_sql_count chatFacts.ticked
       set_clock_count set_uuid_count]. now rewrite Go.
Qed.

Lemma PostMessage_title_goroutine_witness :
  goroutines
    (snd (core.PostMessage Examples.offline (sorter := sort.toolchain)
            {| core.dataChunks := [] |} "c1" 8 "And sheep?"
            (set_clock_count 5 chatStoreFacts.her_chat)))
  = [generateAndSaveChatTitle "c1" 8 "And sheep?"].
Proof.
destruct (@PostMessage_title_goroutine Examples.offline sort.toolchain
            {| core.dataChunks := [] |} "c1" 8 "And sheep?"
            (set_clock_count 5 chatStoreFacts.her_chat)) as (_ & _ & A).
apply (A chatStoreFacts.hers); try reflexivity.
- discriminate.
- intros x [<-|[<-|[]]] _; cbn; lia.
- cbn. lia.
Defined.

(** *** A chat created with its first message *)

(** The chat that [CreateChat] makes in [st], and the state once it is
    stored. *)
Definition created (w : World) (userID : Z) (st : State) : Chat.t :=
  {| Chat.ID := NewString w (uuid_count st); Chat.UserID := userID;
     Chat.Title := None; Chat.CreatedAt := Now w (clock_count st) |}.

Definition opened (w : World) (userID : Z) (st : State) : State :=
  set_chats (chats st ++ [created w userID st]) (chatFacts.ticked 2 st).

(** The first message as it is stored, and the state in which the
    reply is generated. *)
Definition first_message (w : World) (userID : Z) (content : string)
  (st : State) : Message.t :=
  chatFacts.stamped w (opened w userID st)
    (core.new_message (Chat.ID (created w userID st)) "user" content).

Definition asked (w : World) (userID : Z) (content : string) (st : State)
  : State :=
  set_messages (messages st ++ [first_message w userID content st])
    (chatFacts.ticked 2 (opened w userID st)).

Lemma CreateChat_asked (w : World) (sorter : sort.Sorter)
  (s : core.RAGService) (userID : Z) (content : string) (st : State) :
  content <> "" ->
  sql_fails w (sql_count st) = None ->
  sql_fails w (1 + sql_count st) = None ->
  sql_fails w (2 + sql_count st) = None ->
  sql_fails w (3 + sql_count st) = None ->
  core.CreateChat w s userID (Some content) st
  = let chat := created w userID st in
    let first := first_message w userID content st in
    let g := core.GenerateResponse w s (Chat.ID chat) userID content
               (asked w userID content st) in
    let modelContent :=
      match snd (fst g) with
      | Some _ => core.fallbackCreateChat
      | None => fst (fst g)
      end in
    let reply :=
      chatFacts.stamped w (snd g)
        (core.new_message (Chat.ID chat) "model" modelContent) in
    let c := store.CreateMessage w
               (core.new_message (Chat.ID chat) "model" modelContent)
               (snd g) in
    ((Some chat,
      match snd (fst c) with
      | Some _ => [first]
      | None => [first; reply]
      end, None),
     set_goroutines
       (goroutines (snd c)
          ++ [generateAndSaveChatTitle (Chat.ID chat) userID content])
       (snd c)).
Proof.
intros NE S0 S1 S2 S3. cbv zeta.
unfold core.CreateChat. unfold bind at 1.
rewrite chatStoreFacts.CreateChat_run by assumption. cbv zeta.
fold (created w userID st). fold (opened w userID st).
destruct (content =? "") eqn:E; [apply String.eqb_eq in E; now elim NE|].
cbn [negb]. unfold bind at 1. rewrite chatFacts.CreateMessage_run.
change (sql_count (opened w userID st)) with (2 + sql_count st)%nat.
rewrite S2. change (1 + (2 + sql_count st))%nat with (3 + sql_count st)%nat.
rewrite S3. fold (first_message w userID content st).
change (messages (opened w userID st)) with (messages st).
fold (asked w userID content st).
change (Message.Content (first_message w userID content st)) with content.
cbn [app]. unfold bind at 1.
destruct (core.GenerateResponse w s (Chat.ID (created w userID st)) userID
            content (asked w userID content st))
  as [[modelContent err] st3].
cbn [fst snd]. unfold bind at 1.
set (mc := match err with
           | Some _ => core.fallbackCreateChat
           | None => modelContent
           end).
rewrite chatFacts.CreateMessage_run.
unfold bind, go, modify, pure.
destruct (sql_fails w (sql_count st3)); [reflexivity|].
destruct (sql_fails w (1 + sql_count st3)); reflexivity.
Qed.

(** X12. With a first message that is not empty and a database that
    executes every statement, [CreateChat] returns the new chat and
    two messages, the user's and the model's, which are the two it
    appends to the message table, and starts the title goroutine on
    the first message. The reply is what [GenerateResponse] returns
    for the first message and, when that fails, the text
    "I encountered an issue trying to respond. Please try again.". *)
Theorem CreateChat_first_exchange (w : World) (sorter : sort.Sorter)
  (s : core.RAGService) (userID : Z) (content : string) (st : State) :
  content <> "" ->
  (forall n, sql_fails w n = None) ->
  let r := core.CreateChat w s userID (Some content) st in
  let chat := created w userID st in
  let first := first_message w userID content st in
  let g := core.GenerateResponse w s (Chat.ID chat) userID content
             (asked w userID content st) in
  exists reply,
    fst r = (Some chat, [first; reply], None)
    /\ chats (snd r) = (chats st ++ [chat])%list
    /\ messages (snd r) = (messages st ++ [first; reply])%list
    /\ goroutines (snd r)
       = (goroutines st
            ++ [generateAndSaveChatTitle (Chat.ID chat) userID content])%list
    /\ (Message.ChatID first, Message.Sender first, Message.Content first)
       = (Chat.ID chat, "user", content)
    /\ (Message.ChatID reply, Message.Sender reply) = (Chat.ID chat, "model")
    /\ Message.Content reply
       = match snd (fst g) with
         | Some _ => core.fallbackCreateChat
         | None => fst (fst g)
         end.
Proof.
intros NE Healthy. cbv zeta.
rewrite CreateChat_asked by (try exact NE; apply Healthy). cbv zeta.
destruct (GenerateResponse_frame w sorter s (Chat.ID (created w userID st))
            userID content (asked w userID content st))
  as (T & Go & _).
cbv zeta in T, Go.
set (g := core.GenerateResponse w s (Chat.ID (created w userID st)) userID
            content (asked w userID content st)) in *.
rewrite chatFacts.CreateMessage_run, !Healthy. cbn [fst snd].
eexists. split; [reflexivity|].
unfold tables in T. injection T as Tc Tm _.
cbn [chats messages goroutines set_goroutines set_messages
     chatFacts.ticked set_sql_count set_clock_count set_uuid_count].
rewrite Tc, Tm, Go. cbn [chats messages goroutines asked opened
  set_messages set_chats chatFacts.ticked set_sql_count set_clock_count
  set_uuid_count].
split; [reflexivity|]. split; [now rewrite <- app_assoc|].
repeat split.
Qed.

Lemma CreateChat_first_exchange_witness :
  let r := core.CreateChat Examples.offline (sorter := sort.toolchain)
             {| core.dataChunks := [] |} 8 (Some "How many?") Examples.empty
  in
  map Message.Content (snd (fst (fst r)))
  = ["How many?"; core.fallbackCreateChat]
  /\ goroutines (snd r) = [generateAndSaveChatTitle "uuid-00" 8 "How many?"].
Proof.
destruct (@CreateChat_first_exchange Examples.offline sort.toolchain
            {| core.dataChunks := [] |} 8 "How many?" Examples.empty)
  as (reply & A & _ & _ & B & _ & _ & C);
  [discriminate | reflexivity |].
cbv zeta. rewrite A, B. cbn [fst snd map]. rewrite C.
split; reflexivity.
Defined.

(** X13. When the chat is stored and the first message cannot be,
    [CreateChat] still succeeds: it returns the chat with no message
    and no error, stores no message, calls no gateway and starts no
    goroutine. *)
Theorem CreateChat_first_message_lost (w : World) (sorter : sort.Sorter)
  (s : core.RAGService) (userID : Z) (content : string) (st : State)
  (e : error) :
  sql_fails w (sql_count st) = None ->
  sql_fails w (1 + sql_count st) = None ->
  sql_fails w (2 + sql_count st) = Some e
  \/ (sql_fails w (2 + sql_count st) = None
      /\ sql_fails w (3 + sql_count st) = Some e) ->
  let r := core.CreateChat w s userID (Some content) st in
  fst r = (Some (created w userID st), [], None)
  /\ chats (snd r) = (chats st ++ [created w userID st])%list
  /\ messages (snd r) = messages st
  /\ gateway_calls (snd r) = gateway_calls st
  /\ goroutines (snd r) = goroutines st.
Proof.
intros S0 S1 Lost. cbv zeta.
assert (R : exists st',
          core.CreateChat w s userID (Some content) st
          = ((Some (created w userID st), [], None), st')
          /\ chats st' = (chats st ++ [created w userID st])%list
          /\ messages st' = messages st
          /\ gateway_calls st' = gateway_calls st
          /\ goroutines st' = goroutines st).
{ unfold core.CreateChat. unfold bind at 1.
  rewrite chatStoreFacts.CreateChat_run by assumption. cbv zeta.
  fold (created w userID st). fold (opened w userID st).
  destruct (content =? ""); cbn [negb];
    [eexists; split; [reflexivity | repeat split]|].
  unfold bind at 1. rewrite chatFacts.CreateMessage_run.
  change (sql_count (opened w userID st)) with (2 + sql_count st)%nat.
  change (1 + (2 + sql_count st))%nat with (3 + sql_count st)%nat.
  destruct Lost as [S2|[S2 S3]]; rewrite S2; [|rewrite S3];
    (eexists; split; [reflexivity | repeat split]). }
destruct R as (st' & R & C & M & G & Go). rewrite R. cbn [fst snd].
repeat split; assumption.
Qed.

Lemma CreateChat_first_message_lost_witness :
  let w :=
    {| sql_fails := fun n => if (n =? 3)%nat then Some (External 5) else None;
       EmbedContent := EmbedContent Examples.offline;
       SendMessage := SendMessage Examples.offline;
       GenerateContent := GenerateContent Examples.offline;
       ReadFile := ReadFile Examples.offline;
       NewString := NewString Examples.offline;
       Now := Now Examples.offline |} in
  let r := core.CreateChat w (sorter := sort.toolchain)
             {| core.dataChunks := [] |} 8 (Some "How many?") Examples.empty
  in
  snd (fst r) = None /\ snd (fst (fst r)) = [] /\ messages (snd r) = [].
Proof.
cbv zeta.
destruct (@CreateChat_first_message_lost
            {| sql_fails :=
                 fun n => if (n =? 3)%nat then Some (External 5) else None;
               EmbedContent := EmbedContent Examples.offline;
               SendMessage := SendMessage Examples.offline;
               GenerateContent := GenerateContent Examples.offline;
               ReadFile := ReadFile Examples.offline;
               NewString := NewString Examples.offline;
               Now := Now Examples.offline |}
            sort.toolchain {| core.dataChunks := [] |} 8 "How many?"
            Examples.empty (External 5)) as (A & _ & B & _);
  [reflexivity | reflexivity | right; split; reflexivity |].
rewrite A, B. repeat split.
Defined.

(** *** A turn whose messages cannot be stored *)

(** X26. A turn of [PostMessage] on a chat the user owns, whose lookup
    succeeds.  If the user message cannot be stored (its statement cannot
    be prepared or executed) the turn fails with "failed to store user
    message", and no table, gateway call or goroutine is touched.  If the
    user message is stored but the model message cannot be, the turn fails
    with "failed to store model message": the user message stays in the
    table, one completion has been asked of the gateway, and no title
    goroutine is started. *)
Theorem PostMessage_store_failures (w : World) (sorter : sort.Sorter)
  (s : core.RAGService) (chatID : string) (userID : Z) (userContent : string)
  (st : State) (chat : Chat.t) (e : error) :
  find (store.chat_row chatID userID) (chats st) = Some chat ->
  sql_fails w (sql_count st) = None ->
  let r := core.PostMessage w s chatID userID userContent st in
  (sql_fails w (1 + sql_count st) = Some e
   \/ (sql_fails w (1 + sql_count st) = None
       /\ sql_fails w (2 + sql_count st) = Some e) ->
   (exists cause,
      fst r = (None, Some (Wrapf "failed to store user message" cause)))
   /\ tables (snd r) = tables st
   /\ gateway_calls (snd r) = gateway_calls st
   /\ goroutines (snd r) = goroutines st)
  /\ (sql_fails w (1 + sql_count st) = None ->
      sql_fails w (2 + sql_count st) = None ->
      sql_fails w (4 + sql_count st) = Some e
      \/ (sql_fails w (4 + sql_count st) = None
          /\ sql_fails w (5 + sql_count st) = Some e) ->
      (exists cause,
         fst r = (None, Some (Wrapf "failed to store model message" cause)))
      /\ messages (snd r)
         = (messages st ++ [chatFacts.inbound w st chatID userContent])%list
      /\ List.length (chatFacts.prompts (gateway_calls (snd r)))
         = S (List.length (chatFacts.prompts (gateway_calls st)))
      /\ goroutines (snd r) = goroutines st).
Proof.
intros F S0. cbv zeta. split.
- intros Lost.
  assert (R : exists cause st',
            core.PostMessage w s chatID userID userContent st
            = ((None, Some (Wrapf "failed to store user message" cause)), st')
            /\ tables st' = tables st
            /\ gateway_calls st' = gateway_calls st
            /\ goroutines st' = goroutines st).
  { unfold core.PostMessage. unfold bind at 1.
    rewrite chatFacts.GetChatByID_run, S0, F.
    unfold bind at 1. rewrite chatFacts.CreateMessage_run.
    cbn [sql_count set_sql_count].
    change (S (sql_count st)) with (1 + sql_count st)%nat.
    change (1 + (1 + sql_count st))%nat with (2 + sql_count st)%nat.
    destruct Lost as [S1|[S1 S2]]; rewrite S1; [|rewrite S2];
      (eexists; eexists; split; [reflexivity | repeat split]). }
  destruct R as (cause & st' & R & T & G & Go). rewrite R. cbn [fst snd].
  split; [now exists cause|]. repeat split; assumption.
- intros S1 S2 Lost.
  rewrite chatFacts.PostMessage_run with (chat := chat) by assumption.
  cbv zeta.
  destruct (GenerateResponse_frame w sorter s chatID userID userContent
              (chatFacts.accepted w st chatID userContent))
    as (T & Go & _ & _ & Sq).
  destruct (chatFacts.GenerateResponse_effect w sorter s chatID userID
              userContent (chatFacts.accepted w st chatID userContent))
    as (calls & ctx & Emb & E & _).
  cbv zeta in T, Go, Sq, E.
  set (g := core.GenerateResponse w s chatID userID userContent
              (chatFacts.accepted w st chatID userContent)) in *.
  assert (Sq' : sql_count (snd g) = (4 + sql_count st)%nat)
    by (rewrite Sq; reflexivity).
  assert (M : messages (snd g)
              = (messages st
                   ++ [chatFacts.inbound w st chatID userContent])%list).
  { unfold tables in T. injection T as _ T _. exact T. }
  assert (P : List.length (chatFacts.prompts (gateway_calls (snd g)))
              = S (List.length (chatFacts.prompts (gateway_calls st)))).
  { rewrite E. cbn [gateway_calls set_gateway_calls set_sql_count
      chatFacts.accepted set_messages set_clock_count set_uuid_count].
    rewrite !chatFacts.prompts_app, (chatFacts.prompts_embed Emb).
    cbn [app chatFacts.prompts flat_map]. rewrite length_app. cbn. lia. }
  rewrite Sq'. change (1 + (4 + sql_count st))%nat
    with (5 + sql_count st)%nat.
  destruct Lost as [S4|[S4 S5]]; rewrite S4; [|rewrite S5];
    cbn [fst snd messages gateway_calls goroutines chatFacts.ticked
         set_sql_count set_clock_count set_uuid_count];
    (split; [eexists; reflexivity|]);
    (split; [exact M|]); (split; [exact P | exact Go]).
Qed.

(** A database that refuses the statement numbered [n]. *)
Definition refusing_at (n : nat) : World :=
  {| sql_fails := fun k => if (k =? n)%nat then Some (External 5) else None;
     EmbedContent := EmbedContent Examples.offline;
     SendMessage := SendMessage Examples.offline;
     GenerateContent := GenerateContent Examples.offline;
     ReadFile := ReadFile Examples.offline;
     NewString := NewString Examples.offline;
     Now := Now Examples.offline |}.

Lemma PostMessage_store_failures_witness :
  let r := core.PostMessage (refusing_at 4) (sorter := sort.toolchain)
             {| core.dataChunks := [] |} "c1" 8 "And sheep?"
             chatStoreFacts.her_chat in
  snd (fst r) <> None
  /\ map Message.Content (messages (snd r))
     = ["How many?"; "Forty-two."; "And sheep?"].
Proof.
destruct (@PostMessage_store_failures (refusing_at 4) sort.toolchain
            {| core.dataChunks := [] |} "c1" 8 "And sheep?"
            chatStoreFacts.her_chat chatStoreFacts.hers (External 5))
  as [_ A]; [reflexivity | reflexivity |].
destruct A as ((cause & A) & B & _);
  [reflexivity | reflexivity | left; reflexivity |].
cbv zeta. rewrite A, B. split; [discriminate | reflexivity].
Defined.

End turnFacts.

(* ================================================================= *)
(** ** The handlers *)

Module apiFacts.

(** *** The errors that the services return *)

(** An error that wraps a cause under a text starting with
    ["failed to "]. *)
Definition failure (e : error) : Prop :=
  exists msg cause, e = Wrapf ("failed to " ++ msg) cause.

Lemma failure_text (describe : nat -> string) (e : error) (c : ascii)
  (text : string) :
  failure e -> c <> "f"%char -> (api.Error describe e =? String c text) = false.
Proof.
intros (msg & cause & ->) C. cbn [api.Error].
change ("failed to " ++ msg) with (String "f" ("ailed to " ++ msg)).
cbn [append String.eqb].
destruct (Ascii.eqb_spec "f"%char c) as [E|E]; [now elim C | reflexivity].
Qed.

Lemma PostMessage_errors (w : World) (sorter : sort.Sorter)
  (h : core.RAGService) (chatID : string) (userID : Z) (userContent : string)
  (st : State) :
  match snd (fst (core.PostMessage w h chatID userID userContent st)) with
  | Some e => e = core.ErrChatNotFound \/ failure e
  | None => True
  end.
Proof.
unfold core.PostMessage. unfold bind at 1.
destruct (store.GetChatByID w chatID userID st) as [[chat err] st1].
destruct err as [e|].
{ destruct chat; cbn; right; now exists "verify chat", e. }
destruct chat as [chat|]; [|cbn; now left].
unfold bind at 1.
destruct (store.CreateMessage w _ st1) as [[userMsg err] st2].
destruct err as [e|]; [cbn; right; now exists "store user message", e|].
unfold bind at 1.
destruct (core.GenerateResponse w h chatID userID userContent st2)
  as [[modelContent err] st3].
unfold bind at 1.
destruct (store.CreateMessage w _ st3) as [[modelMessage err2] st4].
destruct err2 as [e|]; [cbn; right; now exists "store model message", e|].
unfold bind, pure.
destruct (core.title_if_missing w chat chatID userID st4). exact I.
Qed.

(** X14. [PostMessageHandler] answers 400, without touching the state,
    to a body that does not decode and to an empty content. Otherwise
    it runs [PostMessage] and answers 200 with the model message when
    it succeeds, 404 "chat not found" when it fails with that error
    and 500 "Failed to post message" for every other error; so a chat
    that does not exist or belongs to another user, the lookup being
    executed, gets 404 and no write. *)
Theorem PostMessageHandler_status (w : World) (sorter : sort.Sorter)
  (describe : nat -> string) (h : core.RAGService)
  (r : api.Request api.PostMessageRequest) (st : State) :
  let out := api.PostMessageHandler w describe h r st in
  match api.Decode r with
  | Failed _ => api.Code (fst out) = api.StatusBadRequest /\ snd out = st
  | Returned req =>
      if api.Content req =? ""
      then out = (api.http_Error "Message content cannot be empty"
                    api.StatusBadRequest, st)
      else
        let p := core.PostMessage w h (api.URLParam r) (api.Context_userID r)
                   (api.Content req) st in
        snd out = snd p
        /\ match snd (fst p) with
           | None =>
               fst out = {| api.Code := api.StatusOK;
                            api.Body := api.ModelMessage (fst (fst p)) |}
           | Some e =>
               (e = core.ErrChatNotFound ->
                fst out = api.http_Error "chat not found" api.StatusNotFound)
               /\ (e <> core.ErrChatNotFound ->
                   fst out = api.http_Error "Failed to post message"
                               api.StatusInternalServerError)
           end
        /\ (chatFacts.not_owned st (api.URLParam r) (api.Context_userID r) ->
            sql_fails w (sql_count st) = None ->
            fst out = api.http_Error "chat not found" api.StatusNotFound
            /\ tables (snd out) = tables st)
  end.
Proof.
cbv zeta. unfold api.PostMessageHandler.
destruct (api.Decode r) as [e|req]; [split; reflexivity|].
destruct (api.Content req =? ""); [reflexivity|].
unfold bind.
assert (E := PostMessage_errors w sorter h (api.URLParam r)
               (api.Context_userID r) (api.Content req) st).
assert (N : chatFacts.not_owned st (api.URLParam r) (api.Context_userID r) ->
            sql_fails w (sql_count st) = None ->
            core.PostMessage w h (api.URLParam r) (api.Context_userID r)
              (api.Content req) st
            = ((None, Some core.ErrChatNotFound),
               set_sql_count (S (sql_count st)) st)).
{ intros N S0. apply chatFacts.not_owned_find in N.
  unfold core.PostMessage, bind. rewrite chatFacts.GetChatByID_run, S0, N.
  reflexivity. }
destruct (core.PostMessage w h (api.URLParam r) (api.Context_userID r)
            (api.Content req) st) as [[msg [e|]] st1]; cbn [fst snd] in *.
- split; [|split].
  + now destruct (api.Error describe e =? "chat not found").
  + destruct E as [->|F].
    * split; [reflexivity | intros H; now elim H].
    * rewrite (@failure_text describe e "c" "hat not found" F)
        by discriminate.
      split; [|reflexivity].
      intros ->. destruct F as (m & c & F). discriminate.
  + intros H S0. specialize (N H S0). inversion N. subst. split; reflexivity.
- split; [reflexivity|]. split; [reflexivity|].
  intros H S0. specialize (N H S0). discriminate.
Qed.

(** A request of user [userID] on the route parameter [param]. *)
Definition request (A : Type) (userID : Z) (param : string) (body : A)
  : api.Request A :=
  {| api.Context_userID := userID; api.URLParam := param;
     api.NoBody := false; api.Decode := Returned body |}.

Definition silent : nat -> string := fun _ => "".

Lemma PostMessageHandler_status_witness :
  let out :=
    api.PostMessageHandler Examples.offline (sorter := sort.toolchain) silent
      {| core.dataChunks := [] |}
      (request 7 "c1" {| api.Content := "Hi" |}) chatStoreFacts.her_chat in
  fst out = api.http_Error "chat not found" api.StatusNotFound
  /\ tables (snd out) = tables chatStoreFacts.her_chat.
Proof.
destruct (@PostMessageHandler_status Examples.offline sort.toolchain silent
            {| core.dataChunks := [] |}
            (request 7 "c1" {| api.Content := "Hi" |})
            chatStoreFacts.her_chat) as (_ & _ & A).
apply A; [|reflexivity].
intros c [<-|[]] _. cbn. lia.
Defined.

(** *** Feedback *)

Lemma SetMessageFeedback_errors (w : World) (messageID : string)
  (userID : Z) (negative : bool) (st : State) :
  match fst (core.SetMessageFeedback w messageID userID negative st) with
  | Some e => e = chatStoreFacts.NoSuchMessage \/ failure e
  | None => True
  end.
Proof.
unfold core.SetMessageFeedback.
rewrite chatStoreFacts.UpdateMessageFeedback_run.
destruct (sql_fails w (sql_count st)) as [e|];
  [right; now exists "prepare feedback update", e|].
destruct (sql_fails w (1 + sql_count st)) as [e|];
  [right; now exists "execute feedback update", e|].
cbn [fst]. destruct (_ =? 0)%nat; [now left | exact I].
Qed.

(** X15. [MessageFeedbackHandler] never answers 404: the text with which
    it compares the error is not one that the service returns. The
    identity of the user plays no part in its answer. When the body
    decodes and the driver executes the statements, an identifier that
    no message has gets 500 "Failed to set feedback" and no write, and
    an identifier that a message has gets 204 and the flag set. *)
Theorem MessageFeedbackHandler_never_not_found (w : World)
  (describe : nat -> string) (r : api.Request api.FeedbackRequest)
  (st : State) :
  let out := api.MessageFeedbackHandler w describe r st in
  api.Code (fst out) <> api.StatusNotFound
  /\ (forall userID,
        api.MessageFeedbackHandler w describe
          {| api.Context_userID := userID; api.URLParam := api.URLParam r;
             api.NoBody := api.NoBody r; api.Decode := api.Decode r |} st
        = out)
  /\ (forall req,
        api.Decode r = Returned req ->
        sql_fails w (sql_count st) = None ->
        sql_fails w (1 + sql_count st) = None ->
        ((forall m, In m (messages st) -> Message.ID m <> api.URLParam r) ->
         fst out = api.http_Error "Failed to set feedback"
                     api.StatusInternalServerError
         /\ tables (snd out) = tables st)
        /\ ((exists m, In m (messages st) /\ Message.ID m = api.URLParam r) ->
            fst out = {| api.Code := api.StatusNoContent;
                         api.Body := api.Nothing |}
            /\ messages (snd out)
               = map (store.with_NegativeFeedback (api.URLParam r)
                        (api.Negative req)) (messages st))).
Proof.
cbv zeta. split; [|split; [reflexivity|]].
- unfold api.MessageFeedbackHandler.
  destruct (api.Decode r) as [e|req]; [discriminate|].
  unfold bind.
  assert (E := SetMessageFeedback_errors w (api.URLParam r)
                 (api.Context_userID r) (api.Negative req) st).
  destruct (core.SetMessageFeedback w (api.URLParam r) (api.Context_userID r)
              (api.Negative req) st) as [[e|] st1]; cbn [fst] in E;
    [|discriminate].
  destruct E as [->|F]; [discriminate|].
  rewrite (@failure_text describe e "m" "essage not found for feedback" F)
    by discriminate.
  discriminate.
- intros req D S0 S1. unfold api.MessageFeedbackHandler. rewrite D.
  unfold bind, core.SetMessageFeedback.
  rewrite chatStoreFacts.UpdateMessageFeedback_run, S0, S1.
  split.
  + intros Missing.
    assert (L : filter (store.message_row (api.URLParam r)) (messages st)
                = []).
    { destruct (filter _ _) as [|m l] eqn:F; [reflexivity|]. exfalso.
      assert (In m (filter (store.message_row (api.URLParam r))
                      (messages st))) as H by (rewrite F; now left).
      apply filter_In in H. destruct H as [H E].
      apply String.eqb_eq in E. now apply (Missing m H). }
    rewrite L. cbn [List.length Nat.eqb fst snd].
    split; [reflexivity|].
    rewrite (chatStoreFacts.map_unselected _ _ (messages st)
               (chatStoreFacts.with_NegativeFeedback_other (api.URLParam r)
                  (api.Negative req)) L).
    reflexivity.
  + intros (m & Hm & E).
    assert (L : (List.length
                   (filter (store.message_row (api.URLParam r))
                      (messages st)) =? 0)%nat = false).
    { destruct (filter _ _) as [|m' l] eqn:F; [|reflexivity]. exfalso.
      assert (In m (filter (store.message_row (api.URLParam r))
                      (messages st))) as H.
      { apply filter_In. split; [exact Hm|]. now apply String.eqb_eq. }
      rewrite F in H. destruct H. }
    rewrite L. split; reflexivity.
Qed.

Lemma MessageFeedbackHandler_never_not_found_witness :
  (let out :=
     api.MessageFeedbackHandler Examples.offline silent
       (request 7 "m9" {| api.Negative := true |}) chatStoreFacts.her_chat in
   fst out = api.http_Error "Failed to set feedback"
               api.StatusInternalServerError)
  /\ (let out :=
        api.MessageFeedbackHandler Examples.offline silent
          (request 7 "m2" {| api.Negative := true |})
          chatStoreFacts.her_chat in
      api.Code (fst out) = api.StatusNoContent
      /\ map Message.NegativeFeedback (messages (snd out)) = [false; true]).
Proof.
split.
- destruct (@MessageFeedbackHandler_never_not_found Examples.offline silent
              (request 7 "m9" {| api.Negative := true |})
              chatStoreFacts.her_chat) as (_ & _ & A).
  destruct (A {| api.Negative := true |} eq_refl eq_refl eq_refl)
    as [[B _] _]; [|exact B].
  intros m [<-|[<-|[]]]; discriminate.
- destruct (@MessageFeedbackHandler_never_not_found Examples.offline silent
              (request 7 "m2" {| api.Negative := true |})
              chatStoreFacts.her_chat) as (_ & _ & A).
  destruct (A {| api.Negative := true |} eq_refl eq_refl eq_refl)
    as [_ B].
  destruct B as [B C];
    [exists chatStoreFacts.answer; split; [right; now left | reflexivity]|].
  cbv zeta. rewrite B, C. split; reflexivity.
Defined.

(** *** The details of a chat *)

(** X16. [GetChatDetailsHandler] writes to no table. A response that
    carries details has status 200 and carries a chat of the calling
    user with the identifier asked for, and messages of that chat
    only. For a chat that does not exist or belongs to another user
    the status is 404 or 500, and the answer is 404 "Chat not found"
    when the lookup is executed. *)
Theorem GetChatDetailsHandler_owner_only (w : World) (A : Type)
  (r : api.Request A) (st : State) :
  let out := api.GetChatDetailsHandler w r st in
  let chatID := api.URLParam r in
  let userID := api.Context_userID r in
  tables (snd out) = tables st
  /\ (forall chat page,
        api.Body (fst out) = api.GetChatDetailsResponse chat page ->
        api.Code (fst out) = api.StatusOK
        /\ (exists c, chat = Some c /\ In c (chats st)
                      /\ Chat.ID c = chatID /\ Chat.UserID c = userID)
        /\ forall m, In m page ->
             In m (messages st) /\ Message.ChatID m = chatID)
  /\ (chatFacts.not_owned st chatID userID ->
      (api.Code (fst out) = api.StatusNotFound
       \/ api.Code (fst out) = api.StatusInternalServerError)
      /\ (sql_fails w (sql_count st) = None ->
          fst out = api.http_Error "Chat not found" api.StatusNotFound)).
Proof.
cbv zeta. unfold api.GetChatDetailsHandler, bind.
rewrite chatStoreFacts.GetChatDetails_run.
destruct (sql_fails w (sql_count st)) as [e|].
{ cbn. split; [reflexivity|]. split; [discriminate|].
  intros _. split; [now right | discriminate]. }
destruct (find (store.chat_row (api.URLParam r) (api.Context_userID r))
            (chats st)) as [chat|] eqn:F.
2:{ cbn. split; [reflexivity|]. split; [discriminate|].
    intros _. split; [now left | reflexivity]. }
assert (Own : In chat (chats st) /\ Chat.ID chat = api.URLParam r
              /\ Chat.UserID chat = api.Context_userID r).
{ apply find_some in F. destruct F as [H E]. split; [exact H|].
  unfold store.chat_row in E. apply andb_prop in E. destruct E as [E1 E2].
  apply String.eqb_eq in E1. split; [exact E1 | lia]. }
assert (NotOwn : ~ chatFacts.not_owned st (api.URLParam r)
                     (api.Context_userID r)).
{ intros N. destruct Own as (H & E & U). now apply (N chat H E). }
destruct (sql_fails w (1 + sql_count st)) as [e|].
{ cbn. split; [reflexivity|]. split; [discriminate|].
  intros N. now elim NotOwn. }
remember (firstn 100
            (order_by store.older_first
               (filter (store.of_chat (api.URLParam r)) (messages st))))
  as shown eqn:Sh.
cbn [fst snd api.Body api.Code pure].
split; [reflexivity|]. split; [|intros N; now elim NotOwn].
intros chat' page E. injection E as <- <-. split; [reflexivity|].
split; [now exists chat|].
intros m Hm. rewrite Sh in Hm. apply storeFacts.firstn_In in Hm.
apply (Permutation_in m
         (Permutation_sym (storeFacts.order_by_Permutation _ _))) in Hm.
apply filter_In in Hm. destruct Hm as [Hm C]. split; [exact Hm|].
now apply String.eqb_eq.
Qed.

Lemma GetChatDetailsHandler_owner_only_witness :
  fst (api.GetChatDetailsHandler Examples.offline (request 7 "c1" tt)
         chatStoreFacts.her_chat)
  = api.http_Error "Chat not found" api.StatusNotFound.
Proof.
destruct (@GetChatDetailsHandler_owner_only Examples.offline unit
            (request 7 "c1" tt) chatStoreFacts.her_chat) as (_ & _ & A).
destruct A as [_ A]; [intros c [<-|[]] _; cbn; lia|].
now apply A.
Defined.

(** *** Creating a chat *)

(** X17. [CreateChatHandler] treats a request without body as one
    without first message: it stores no message, calls no gateway and
    starts no goroutine; it answers 201 with the new chat when the
    driver executes the two statements, and 500 "Failed to create
    chat", with no chat stored, when it does not. A body that does not
    decode gets 400 and nothing is done. *)
Theorem CreateChatHandler_without_body (w : World) (sorter : sort.Sorter)
  (describe : nat -> string) (h : core.RAGService)
  (r : api.Request api.CreateChatRequest) (st : State) :
  let out := api.CreateChatHandler w describe h r st in
  (api.NoBody r = true ->
   out = api.CreateChatHandler w describe h
           {| api.Context_userID := api.Context_userID r;
              api.URLParam := api.URLParam r; api.NoBody := false;
              api.Decode := Returned {| api.FirstMessage := None |} |} st
   /\ messages (snd out) = messages st
   /\ gateway_calls (snd out) = gateway_calls st
   /\ goroutines (snd out) = goroutines st
   /\ (sql_fails w (sql_count st) = None ->
       sql_fails w (1 + sql_count st) = None ->
       let chat := turnFacts.created w (api.Context_userID r) st in
       fst out = {| api.Code := api.StatusCreated;
                    api.Body := api.CreateChatResponse (Some chat) [] |}
       /\ chats (snd out) = (chats st ++ [chat])%list)
   /\ (sql_fails w (sql_count st) <> None
       \/ sql_fails w (1 + sql_count st) <> None ->
       fst out = api.http_Error "Failed to create chat"
                   api.StatusInternalServerError
       /\ chats (snd out) = chats st))
  /\ (api.NoBody r = false ->
      forall e, api.Decode r = Failed e ->
      out = (api.http_Error ("Invalid request body: " ++ api.Error describe e)
               api.StatusBadRequest, st)).
Proof.
cbv zeta. split.
- intros B. unfold api.CreateChatHandler. rewrite B. cbv zeta.
  cbn [api.NoBody api.Decode api.FirstMessage api.Context_userID].
  split; [reflexivity|].
  unfold bind, core.CreateChat, store.CreateChat, bind, uuid_NewString,
    time_Now, sql, modify, pure.
  cbn [fst snd sql_count set_uuid_count].
  destruct (sql_fails w (sql_count st)) as [e0|] eqn:S0.
  { cbn. repeat split; intros; try reflexivity; try discriminate;
      intuition congruence. }
  cbn [fst snd sql_count set_sql_count set_clock_count set_uuid_count].
  change (S (sql_count st)) with (1 + sql_count st)%nat.
  destruct (sql_fails w (1 + sql_count st)) as [e1|] eqn:S1.
  { cbn. repeat split; intros; try reflexivity; try discriminate;
      intuition congruence. }
  cbn. repeat split; intros; try reflexivity; intuition congruence.
- intros B e D. unfold api.CreateChatHandler. rewrite B, D. reflexivity.
Qed.

Lemma CreateChatHandler_without_body_witness :
  let out :=
    api.CreateChatHandler Examples.offline (sorter := sort.toolchain) silent
      {| core.dataChunks := [] |}
      {| api.Context_userID := 8; api.URLParam := ""; api.NoBody := true;
         api.Decode := Failed (External 1) |} Examples.empty in
  api.Code (fst out) = api.StatusCreated
  /\ List.length (chats (snd out)) = 1%nat.
Proof.
destruct (@CreateChatHandler_without_body Examples.offline sort.toolchain
            silent {| core.dataChunks := [] |}
            {| api.Context_userID := 8; api.URLParam := "";
               api.NoBody := true; api.Decode := Failed (External 1) |}
            Examples.empty) as [A _].
destruct (A eq_refl) as (_ & _ & _ & _ & B & _).
destruct (B eq_refl eq_refl) as [C D].
cbv zeta. rewrite C, D. split; reflexivity.
Defined.

End apiFacts.

(* ================================================================= *)
(** ** Retrieval and generation under failures *)

Module retrievalFacts.

(** *** Chunks that cannot be compared with the query *)

(** The chunk has an embedding, of the dimension of the query. *)
Definition usable (q : list float32) (c : DataChunk.t) : bool :=
  (negb (List.length (DataChunk.Embedding c) =? 0)%nat
   && (List.length (DataChunk.Embedding c) =? List.length q)%nat)%bool.

Lemma unusable_similarity (q : list float32) (c : DataChunk.t) :
  usable q c = false -> ragFacts.similarity_to q c = None.
Proof.
unfold usable, ragFacts.similarity_to, utils.CosineSimilarity,
  utils.dotProduct.
destruct (List.length (DataChunk.Embedding c) =? 0)%nat eqn:E0;
  [reflexivity|].
cbn [negb andb]. intros D.
destruct (List.length q =? 0)%nat; cbn [orb]; [reflexivity|].
rewrite Nat.eqb_sym, D. reflexivity.
Qed.

Lemma candidates_usable (q : list float32) (index : list DataChunk.t) :
  ragFacts.candidates q (filter (usable q) index)
  = ragFacts.candidates q index.
Proof.
unfold ragFacts.candidates.
induction index as [|c index IH]; [reflexivity|]. cbn [filter flat_map].
destruct (usable q c) eqn:U.
- cbn [flat_map]. now rewrite IH.
- rewrite (unusable_similarity _ _ U). exact IH.
Qed.

(** X18. Chunks without embedding, or with an embedding of another
    dimension than the query's, take no part in the retrieval: with a
    sort that keeps its contract, [GetRelevantContext] returns what it
    returns on the index without them, and every chunk that passes the
    threshold has an embedding of the dimension of the query. *)
Theorem GetRelevantContext_skips_unusable (w : World) (sorter : sort.Sorter)
  (C : sort.Contract sorter) (s : core.RAGService) (query : string)
  (st : State) (q : list float32) :
  fst (core.GetEmbedding w query st) = (q, None) ->
  let kept := filter (usable q) (core.dataChunks s) in
  ragFacts.relevant q (core.dataChunks s) = ragFacts.relevant q kept
  /\ fst (core.GetRelevantContext w s query st)
     = fst (core.GetRelevantContext w {| core.dataChunks := kept |} query st)
  /\ forall sc, In sc (ragFacts.relevant q (core.dataChunks s)) ->
       usable q (core.Chunk sc) = true.
Proof.
intros E. cbv zeta.
assert (R : ragFacts.relevant q (core.dataChunks s)
            = ragFacts.relevant q (filter (usable q) (core.dataChunks s))).
{ unfold ragFacts.relevant. now rewrite candidates_usable. }
split; [exact R|]. split.
- rewrite (@ragFacts.GetRelevantContext_embedded w sorter C s query st q E).
  rewrite (@ragFacts.GetRelevantContext_embedded w sorter C
             {| core.dataChunks := filter (usable q) (core.dataChunks s) |}
             query st q E).
  cbn [core.dataChunks]. now rewrite <- R.
- intros sc H. unfold ragFacts.relevant in H. apply filter_In in H.
  destruct H as [H _]. unfold ragFacts.candidates in H.
  apply in_flat_map in H. destruct H as (c & _ & H).
  destruct (usable q c) eqn:U.
  + destruct (ragFacts.similarity_to q c); [|destruct H].
    destruct H as [<-|[]]. exact U.
  + rewrite (unusable_similarity _ _ U) in H. destruct H.
Qed.

(** A chunk without embedding and a chunk of another dimension, around
    a chunk at cosine 0.9 of the query. *)
Definition mixed : list DataChunk.t :=
  [Examples.chunk 3 "No embedding" []; Examples.paris;
   Examples.chunk 4 "Three dimensions"
     [F32.of_Z 1; F32.zero; F32.zero]].

Lemma GetRelevantContext_skips_unusable_witness :
  fst (core.GetRelevantContext (Examples.embedding Examples.along_x)
         (sorter := sortFacts.insertion_sorter)
         {| core.dataChunks := mixed |} "capital?" Examples.empty)
  = ("Paris is the capital of France", None).
Proof.
destruct (@GetRelevantContext_skips_unusable
            (Examples.embedding Examples.along_x) sortFacts.insertion_sorter
            sortFacts.insertion_contract {| core.dataChunks := mixed |}
            "capital?" Examples.empty Examples.along_x eq_refl)
  as (_ & A & _).
rewrite A. vm_compute. reflexivity.
Defined.

(** *** What the reply does not depend on *)

(** The question as the last turn puts it when no context is found. *)
Definition bare_question (userQuery : string) : genai.Content :=
  {| genai.Role := "user";
     genai.Parts :=
       [genai.Text
          ("Based on our previous conversation (if any), and noting that I couldn't find specific GWI documents for your current question, please answer: "
           ++ userQuery)] |}.

Lemma completion_answer_text
  (r : outcome (option genai.GenerateContentResponse)) :
  match r with
  | Failed e =>
      chatFacts.completion_answer r
      = ("", Some (Wrapf "gemini chat SendMessage failed" e))
  | Returned _ =>
      snd (chatFacts.completion_answer r) = None
      /\ fst (chatFacts.completion_answer r) <> ""
  end.
Proof.
destruct r as [e|resp]; [reflexivity|]. unfold chatFacts.completion_answer.
destruct (chatFacts.first_parts resp) as [|part parts];
  [split; [reflexivity | discriminate]|].
destruct (chatFacts.text_of (part :: parts) =? "") eqn:E;
  (split; [reflexivity|]); [discriminate|].
cbn [fst]. intros H. rewrite H in E. discriminate.
Qed.

Lemma GetRelevantContext_calls (w : World) (sorter : sort.Sorter)
  (s : core.RAGService) (query : string) (st : State) :
  exists calls,
    (calls = [] \/ calls = [CallEmbedContent query])
    /\ snd (core.GetRelevantContext w s query st)
       = set_gateway_calls (gateway_calls st ++ calls) st.
Proof.
rewrite ragFacts.GetRelevantContext_eq.
destruct (List.length (core.dataChunks s) =? 0)%nat.
- exists []. split; [now left|].
  now rewrite chatFacts.set_gateway_calls_same.
- exists [CallEmbedContent query]. split; [now right|]. cbv zeta.
  now destruct (ragFacts.embedding_answer w _ query) as [q [e|]].
Qed.

(** X19. [GenerateResponse] changes no table; it calls the gateway for
    the embedding of the query at most once, then for the completion,
    on a prompt made of the history and the question. It fails exactly
    when the completion call fails, with the error of the call wrapped
    twice; otherwise its reply is not empty. *)
Theorem GenerateResponse_only_generation_fails (w : World)
  (sorter : sort.Sorter) (s : core.RAGService) (chatID : string)
  (userID : Z) (userQuery : string) (st : State) :
  let r := core.GenerateResponse w s chatID userID userQuery st in
  tables (snd r) = tables st
  /\ exists calls relevantContext,
       let turn := chatFacts.user_turn relevantContext userQuery in
       let prompt :=
         (map core.to_content (chatFacts.history_of w chatID st)
            ++ [turn])%list in
       (calls = [] \/ calls = [CallEmbedContent userQuery])
       /\ gateway_calls (snd r)
          = (gateway_calls st ++ calls
               ++ [CallSendMessage prompt (genai.Parts turn)])%list
       /\ match SendMessage w
                  (List.length (gateway_calls st) + List.length calls)
                  prompt (genai.Parts turn) with
          | Failed e =>
              fst r
              = ("", Some (Wrapf "failed to get LLM completion"
                             (Wrapf "gemini chat SendMessage failed" e)))
          | Returned _ => snd (fst r) = None /\ fst (fst r) <> ""
          end.
Proof.
cbv zeta. rewrite chatFacts.GenerateResponse_run. cbv zeta.
set (st1 := set_sql_count (S (sql_count st)) st).
destruct (GetRelevantContext_calls w sorter s userQuery st1)
  as (calls & Calls & E).
destruct (core.GetRelevantContext w s userQuery st1) as [[ctx err] st2].
cbn [fst snd] in *. subst st2.
set (relevantContext := match err with Some _ => "" | None => ctx end).
split; [reflexivity|]. exists calls, relevantContext. cbv zeta.
split; [exact Calls|].
cbn [gateway_calls set_gateway_calls st1 set_sql_count].
rewrite length_app, <- app_assoc. split; [reflexivity|].
assert (T := completion_answer_text
               (SendMessage w
                  (List.length (gateway_calls st) + List.length calls)
                  (map core.to_content (chatFacts.history_of w chatID st)
                     ++ [chatFacts.user_turn relevantContext userQuery])
                  (genai.Parts
                     (chatFacts.user_turn relevantContext userQuery)))).
destruct (SendMessage w _ _ _) as [e|resp].
- now rewrite T.
- destruct T as [T1 T2].
  destruct (chatFacts.completion_answer _) as [text [e|]];
    cbn [fst snd] in *; [discriminate | now split].
Qed.

Lemma GenerateResponse_only_generation_fails_witness :
  fst (core.GenerateResponse Examples.offline (sorter := sort.toolchain)
         {| core.dataChunks := [Examples.paris] |} "c1" 8 "How many?"
         chatStoreFacts.her_chat)
  = ("", Some (Wrapf "failed to get LLM completion"
                 (Wrapf "gemini chat SendMessage failed" (External 0)))).
Proof.
destruct (@GenerateResponse_only_generation_fails Examples.offline
            sort.toolchain {| core.dataChunks := [Examples.paris] |} "c1" 8
            "How many?" chatStoreFacts.her_chat)
  as (_ & calls & ctx & _ & _ & A).
exact A.
Defined.

(** X20. When the index is empty or the embedding of the query fails,
    [GenerateResponse] goes on: the last turn of the prompt puts the
    question in the wording for no document found, and the result is
    that of the completion. When the history cannot be read, the
    prompt is that turn alone. *)
Theorem GenerateResponse_without_context (w : World) (sorter : sort.Sorter)
  (s : core.RAGService) (chatID : string) (userID : Z) (userQuery : string)
  (st : State) :
  core.dataChunks s = []
  \/ snd (ragFacts.embedding_answer w (List.length (gateway_calls st))
            userQuery) <> None ->
  let r := core.GenerateResponse w s chatID userID userQuery st in
  let question := bare_question userQuery in
  let prompt :=
    (map core.to_content (chatFacts.history_of w chatID st)
       ++ [question])%list in
  exists calls,
    (calls = [] \/ calls = [CallEmbedContent userQuery])
    /\ gateway_calls (snd r)
       = (gateway_calls st ++ calls
            ++ [CallSendMessage prompt (genai.Parts question)])%list
    /\ fst r
       = match chatFacts.completion_answer
                 (SendMessage w
                    (List.length (gateway_calls st) + List.length calls)
                    prompt (genai.Parts question)) with
         | (_, Some e) => ("", Some (Wrapf "failed to get LLM completion" e))
         | (modelResponse, None) => (modelResponse, None)
         end
    /\ (sql_fails w (sql_count st) <> None -> prompt = [question]).
Proof.
intros NoContext. cbv zeta. rewrite chatFacts.GenerateResponse_run.
cbv zeta. set (st1 := set_sql_count (S (sql_count st)) st).
assert (H : exists calls,
          (calls = [] \/ calls = [CallEmbedContent userQuery])
          /\ snd (core.GetRelevantContext w s userQuery st1)
             = set_gateway_calls (gateway_calls st ++ calls) st1
          /\ match snd (fst (core.GetRelevantContext w s userQuery st1)) with
             | Some _ => ""
             | None => fst (fst (core.GetRelevantContext w s userQuery st1))
             end = "").
{ rewrite ragFacts.GetRelevantContext_eq.
  destruct (List.length (core.dataChunks s) =? 0)%nat eqn:L.
  - exists []. split; [now left|]. split; [|reflexivity].
    cbn [snd]. symmetry. exact (chatFacts.set_gateway_calls_same st1).
  - exists [CallEmbedContent userQuery]. split; [now right|]. cbv zeta.
    change (gateway_calls st1) with (gateway_calls st).
    destruct NoContext as [E|E]; [rewrite E in L; discriminate|].
    destruct (ragFacts.embedding_answer w _ userQuery) as [q [e|]];
      [split; reflexivity | now elim E]. }
destruct H as (calls & Calls & E & Ctx).
rewrite Ctx, E. exists calls. split; [exact Calls|].
cbn [gateway_calls set_gateway_calls st1 set_sql_count].
rewrite length_app, <- app_assoc.
split; [reflexivity|]. split; [reflexivity|].
intros F. unfold chatFacts.history_of.
destruct (sql_fails w (sql_count st)); [reflexivity | now elim F].
Qed.

Lemma GenerateResponse_without_context_witness :
  gateway_calls
    (snd (core.GenerateResponse Examples.offline (sorter := sort.toolchain)
            {| core.dataChunks := [Examples.paris] |} "c1" 8 "How many?"
            Examples.empty))
  = [CallEmbedContent "How many?";
     CallSendMessage [bare_question "How many?"]
       (genai.Parts (bare_question "How many?"))].
Proof.
destruct (@GenerateResponse_without_context Examples.offline sort.toolchain
            {| core.dataChunks := [Examples.paris] |} "c1" 8 "How many?"
            Examples.empty) as (calls & [C|C] & A & _);
  [right; discriminate | | ]; subst calls.
- vm_compute in A. discriminate.
- rewrite A. reflexivity.
Defined.

End retrievalFacts.

(* ================================================================= *)
(** ** From ingestion to the index of the service *)

Module indexFacts.

(** *** From the file to the index of the service *)

(** The rows of the chunk table for texts and embeddings stored after
    the identifier [seq]. *)
Fixpoint stored (seq : Z) (kept : list (string * list float32))
  : list DataChunk.t :=
  match kept with
  | [] => []
  | (text, v) :: rest =>
      {| DataChunk.ID := (seq + 1)%Z; DataChunk.Content := text;
         DataChunk.Embedding := v; DataChunk.EmbeddingJSON := Some v |}
      :: stored (seq + 1) rest
  end.

Section Healthy.

Variable w : World.
Hypothesis healthy : forall n, sql_fails w n = None.

Lemma createDataChunk_stored (row : string) (v : list float32) (st : State) :
  store.createDataChunk w (ingestFacts.raw_chunk row v) st
  = if forallb json_finite v
    then
      let chunk :=
        {| DataChunk.ID := (chunk_seq st + 1)%Z; DataChunk.Content := row;
           DataChunk.Embedding := v; DataChunk.EmbeddingJSON := Some v |} in
      ((chunk, None),
       set_data_chunks (data_chunks st ++ [chunk]) (chunk_seq st + 1)
         (set_sql_count (2 + sql_count st) st))
    else
      ((ingestFacts.raw_chunk row v,
        Some (Wrapf "failed to marshal embedding"
                (Errorf "json: unsupported value"))), st).
Proof.
unfold store.createDataChunk, json_Marshal.
cbn [DataChunk.Embedding ingestFacts.raw_chunk].
destruct (forallb json_finite v); [|reflexivity].
unfold bind, sql, gets, modify, pure. rewrite healthy. cbn.
rewrite healthy. reflexivity.
Qed.

Lemma embed_loop_stored (rows : list string) (count : nat) (st : State) :
  let r := store.embed_loop w (core.GetEmbedding w) rows count st in
  let kept := filter (ingestFacts.storable w)
                (ingestFacts.attempts (List.length (gateway_calls st)) rows)
  in
  data_chunks (snd r)
  = (data_chunks st
       ++ stored (chunk_seq st) (map (ingestFacts.embedded w) kept))%list
  /\ chats (snd r) = chats st /\ messages (snd r) = messages st.
Proof.
cbv zeta. revert count st.
induction rows as [|row rows IH]; intros count st.
- cbn. now rewrite app_nil_r.
- rewrite (ingestFacts.embed_loop_cons w row rows count st). cbv zeta.
  unfold ingestFacts.attempts. cbn [List.length seq combine filter].
  fold (ingestFacts.attempts (S (List.length (gateway_calls st))) rows).
  set (st1 := set_gateway_calls
                (gateway_calls st ++ [CallEmbedContent row]) st).
  assert (L : List.length (gateway_calls st1)
              = S (List.length (gateway_calls st))).
  { subst st1. cbn. rewrite length_app. cbn. lia. }
  unfold ingestFacts.storable at 1, ingestFacts.succeeds. cbn [fst snd].
  destruct (ragFacts.embedding_answer w (List.length (gateway_calls st)) row)
    as [v [e|]] eqn:A; cbn [fst snd andb].
  + specialize (IH count st1). rewrite L in IH. exact IH.
  + rewrite createDataChunk_stored.
    destruct (forallb json_finite v); cbn [fst snd].
    * match goal with
      | |- context [store.embed_loop w _ rows (S count) ?s2] =>
          specialize (IH (S count) s2); set (st2 := s2) in *
      end.
      assert (L2 : List.length (gateway_calls st2)
                   = S (List.length (gateway_calls st))) by exact L.
      rewrite L2 in IH. destruct IH as (D & C & M).
      split; [|split; assumption].
      rewrite D. cbn [map stored]. unfold ingestFacts.embedded at 2.
      cbn [fst snd]. rewrite A. cbn [fst].
      cbn [data_chunks chunk_seq set_data_chunks st2].
      rewrite <- app_assoc. reflexivity.
    * specialize (IH count st1). rewrite L in IH. exact IH.
Qed.

End Healthy.

Lemma stored_ID (k : nat) (kept : list (string * list float32)) :
  map DataChunk.ID (map store.scan_chunk (stored (Z.of_nat k) kept))
  = map Z.of_nat (seq (S k) (List.length kept)).
Proof.
revert k. induction kept as [|[text v] kept IH]; intros k; [reflexivity|].
cbn [stored map List.length seq store.scan_chunk DataChunk.ID].
replace (Z.of_nat k + 1)%Z with (Z.of_nat (S k)) by lia.
now rewrite IH.
Qed.

Lemma stored_text_and_embedding (seq : Z)
  (kept : list (string * list float32)) :
  map ingestFacts.text_and_embedding (map store.scan_chunk (stored seq kept))
  = kept.
Proof.
revert seq. induction kept as [|[text v] kept IH]; intros seq;
  [reflexivity|].
cbn [stored map]. now rewrite IH.
Qed.

Lemma NewRAGService_run (w : World) (st : State) :
  core.NewRAGService w st
  = (match sql_fails w (sql_count st) with
     | Some e =>
         (None,
          Some (Wrapf "failed to load data chunks for RAG service"
                  (Wrapf "failed to query data_chunks" e)))
     | None =>
         (Some {| core.dataChunks := map store.scan_chunk (data_chunks st) |},
          None)
     end,
     set_sql_count (S (sql_count st)) st).
Proof.
unfold core.NewRAGService, store.GetAllDataChunks, bind, sql, gets, pure.
now destruct (sql_fails w (sql_count st)).
Qed.

(** X21. After the ingestion of a document with rows, by a database that
    executes every statement, [NewRAGService] holds one chunk per row
    stored, in the order of the document, numbered from 1, with the
    text of the row and the embedding that the gateway gave;
    ingestion returns their number. The chunks of earlier ingestions
    are gone; chats and messages are untouched. *)
Theorem NewRAGService_after_ingestion (w : World)
  (filePath fileContent : string) (st : State) :
  ReadFile w filePath = Returned fileContent ->
  (forall n, sql_fails w n = None) ->
  ingestFacts.rows_of fileContent <> [] ->
  let r := store.IngestDataFromFile w filePath (core.GetEmbedding w) st in
  let kept :=
    filter (ingestFacts.storable w)
      (ingestFacts.attempts (List.length (gateway_calls st))
         (ingestFacts.rows_of fileContent)) in
  exists s,
    fst (core.NewRAGService w (snd r)) = (Some s, None)
    /\ fst r = (List.length (core.dataChunks s), None)
    /\ map DataChunk.ID (core.dataChunks s)
       = map Z.of_nat (seq 1 (List.length kept))
    /\ map ingestFacts.text_and_embedding (core.dataChunks s)
       = map (ingestFacts.embedded w) kept
    /\ chats (snd r) = chats st
    /\ messages (snd r) = messages st.
Proof.
intros F Healthy NE. cbv zeta.
rewrite (@ingestFacts.IngestDataFromFile_eq w Healthy filePath fileContent
           st F).
destruct (ingestFacts.rows_of fileContent) as [|row rows] eqn:R;
  [now elim NE|].
cbv zeta. cbn [fst snd].
set (st1 := set_sql_count (2 + sql_count st) (set_data_chunks [] 0 st)).
destruct (@embed_loop_stored w Healthy (row :: rows) 0 st1) as (D & C & M).
destruct (@ingestFacts.embed_loop_run w Healthy (row :: rows) 0 st1)
  as (N & _).
cbv zeta in D, C, M, N.
change (gateway_calls st1) with (gateway_calls st) in *.
set (kept := filter (ingestFacts.storable w)
               (ingestFacts.attempts (List.length (gateway_calls st))
                  (row :: rows))) in *.
rewrite NewRAGService_run, Healthy. cbn [fst].
eexists. split; [reflexivity|]. cbn [core.dataChunks]. rewrite D.
cbn [data_chunks chunk_seq st1 set_sql_count set_data_chunks app].
split; [|split; [|split; [|split]]].
- rewrite N. cbn [Nat.add]. f_equal.
  rewrite <- (length_map DataChunk.ID), (stored_ID 0), length_map, length_seq.
  now rewrite length_map.
- rewrite (stored_ID 0). now rewrite length_map.
- apply stored_text_and_embedding.
- exact C.
- exact M.
Qed.

Lemma NewRAGService_after_ingestion_witness :
  let w := ingestFacts.second_call_fails in
  let r := store.IngestDataFromFile w "data.md" (core.GetEmbedding w)
             (set_data_chunks [Examples.sky] 9 Examples.empty) in
  exists s,
    fst (core.NewRAGService w (snd r)) = (Some s, None)
    /\ map DataChunk.ID (core.dataChunks s) = [1%Z; 2%Z]
    /\ map DataChunk.Content (core.dataChunks s)
       = ["Paris is the capital of France"; "Water is wet"].
Proof.
cbv zeta.
destruct (@NewRAGService_after_ingestion ingestFacts.second_call_fails
            "data.md" ingestFacts.three_rows
            (set_data_chunks [Examples.sky] 9 Examples.empty))
  as (s & A & _ & B & C & _);
  [reflexivity | reflexivity | vm_compute; discriminate |].
exists s. split; [exact A|]. split; [exact B|].
assert (E : map DataChunk.Content (core.dataChunks s)
            = map fst (map ingestFacts.text_and_embedding
                         (core.dataChunks s)))
  by (rewrite map_map; reflexivity).
rewrite E, C. vm_compute. reflexivity.
Defined.

(** X22. Whatever the embedder, [IngestDataFromFile] returns zero and
    the error of [os.ReadFile], wrapped with the path, when the file
    cannot be read, and leaves the state as it is; when the document
    has rows and the deletion of the old chunks fails, it returns zero
    and that error, wrapped, keeps the old chunks and embeds
    nothing. *)
Theorem IngestDataFromFile_aborts (w : World) (filePath : string)
  (embedder : string -> M (ret (list float32))) (st : State) :
  let r := store.IngestDataFromFile w filePath embedder st in
  match ReadFile w filePath with
  | Failed e =>
      r = ((0%nat,
            Some (Wrapf ("failed to read data file " ++ filePath) e)), st)
  | Returned fileContent =>
      ingestFacts.rows_of fileContent <> [] ->
      forall e, sql_fails w (sql_count st) = Some e ->
      r = ((0%nat,
            Some (Wrapf "failed to clear existing data chunks"
                    (Wrapf "failed to delete data_chunks" e))),
           set_sql_count (S (sql_count st)) st)
  end.
Proof.
cbv zeta. unfold store.IngestDataFromFile, os_ReadFile, bind, pure.
destruct (ReadFile w filePath) as [e|fileContent]; [reflexivity|].
cbv beta iota zeta. unfold ingestFacts.rows_of. intros NE e S0.
match goal with
| |- context [store.parse_lines ?a ?b ?c] =>
    destruct (store.parse_lines a b c) as [|row rows]
end; [now elim NE|].
cbn [List.length Nat.eqb].
unfold bind, store.ClearDataChunks, bind, sql, pure. cbv beta iota.
now rewrite S0.
Qed.

(** The world of [ingestFacts.second_call_fails] with a database that
    refuses every statement. *)
Definition refusing : World :=
  {| sql_fails := fun _ => Some (External 5);
     EmbedContent := EmbedContent ingestFacts.second_call_fails;
     SendMessage := SendMessage Examples.offline;
     GenerateContent := GenerateContent Examples.offline;
     ReadFile := fun _ => Returned ingestFacts.three_rows;
     NewString := NewString Examples.offline;
     Now := Now Examples.offline |}.

Lemma IngestDataFromFile_aborts_witness :
  let st := set_data_chunks [Examples.sky] 9 Examples.empty in
  let r := store.IngestDataFromFile refusing "data.md"
             (core.GetEmbedding refusing) st in
  fst (fst r) = 0%nat /\ data_chunks (snd r) = [Examples.sky]
  /\ gateway_calls (snd r) = [].
Proof.
cbv zeta.
assert (A := @IngestDataFromFile_aborts refusing "data.md"
               (core.GetEmbedding refusing)
               (set_data_chunks [Examples.sky] 9 Examples.empty)).
cbv zeta in A.
change (ReadFile refusing "data.md") with (Returned ingestFacts.three_rows)
  in A.
cbv iota in A.
rewrite (A ltac:(vm_compute; discriminate) (External 5) eq_refl).
repeat split.
Defined.

End indexFacts.

(* ================================================================= *)
(** ** The parsing of the document *)

Module parseFacts.

(** *** The bytes that trimming and splitting keep *)

Definition bytes (s : string) : list ascii := list_ascii_of_string s.

(** Every byte of [a] is a byte of [b]. *)
Definition within (a b : string) : Prop := incl (bytes a) (bytes b).

Lemma within_refl (a : string) : within a a.
Proof. apply incl_refl. Qed.

Lemma within_trans (a b c : string) : within a b -> within b c -> within a c.
Proof. apply incl_tran. Qed.

Lemma within_empty (a : string) : within "" a.
Proof. intros x []. Qed.

Lemma within_tail (c : ascii) (a b : string) :
  within a b -> within a (String c b).
Proof. intros H x Hx. right. now apply H. Qed.

Lemma substring_within (n m : nat) (s : string) : within (substring n m s) s.
Proof.
revert n m. induction s as [|c s IH]; intros [|n] [|m]; cbn;
  try apply within_refl; try apply within_empty.
- intros x [<-|Hx]; [now left|]. right. now apply (IH 0%nat m).
- apply within_tail, IH.
- apply within_tail, IH.
Qed.

Lemma TrimLeftFunc_within (s : string) (f : N -> bool) :
  within (strings.TrimLeftFunc s f) s.
Proof.
unfold strings.TrimLeftFunc.
destruct (strings.indexFunc s f false); [|apply within_empty].
apply substring_within.
Qed.

Lemma TrimRightFunc_within (s : string) (f : N -> bool) :
  within (strings.TrimRightFunc s f) s.
Proof.
unfold strings.TrimRightFunc.
destruct (strings.lastIndexFunc s f false); [|apply within_empty].
destruct (_ <=? _)%N; apply substring_within.
Qed.

Lemma TrimFunc_within (s : string) (f : N -> bool) :
  within (strings.TrimFunc s f) s.
Proof.
unfold strings.TrimFunc.
apply within_trans with (strings.TrimLeftFunc s f).
- apply TrimRightFunc_within.
- apply TrimLeftFunc_within.
Qed.

Lemma TrimSpace_stop_within (rev_tail : list ascii) :
  incl (bytes (strings.TrimSpace_stop rev_tail)) rev_tail.
Proof.
induction rev_tail as [|c rest IH]; [intros x []|].
cbn [strings.TrimSpace_stop].
assert (R : incl (bytes (string_of_list_ascii (rev (c :: rest))))
              (c :: rest)).
{ unfold bytes. rewrite list_ascii_of_string_of_list_ascii.
  intros x Hx. now apply in_rev. }
destruct (_ <=? _)%N.
- apply incl_tran with (2 := R). apply TrimRightFunc_within.
- destruct (strings.asciiSpace (byte_val c)); [|exact R].
  intros x Hx. right. now apply IH.
Qed.

Lemma TrimSpace_within (s : string) : within (strings.TrimSpace s) s.
Proof.
induction s as [|c s IH]; [apply within_refl|].
cbn [strings.TrimSpace]. destruct (_ <=? _)%N; [apply TrimFunc_within|].
destruct (strings.asciiSpace (byte_val c)); [now apply within_tail|].
intros x Hx. apply TrimSpace_stop_within in Hx. now apply in_rev in Hx.
Qed.

Lemma Split_parts (s : string) (sep : ascii) (p : string) :
  In p (strings.Split s sep) -> within p s /\ ~ In sep (bytes p).
Proof.
revert p. induction s as [|c s IH]; intros p; cbn [strings.Split].
- intros [<-|[]]. split; [apply within_refl | intros []].
- destruct (Ascii.eqb_spec c sep) as [E|E].
  + intros [<-|H]; [split; [apply within_empty | intros []]|].
    destruct (IH p H) as [W N]. split; [now apply within_tail | exact N].
  + destruct (strings.Split s sep) as [|h t] eqn:S.
    * intros [<-|[]]. split.
      -- intros x [<-|[]]. now left.
      -- intros [H|[]]. now elim E.
    * intros [<-|H].
      -- destruct (IH h (or_introl eq_refl)) as [W N]. split.
         ++ intros x [<-|Hx]; [now left|]. right. now apply W.
         ++ intros [H|H]; [now elim E | now elim N].
      -- destruct (IH p (or_intror H)) as [W N].
         split; [now apply within_tail | exact N].
Qed.

(** *** The rows of a document *)

(** A row is a text without vertical bar or line feed, and not empty. *)
Definition row_text (row : string) : Prop :=
  row <> ""
  /\ ~ In "|"%char (bytes row)
  /\ ~ In store.line_feed (bytes row).

Lemma parse_lines_rows (lines : list string) (i : nat)
  (rawChunks : list string) :
  Forall (fun line => ~ In store.line_feed (bytes line)) lines ->
  Forall row_text rawChunks ->
  Forall row_text (store.parse_lines lines i rawChunks).
Proof.
intros L. revert i rawChunks.
induction L as [|line lines Hline _ IH]; intros i rawChunks R;
  [exact R|].
cbn [store.parse_lines]. cbv zeta.
destruct (strings.TrimSpace line =? ""); [now apply IH|].
destruct (_ && _ && _)%bool; [now apply IH|].
destruct (_ && _ && _)%bool; [now apply IH|].
destruct (_ && _)%bool; [|now apply IH].
destruct (3 <=? List.length (strings.Split (strings.TrimSpace line) "|"))%nat
  eqn:Three; [|now apply IH].
destruct (strings.TrimSpace
            (nth 1 (strings.Split (strings.TrimSpace line) "|") "") =? "")
  eqn:Cell; cbn [negb]; [now apply IH|].
apply IH. apply Forall_app. split; [exact R|].
constructor; [|constructor].
assert (P : In (nth 1 (strings.Split (strings.TrimSpace line) "|") "")
              (strings.Split (strings.TrimSpace line) "|")).
{ apply nth_In. apply Nat.leb_le in Three. lia. }
apply Split_parts in P. destruct P as [W N].
assert (C := TrimSpace_within
               (nth 1 (strings.Split (strings.TrimSpace line) "|") "")).
split; [|split].
- intros E. rewrite E in Cell. discriminate.
- intros H. apply N. now apply C.
- intros H. apply Hline. apply (TrimSpace_within line). apply W.
  now apply C.
Qed.

(** X23. Every row that the parsing loop of [IngestDataFromFile]
    extracts from a document is a text that is not empty and holds
    neither a vertical bar nor a line feed. *)
Theorem rows_of_row_text (fileContent : string) :
  Forall row_text (ingestFacts.rows_of fileContent).
Proof.
unfold ingestFacts.rows_of. apply parse_lines_rows; [|constructor].
apply Forall_forall. intros line H. apply Split_parts in H. tauto.
Qed.

(** *** A table and its rows *)

(** An ASCII byte that is no white space. *)
Definition plain (b : ascii) : bool :=
  ((byte_val b <? utf8.RuneSelf)%N && negb (strings.asciiSpace (byte_val b)))
  %bool.

(** A cell: a text that begins and ends with such a byte and holds
    neither a vertical bar nor a line feed. *)
Definition cell (c : string) : Prop :=
  match bytes c with
  | [] => False
  | b :: _ => plain b = true /\ plain (last (bytes c) b) = true
  end
  /\ ~ In "|"%char (bytes c)
  /\ ~ In store.line_feed (bytes c).

Definition line_of (c : string) : string := "| " ++ c ++ " |".

Definition lines_of (cells : list string) : string :=
  ragFacts.join (map (fun c => line_of c ++ String store.line_feed "") cells).

(** The document: a header, a separator and one line per cell. *)
Definition table (cells : list string) : string :=
  "| text |"
  ++ String store.line_feed
       ("|------|" ++ String store.line_feed (lines_of cells)).

Lemma bytes_app (a b : string) : bytes (a ++ b) = (bytes a ++ bytes b)%list.
Proof.
unfold bytes. induction a as [|c a IH]; [reflexivity|]. cbn. now rewrite IH.
Qed.

Lemma string_of_bytes (s : string) : string_of_list_ascii (bytes s) = s.
Proof. apply string_of_list_ascii_of_string. Qed.

Lemma rev_last (b : ascii) (l : list ascii) :
  exists r, rev (b :: l) = last (b :: l) b :: r.
Proof.
destruct (rev (b :: l)) as [|x r] eqn:R.
- apply (f_equal (@List.length _)) in R. rewrite length_rev in R.
  discriminate.
- exists r. f_equal.
  assert (E : b :: l = rev (x :: r))
    by (rewrite <- R; now rewrite rev_involutive).
  rewrite E. cbn [rev]. now rewrite last_last.
Qed.

Lemma TrimSpace_stop_plain (b : ascii) (l : list ascii) :
  plain (last (b :: l) b) = true ->
  strings.TrimSpace_stop (rev (b :: l)) = string_of_list_ascii (b :: l).
Proof.
intros P. destruct (rev_last b l) as [r R]. rewrite R.
cbn [strings.TrimSpace_stop]. unfold plain in P.
apply andb_prop in P. destruct P as [P1 P2].
apply N.ltb_lt in P1. apply negb_true_iff in P2.
destruct (N.leb_spec utf8.RuneSelf (byte_val (last (b :: l) b))); [lia|].
rewrite P2, <- R. now rewrite rev_involutive.
Qed.

(** [TrimSpace] leaves a text that begins and ends with plain bytes. *)
Lemma TrimSpace_plain (s : string) (b : ascii) (l : list ascii) :
  bytes s = b :: l -> plain b = true -> plain (last (b :: l) b) = true ->
  strings.TrimSpace s = s.
Proof.
intros B P L. destruct s as [|c s]; [discriminate|].
unfold bytes in B. cbn in B. injection B as -> <-.
cbn [strings.TrimSpace]. unfold plain in P.
apply andb_prop in P. destruct P as [P1 P2].
apply N.ltb_lt in P1. apply negb_true_iff in P2.
destruct (N.leb_spec utf8.RuneSelf (byte_val b)); [lia|]. rewrite P2.
change (list_ascii_of_string (String b s))
  with (b :: list_ascii_of_string s).
rewrite (TrimSpace_stop_plain _ _ L). cbn.
now rewrite string_of_list_ascii_of_string.
Qed.

(** It cuts the spaces that surround a cell. *)
Lemma TrimSpace_cell (c : string) :
  cell c -> strings.TrimSpace (" " ++ c ++ " ") = c.
Proof.
intros (P & _). destruct c as [|b t]; [destruct P|].
unfold bytes in P. cbn [list_ascii_of_string] in P. destruct P as [P L].
change (" " ++ String b t ++ " ") with (String " " (String b (t ++ " "))).
cbn [strings.TrimSpace]. change (byte_val " ") with 32%N.
cbn [N.leb N.compare Pos.compare Pos.compare_cont utf8.RuneSelf
     strings.asciiSpace]. cbv beta iota.
assert (Q := P). unfold plain in Q.
apply andb_prop in Q. destruct Q as [P1 P2].
apply N.ltb_lt in P1. apply negb_true_iff in P2.
change ((utf8.RuneSelf <=? 32)%N) with false. cbv iota.
change (strings.asciiSpace 32) with true. cbv iota.
destruct (N.leb_spec utf8.RuneSelf (byte_val b)); [lia|]. rewrite P2.
change (list_ascii_of_string (String b (t ++ " ")))
  with (bytes (String b t ++ " ")).
rewrite bytes_app, rev_app_distr. cbn [bytes list_ascii_of_string rev app].
cbn [strings.TrimSpace_stop]. change (byte_val " ") with 32%N.
change ((utf8.RuneSelf <=? 32)%N) with false. cbv iota.
change (strings.asciiSpace 32) with true. cbv iota.
change (rev (list_ascii_of_string t) ++ [b])%list
  with (rev (b :: list_ascii_of_string t)).
rewrite (TrimSpace_stop_plain _ _ L). cbn.
now rewrite string_of_list_ascii_of_string.
Qed.

Lemma TrimSpace_line_of (c : string) :
  strings.TrimSpace (line_of c) = line_of c.
Proof.
unfold line_of.
apply TrimSpace_plain
  with (b := "|"%char) (l := (" "%char :: bytes c ++ [" "; "|"]%char)%list).
- change ("| " ++ c ++ " |") with (String "|" (String " " (c ++ " |"))).
  unfold bytes. cbn [list_ascii_of_string]. fold (bytes (c ++ " |")).
  now rewrite bytes_app.
- reflexivity.
- replace ("|"%char :: " "%char :: bytes c ++ [" "%char; "|"%char])%list
      with (("|"%char :: " "%char :: bytes c ++ [" "%char])
            ++ ["|"%char])%list
      by (cbn; rewrite <- app_assoc; reflexivity).
  now rewrite last_last.
Qed.

Lemma Split_app (a b : string) (sep : ascii) :
  ~ In sep (bytes a) ->
  strings.Split (a ++ String sep b) sep = a :: strings.Split b sep.
Proof.
induction a as [|c a IH]; intros N.
- cbn [append strings.Split]. now rewrite Ascii.eqb_refl.
- cbn [append strings.Split].
  destruct (Ascii.eqb_spec c sep) as [E|E]; [elim N; now left|].
  rewrite IH; [reflexivity|]. intros H. apply N. now right.
Qed.

Lemma Split_line_of (c : string) :
  cell c -> strings.Split (line_of c) "|" = [""; " " ++ c ++ " "; ""].
Proof.
intros (_ & N & _). unfold line_of.
change ("| " ++ c ++ " |") with (String "|" (" " ++ c ++ " |")).
cbn [strings.Split Ascii.eqb Bool.eqb]. f_equal.
replace (" " ++ c ++ " |") with ((" " ++ c ++ " ") ++ String "|" "").
- rewrite Split_app; [reflexivity|].
  change (" " ++ c ++ " ") with (String " " (c ++ " ")).
  unfold bytes. cbn [list_ascii_of_string]. fold (bytes (c ++ " ")).
  rewrite bytes_app. intros [H|H]; [discriminate|].
  apply in_app_or in H. destruct H as [H|[H|[]]]; [now apply N|].
  discriminate.
- cbn [append]. f_equal. now rewrite ragFacts.append_assoc.
Qed.

Lemma substring_skip (a b : string) (m : nat) :
  substring (String.length a) m (a ++ b) = substring 0 m b.
Proof. induction a as [|c a IH]; [reflexivity | exact IH]. Qed.

Lemma length_append (a b : string) :
  String.length (a ++ b) = (String.length a + String.length b)%nat.
Proof. induction a as [|c a IH]; cbn; [reflexivity | now rewrite IH]. Qed.

Lemma HasSuffix_line_of (c : string) :
  strings.HasSuffix (line_of c) "|" = true.
Proof.
unfold strings.HasSuffix, strings.drop, line_of.
replace ("| " ++ c ++ " |") with (("| " ++ c ++ " ") ++ "|")
  by (now rewrite !ragFacts.append_assoc).
rewrite length_append. cbn [String.length].
replace (String.length ("| " ++ c ++ " ") + 1 - 1)%nat
  with (String.length ("| " ++ c ++ " ")) by lia.
rewrite substring_skip.
replace (String.length ("| " ++ c ++ " ") + 1
         - String.length ("| " ++ c ++ " "))%nat with 1%nat by lia.
cbn [substring String.eqb Ascii.eqb Bool.eqb andb].
apply andb_true_iff. split; [|reflexivity]. apply Nat.leb_le. lia.
Qed.

(** One table row, after the header and the separator. *)
Lemma parse_lines_cell (c : string) (rest : list string) (i : nat)
  (rawChunks : list string) :
  cell c ->
  store.parse_lines (line_of c :: rest) (S (S i)) rawChunks
  = store.parse_lines rest (S (S (S i))) (rawChunks ++ [c]).
Proof.
intros C. cbn [store.parse_lines]. cbv zeta.
rewrite TrimSpace_line_of, HasSuffix_line_of, (Split_line_of C).
cbn [Nat.eqb andb List.length Nat.leb nth].
rewrite (TrimSpace_cell C).
assert (NE : (c =? "") = false).
{ destruct C as (P & _). destruct c; [destruct P | reflexivity]. }
rewrite NE. reflexivity.
Qed.

Lemma parse_lines_cells (cells : list string) (i : nat)
  (rawChunks : list string) :
  Forall cell cells ->
  store.parse_lines (map line_of cells ++ [""]) (S (S i)) rawChunks
  = (rawChunks ++ cells)%list.
Proof.
intros C. revert i rawChunks.
induction C as [|c cells Hc _ IH]; intros i rawChunks.
- cbn. now rewrite app_nil_r.
- cbn [map app]. rewrite (parse_lines_cell _ _ _ Hc), IH.
  now rewrite <- app_assoc.
Qed.

Lemma Split_lines_of (cells : list string) :
  Forall cell cells ->
  strings.Split (lines_of cells) store.line_feed
  = (map line_of cells ++ [""])%list.
Proof.
induction 1 as [|c cells Hc _ IH]; [reflexivity|].
unfold lines_of. cbn [map ragFacts.join fold_right].
fold (ragFacts.join
        (map (fun c => line_of c ++ String store.line_feed "") cells)).
fold (lines_of cells).
rewrite ragFacts.append_assoc. cbn [append].
rewrite Split_app; [now rewrite IH|].
destruct Hc as (_ & _ & N). unfold line_of.
change ("| " ++ c ++ " |") with (String "|" (String " " (c ++ " |"))).
unfold bytes. cbn [list_ascii_of_string]. fold (bytes (c ++ " |")).
rewrite bytes_app. intros [H|[H|H]]; try discriminate.
apply in_app_or in H. destruct H as [H|[H|[H|[]]]]; try discriminate.
now apply N.
Qed.

(** X24. From a table made of the header [| text |], a separator and one
    line [| c |] per cell, the parsing loop extracts the cells, in
    order; a cell is a text that begins and ends with an ASCII byte
    that is no white space, and holds neither a vertical bar nor a
    line feed. *)
Theorem rows_of_table (cells : list string) :
  Forall cell cells -> ingestFacts.rows_of (table cells) = cells.
Proof.
intros C. unfold ingestFacts.rows_of, table.
rewrite Split_app
  by (intros H; cbn in H; unfold store.line_feed in H; intuition discriminate).
rewrite Split_app
  by (intros H; cbn in H; unfold store.line_feed in H; intuition discriminate).
rewrite (Split_lines_of C).
cbn [store.parse_lines]. cbv zeta.
change (strings.TrimSpace "| text |") with "| text |".
change (strings.TrimSpace "|------|") with "|------|".
cbn [String.eqb Ascii.eqb Bool.eqb Nat.eqb andb].
change (strings.Contains "| text |" "|") with true.
change (strings.Contains (strings.ToLower "| text |") "text") with true.
change (strings.Contains "|------|" "|") with true.
change (strings.Contains "|------|" "---") with true.
cbn [andb orb].
apply (parse_lines_cells 0 [] C).
Qed.

Lemma rows_of_table_witness :
  ingestFacts.rows_of (table ["Paris is the capital of France"; "42%"])
  = ["Paris is the capital of France"; "42%"].
Proof.
apply rows_of_table.
repeat constructor; cbn; intuition discriminate.
Defined.

End parseFacts.

(* ================================================================= *)
(** ** The tabular document and its ingestion *)

Module documentFacts.
Import parseFacts.

(** *** The tabular document *)

(** The column of the table is named text or content, in any mixture
    of small and capital letters. *)
Inductive Column : Type :=
| TextColumn
| ContentColumn.

Definition column_name (col : Column) : string :=
  match col with
  | TextColumn => "text"
  | ContentColumn => "content"
  end.

Definition upper_byte (c : ascii) : ascii :=
  let n := byte_val c in
  if ((97 <=? n) && (n <=? 122))%N then ascii_of_N (n - 32) else c.

(** [s] with the letters marked in [caps] in capitals. *)
Fixpoint capitalise (caps : list bool) (s : string) : string :=
  match s, caps with
  | String c s', cap :: caps' =>
      String (if cap then upper_byte c else c) (capitalise caps' s')
  | _, _ => s
  end.

(** A line below the separator: a content row with its cell, an empty
    line, or a line that is no table row. *)
Inductive Line : Type :=
| Row (c : string)
| Blank
| Other (t : string).

(** A tabular source document: the lines before the table, the header
    row, the separator row and the lines below it. *)
Record Document : Type := {
  preamble : list string;
  column : Column;
  caps : list bool;
  rule : nat;
  body : list Line
}.

Fixpoint dashes (n : nat) : string :=
  match n with
  | O => ""
  | S n' => String "-" (dashes n')
  end.

Definition header_line (d : Document) : string :=
  line_of (capitalise (caps d) (column_name (column d))).

(** Three dashes or more between two bars. *)
Definition separator_line (d : Document) : string :=
  "|---" ++ dashes (rule d) ++ "|".

Definition line_text (l : Line) : string :=
  match l with
  | Row c => line_of c
  | Blank => ""
  | Other t => t
  end.

Definition lines (d : Document) : list string :=
  (preamble d
     ++ header_line d :: separator_line d :: map line_text (body d))%list.





(** A line that is no table row: it begins with an ASCII byte that is
    neither white space nor a vertical bar, ends with an ASCII byte
    that is no white space, and holds no line feed. *)
Definition other (t : string) : Prop :=
  match bytes t with
  | [] => False
  | b :: _ =>
      plain b = true /\ b <> "|"%char /\ plain (last (bytes t) b) = true
  end
  /\ ~ In store.line_feed (bytes t).



(** *** Letters *)






(** *** Searching a text *)




(** *** The lines of a document *)








(** *** What the parsing loop makes of each line *)







(** *** Ingestion of a document *)













End documentFacts.

(* ================================================================= *)
(** ** The sign of a magnitude *)

Module signFacts.

(** A float below zero in the order of the signs: a negative number,
    the negative zero or the negative infinity. A NaN is none of
    these: it is no number, and the embedding keeps neither the sign
    nor the payload of a NaN. *)
Definition negative (x : spec_float) : bool :=
  match x with
  | S754_zero s | S754_infinity s | S754_finite s _ _ => s
  | S754_nan => false
  end.

(** *** Rounding a mantissa that is not negative *)

Lemma shr_1_nonneg (mrs : shr_record) :
  (0 <= shr_m mrs)%Z -> (0 <= shr_m (shr_1 mrs))%Z.
Proof.
destruct mrs as [m r s]. destruct m as [|[p|p|]|p]; cbn; lia.
Qed.

Lemma iter_shr_1_nonneg (p : positive) (mrs : shr_record) :
  (0 <= shr_m mrs)%Z -> (0 <= shr_m (iter_pos shr_1 p mrs))%Z.
Proof.
revert mrs. induction p as [p IH|p IH|]; intros mrs H; cbn [iter_pos].
- apply IH, IH. now apply shr_1_nonneg.
- now apply IH, IH.
- now apply shr_1_nonneg.
Qed.

Lemma shr_fexp_nonneg (prec emax m e : Z) (l : location) :
  (0 <= m)%Z -> (0 <= shr_m (fst (shr_fexp prec emax m e l)))%Z.
Proof.
intros H. unfold shr_fexp, shr.
assert (R : (0 <= shr_m (shr_record_of_loc m l))%Z)
  by (destruct l as [|[]]; exact H).
destruct (_ - e)%Z; cbn [fst]; try exact R.
now apply iter_shr_1_nonneg.
Qed.

Lemma round_nearest_even_nonneg (m : Z) (l : location) :
  (0 <= m)%Z -> (0 <= round_nearest_even m l)%Z.
Proof.
intros H. unfold round_nearest_even.
destruct l as [|[]]; try destruct (Z.even m); lia.
Qed.

(** Rounding gives a NaN for a negative mantissa only. *)
Lemma binary_round_aux_number (prec emax : Z) (sx : bool) (mx ex : Z)
  (lx : location) :
  (0 <= mx)%Z ->
  F32Facts.is_nan (binary_round_aux prec emax sx mx ex lx) = false.
Proof.
intros H. unfold binary_round_aux.
assert (A := shr_fexp_nonneg prec emax ex lx H).
destruct (shr_fexp prec emax mx ex lx) as [mrs' e']. cbn [fst] in A.
assert (B := shr_fexp_nonneg prec emax e' loc_Exact
               (round_nearest_even_nonneg (loc_of_shr_record mrs') A)).
destruct (shr_fexp prec emax _ e' loc_Exact) as [mrs'' e'']. cbn [fst] in B.
destruct (shr_m mrs''); [reflexivity | | lia].
now destruct (e'' <=? emax - prec)%Z.
Qed.

Lemma binary_round_number (prec emax : Z) (sx : bool) (mx : positive)
  (ex : Z) :
  F32Facts.is_nan (binary_round prec emax sx mx ex) = false.
Proof.
unfold binary_round. destruct (shl_align mx ex _) as [mz ez].
apply binary_round_aux_number. lia.
Qed.

Lemma binary_round_aux_sign (prec emax : Z) (mx ex : Z) (lx : location) :
  negative (binary_round_aux prec emax false mx ex lx) = false.
Proof.
unfold binary_round_aux.
destruct (shr_fexp prec emax mx ex lx) as [mrs' e'].
destruct (shr_fexp prec emax _ e' loc_Exact) as [mrs'' e''].
destruct (shr_m mrs''); [reflexivity | | reflexivity].
now destruct (e'' <=? emax - prec)%Z.
Qed.

Lemma binary_round_sign (prec emax : Z) (mx : positive) (ex : Z) :
  negative (binary_round prec emax false mx ex) = false.
Proof.
unfold binary_round. destruct (shl_align mx ex _) as [mz ez].
apply binary_round_aux_sign.
Qed.

(** *** The operations of [magnitude] *)

Lemma round_to_sign (prec emax : Z) (x : spec_float) :
  negative x = false -> negative (F32.round_to prec emax x) = false.
Proof.
destruct x as [s|s| |s m e]; cbn; try (intros ->; reflexivity);
  try reflexivity.
intros ->. apply binary_round_sign.
Qed.

Lemma round_to_nan (prec emax : Z) (x : spec_float) :
  F32Facts.is_nan (F32.round_to prec emax x) = F32Facts.is_nan x.
Proof.
destruct x as [s|s| |s m e]; cbn [F32.round_to F32Facts.is_nan];
  try reflexivity.
apply binary_round_number.
Qed.

Lemma mul_self_sign (x : float32) : negative (F32.mul x x) = false.
Proof.
destruct x as [s|s| |s m e]; cbn; try apply xorb_nilpotent;
  try reflexivity.
rewrite xorb_nilpotent. apply binary_round_aux_sign.
Qed.

Lemma mul_self_nan (x : float32) :
  F32Facts.is_nan (F32.mul x x) = F32Facts.is_nan x.
Proof.
destruct x as [s|s| |s m e]; cbn [F32.mul SFmul F32Facts.is_nan];
  try reflexivity.
apply binary_round_aux_number. lia.
Qed.

Lemma add_sign (x y : float32) :
  negative x = false -> negative y = false -> negative (F32.add x y) = false.
Proof.
destruct x as [sx|sx| |sx mx ex], y as [sy|sy| |sy my ey]; cbn;
  try (intros -> ->; reflexivity); try reflexivity;
  try (intros _ ->; reflexivity); try (intros -> _; reflexivity).
intros -> ->. cbn [cond_Zopp Z.add]. unfold binary_normalize.
apply binary_round_sign.
Qed.

Lemma add_nan (x y : float32) :
  negative x = false -> negative y = false ->
  F32Facts.is_nan (F32.add x y)
  = (F32Facts.is_nan x || F32Facts.is_nan y)%bool.
Proof.
destruct x as [sx|sx| |sx mx ex], y as [sy|sy| |sy my ey];
  cbn [negative]; intros Hx Hy; subst; try reflexivity.
cbn [F32.add SFadd cond_Zopp Z.add F32Facts.is_nan orb].
unfold binary_normalize. apply binary_round_number.
Qed.

Lemma sqrt_sign (x : spec_float) :
  negative x = false -> negative (F32.math_Sqrt x) = false.
Proof.
destruct x as [s|s| |s m e]; cbn; try (intros ->; reflexivity);
  try reflexivity.
intros ->. destruct (SFsqrt_core_binary _ _ _ _) as [[mz ez] lz].
apply binary_round_aux_sign.
Qed.

Lemma sqrtrem_nonneg (n : Z) : (0 <= fst (Z.sqrtrem n))%Z.
Proof.
destruct n as [|p|p]; cbn; try lia.
destruct (Pos.sqrtrem p) as [s [|r|]]; cbn; lia.
Qed.

Lemma sqrt_nan (x : spec_float) :
  negative x = false ->
  F32Facts.is_nan (F32.math_Sqrt x) = F32Facts.is_nan x.
Proof.
destruct x as [s|s| |s m e]; cbn [negative]; intros H; subst;
  try reflexivity.
cbn [F32.math_Sqrt SFsqrt F32Facts.is_nan].
unfold SFsqrt_core_binary.
match goal with
| |- context [Z.sqrtrem ?n] =>
    assert (Q := sqrtrem_nonneg n); destruct (Z.sqrtrem n) as [q r]
end.
cbn [fst] in Q. now apply binary_round_aux_number.
Qed.

Lemma sumOfSquares_loop (vec : list float32) (acc : float32) :
  negative acc = false ->
  let sum := fold_left (fun acc val => F32.add acc (F32.mul val val)) vec acc
  in
  negative sum = false
  /\ F32Facts.is_nan sum
     = (F32Facts.is_nan acc || existsb F32Facts.is_nan vec)%bool.
Proof.
cbv zeta. revert acc. induction vec as [|v vec IH]; intros acc A.
- cbn. split; [exact A | now rewrite orb_false_r].
- cbn [fold_left existsb].
  destruct (IH (F32.add acc (F32.mul v v))) as [S N].
  { apply add_sign; [exact A | apply mul_self_sign]. }
  split; [exact S|].
  rewrite N, add_nan, mul_self_nan by (exact A || apply mul_self_sign).
  now rewrite orb_assoc.
Qed.

Lemma sumOfSquares_sign (vec : list float32) :
  negative (utils.sumOfSquares vec) = false.
Proof. now apply (sumOfSquares_loop vec F32.zero). Qed.

Lemma sumOfSquares_nan (vec : list float32) :
  F32Facts.is_nan (utils.sumOfSquares vec) = existsb F32Facts.is_nan vec.
Proof. now apply (sumOfSquares_loop vec F32.zero). Qed.

(** X25. [magnitude] never returns a negative number, the negative
    zero or the negative infinity. Its result is a NaN exactly when a
    component of the vector is a NaN, and a float whose sign bit is
    clear otherwise; it never compares below zero. *)
Theorem magnitude_not_negative (vec : list float32) :
  match utils.magnitude vec with
  | S754_nan => True
  | S754_zero s | S754_infinity s | S754_finite s _ _ => s = false
  end
  /\ F32Facts.is_nan (utils.magnitude vec) = existsb F32Facts.is_nan vec
  /\ F32.ltb (utils.magnitude vec) F32.zero = false.
Proof.
assert (S : negative (utils.magnitude vec) = false).
{ unfold utils.magnitude, F32.of_float64, F32.to_float64.
  apply round_to_sign, sqrt_sign, round_to_sign, sumOfSquares_sign. }
assert (N : F32Facts.is_nan (utils.magnitude vec)
            = existsb F32Facts.is_nan vec).
{ unfold utils.magnitude, F32.of_float64, F32.to_float64.
  rewrite round_to_nan, sqrt_nan, round_to_nan.
  - apply sumOfSquares_nan.
  - apply round_to_sign, sumOfSquares_sign. }
split; [|split; [exact N|]];
  destruct (utils.magnitude vec) as [s|s| |s m e]; cbn in S; subst;
  reflexivity || exact I.
Qed.

End signFacts.
